(** * Dance Studio Schedule Optimizer: the greedy two-phase scheduler

    A shallow embedding of [room_scheduler.py], [teacher_scheduler.py] and
    the statistics part of [scheduler.py], with the properties of the
    placements and teacher assignments they produce. *)

From Stdlib Require Import ZArith QArith List String Ascii Bool Permutation Lia.
From Stdlib Require Import DecimalString Lqa Sorted.
Import ListNotations.

Open Scope Z_scope.

(** ** Python values and dictionaries *)

(** Values read from the spreadsheet cells of preferences and
    specializations are dynamically typed: integers or strings. *)
Inductive pyval :=
| VInt (z : Z)
| VStr (s : string).

Definition pyval_eqb (a b : pyval) : bool :=
  match a, b with
  | VInt x, VInt y => Z.eqb x y
  | VStr x, VStr y => String.eqb x y
  | _, _ => false
  end.

(** [x in l] for a Python list. *)
Definition py_in (x : pyval) (l : list pyval) : bool :=
  existsb (pyval_eqb x) l.

(** A dictionary with keys of type [K], as an association list in insertion
    order (the keys are distinct); [dict_get] is [d.get(k)]. *)
Definition dict (K V : Type) := list (K * V).

Fixpoint dict_get {K V} (eqb : K -> K -> bool) (d : dict K V) (k : K) : option V :=
  match d with
  | [] => None
  | (k', v) :: d' => if eqb k k' then Some v else dict_get eqb d' k
  end.

(** [range(lo, hi)]. *)
Definition zrange (lo hi : Z) : list Z :=
  map (fun i => lo + Z.of_nat i) (seq 0 (Z.to_nat (hi - lo))).

(** [f"{n:02d}"]. *)
Definition pad2 (n : Z) : string :=
  let s := NilZero.string_of_int (Z.to_int n) in
  if (String.length s <? 2)%nat then ("0" ++ s)%string else s.

(** ** [data_loader.py]: day and slot conversions *)

Definition days : list string :=
  ["Monday"; "Tuesday"; "Wednesday"; "Thursday"; "Friday"; "Saturday"; "Sunday"]%string.

(** [index_to_day]: [None] outside [0 <= index < 7]. *)
Definition index_to_day (index : Z) : option string :=
  if (0 <=? index) && (index <? 7) then nth_error days (Z.to_nat index) else None.

(** [slot_index_to_time]. *)
Definition slot_index_to_time (slot_index : Z) : string :=
  (pad2 (slot_index / 4) ++ ":" ++ pad2 ((slot_index mod 4) * 15))%string.

(** [day_to_index]: [days.get(day, -1)] on the dictionary of the seven day
    names. *)
Definition day_indices : dict string Z :=
  [("Monday"%string, 0); ("Tuesday"%string, 1); ("Wednesday"%string, 2);
   ("Thursday"%string, 3); ("Friday"%string, 4); ("Saturday"%string, 5);
   ("Sunday"%string, 6)].

Definition day_to_index (day : string) : Z :=
  match dict_get String.eqb day_indices day with
  | Some i => i
  | None => -1
  end.

(** [time_to_slot_index]: [time.hour * 4 + time.minute // 15]. *)
Definition time_to_slot_index (hour minute : Z) : Z := hour * 4 + minute / 15.

(** ** Data model *)

(** A room record ([room_configurations] row). [component_rooms] is
    [None] when the cell is empty; the unused ["group"] field is left out. *)
Record room := {
  room_id : Z;
  room_name : string;
  is_combined : bool;
  component_rooms : option (list string)
}.

(** Truthiness of [room["component_rooms"]]. *)
Definition components (r : room) : list string :=
  match component_rooms r with Some l => l | None => [] end.

Definition has_components (r : room) : bool :=
  match components r with [] => false | _ => true end.

(** A class record. [duration] is the hour count read from the sheet and
    [duration_slots] is [int(duration * 4)]. *)
Record class_data := {
  class_id : Z;
  class_name : string;
  style : string;
  level : Z;
  age_start : Z;
  age_end : Z;
  duration : Q;
  duration_slots : Z
}.

(** A preference entry [{"value": ..., "weight": ...}]. *)
Record pref := { value : pyval; weight : Q }.

(** [class_preferences]: class_id -> kind -> list of preferences. *)
Definition class_prefs := dict Z (dict string (list pref)).

(** [teacher_specializations]: teacher_id -> kind -> list of values. *)
Definition teacher_specs := dict Z (dict string (list pyval)).

Definition prefs_of (cp : class_prefs) (cid : Z) (kind : string) : option (list pref) :=
  match dict_get Z.eqb cp cid with
  | Some prefs => dict_get String.eqb prefs kind
  | None => None
  end.

(** ** Availability matrices

    A dictionary keyed by [(id, day_idx, slot_idx)] read through
    [.get(key, False)]: a key that is absent reads as unavailable, so the
    dictionary is the function [key -> bool] it denotes. *)
Definition key := (Z * Z * Z)%type.
Definition matrix := key -> bool.

Definition key_eqb (a b : key) : bool :=
  let '(x1, y1, z1) := a in
  let '(x2, y2, z2) := b in
  (x1 =? x2) && (y1 =? y2) && (z1 =? z2).

(** [m[k] = b]. *)
Definition set (m : matrix) (k : key) (b : bool) : matrix :=
  fun k' => if key_eqb k' k then b else m k'.

(** The dictionary built by the loader: [True] at each listed key. *)
Definition avail_of_keys (ks : list key) : matrix :=
  fun k => existsb (key_eqb k) ks.

(** ** [create_room_availability_matrix] *)

(** The component-name lookup [for r in rooms: if r["room_name"] ==
    component_name: component_ids.append(r["room_id"]); break]. *)
Fixpoint first_room_named (rooms : list room) (n : string) : option Z :=
  match rooms with
  | [] => None
  | r :: rs => if String.eqb (room_name r) n then Some (room_id r) else first_room_named rs n
  end.

Definition component_ids (rooms : list room) (names : list string) : list Z :=
  flat_map (fun n => match first_room_named rooms n with Some i => [i] | None => [] end) names.

(** First loop, one combined room: for every key [(room_id, d, s)] holding
    [True], every component id is set to [False] at [(d, s)]. A write only
    touches keys with the same [(d, s)] as the key being read, so the loop
    over the keys acts pointwise. *)
Definition seed_combined_step (rooms : list room) (m : matrix) (room : room) : matrix :=
  if is_combined room && has_components room then
    let ids := component_ids rooms (components room) in
    fun k => let '(r, d, s) := k in
      if m (room_id room, d, s) && existsb (Z.eqb r) ids then false else m k
  else m.

(** Ids of the combined rooms whose component list names [name]. *)
Definition combined_ids_of (rooms : list room) (name : string) : list Z :=
  map room_id
    (filter (fun r => is_combined r && has_components r
                      && existsb (String.eqb name) (components r)) rooms).

(** Second loop, one non-combined room: where it holds [True], every combined
    room that lists it is set to [False]. *)
Definition seed_component_step (rooms : list room) (m : matrix) (room : room) : matrix :=
  if negb (is_combined room) then
    let ids := combined_ids_of rooms (room_name room) in
    fun k => let '(r, d, s) := k in
      if m (room_id room, d, s) && existsb (Z.eqb r) ids then false else m k
  else m.

Definition create_room_availability_matrix (rooms : list room) (room_availability : matrix)
  : matrix :=
  let room_time_slots := fold_left (seed_combined_step rooms) rooms room_availability in
  fold_left (seed_component_step rooms) rooms room_time_slots.

(** ** Sorting

    [list.sort(reverse=True)] and [list.sort(key=...)] are stable; both are
    modelled by insertion sorts that keep equal elements in their original
    order. [leb a b] is the order [a <= b] of the sort keys. *)
Fixpoint insert_desc {A} (leb : A -> A -> bool) (x : A) (l : list A) : list A :=
  match l with
  | [] => [x]
  | y :: t => if leb y x then x :: l else y :: insert_desc leb x t
  end.

Definition sort_desc {A} (leb : A -> A -> bool) (l : list A) : list A :=
  fold_right (insert_desc leb) [] l.

Fixpoint insert_asc {A} (leb : A -> A -> bool) (x : A) (l : list A) : list A :=
  match l with
  | [] => [x]
  | y :: t => if leb x y then x :: l else y :: insert_asc leb x t
  end.

Definition sort_asc {A} (leb : A -> A -> bool) (l : list A) : list A :=
  fold_right (insert_asc leb) [] l.

(** Python's ordering of the tuples [(score, x)]. *)
Definition Q_then {A} (leb : A -> A -> bool) (a b : Q * A) : bool :=
  match Qcompare (fst a) (fst b) with
  | Lt => true
  | Gt => false
  | Eq => leb (snd a) (snd b)
  end.

Definition key_leb (a b : key) : bool :=
  let '(x1, y1, z1) := a in
  let '(x2, y2, z2) := b in
  (x1 <? x2) || ((x1 =? x2) && ((y1 <? y2) || ((y1 =? y2) && (z1 <=? z2)))).

(** ** [sort_classes_by_difficulty] *)

(** The difficulty score. The loader never builds an empty preference list,
    so the divisions are by a positive length. *)
Definition difficulty_score (cp : class_prefs) (c : class_data) : Q :=
  let base := inject_Z (duration_slots c * 10) in
  match dict_get Z.eqb cp (class_id c) with
  | None => base
  | Some prefs =>
      let s1 := match dict_get String.eqb prefs "room"%string with
                | Some l => (base + 50 / inject_Z (Z.of_nat (List.length l)))%Q
                | None => (base - 20)%Q
                end in
      let s2 := match dict_get String.eqb prefs "day"%string with
                | Some l => (s1 + 30 / inject_Z (Z.of_nat (List.length l)))%Q
                | None => (s1 - 15)%Q
                end in
      match dict_get String.eqb prefs "time"%string with
      | Some l => (s2 + inject_Z (Z.of_nat (List.length l) * 5))%Q
      | None => s2
      end
  end.

Definition sort_classes_by_difficulty (classes : list class_data) (cp : class_prefs)
  : list class_data :=
  let class_scores := map (fun c => (difficulty_score cp c, class_id c)) classes in
  flat_map (fun sc => match find (fun c => class_id c =? snd sc) classes with
                      | Some c => [c]
                      | None => []
                      end)
           (sort_desc (Q_then Z.leb) class_scores).

(** ** [find_compatible_slots] *)

Definition pref_values (cp : class_prefs) (cid : Z) (kind : string) : list pyval :=
  match prefs_of cp cid kind with Some l => map value l | None => [] end.

Definition is_nil {A} (l : list A) : bool := match l with [] => true | _ => false end.

(** The inner [for offset in range(duration_slots)] check. *)
Definition fits (m : matrix) (rid d start dur : Z) : bool :=
  forallb (fun off => m (rid, d, start + off)) (zrange 0 dur).

Definition find_compatible_slots (c : class_data) (m : matrix) (rooms : list room)
  (cp : class_prefs) : list key :=
  let preferred_rooms := pref_values cp (class_id c) "room" in
  let preferred_days := pref_values cp (class_id c) "day" in
  let preferred_times := pref_values cp (class_id c) "time" in
  flat_map (fun room =>
    let rid := room_id room in
    if negb (is_nil preferred_rooms) && negb (py_in (VInt rid) preferred_rooms) then []
    else
      flat_map (fun d =>
        let day_in := match index_to_day d with
                      | Some n => py_in (VStr n) preferred_days
                      | None => false
                      end in
        if negb (is_nil preferred_days) && negb day_in then []
        else
          flat_map (fun st =>
            if negb (is_nil preferred_times) && negb (py_in (VInt st) preferred_times) then []
            else if fits m rid d st (duration_slots c) then [(rid, d, st)] else [])
            (zrange 0 96))
        (zrange 0 7))
    rooms.

(** ** Placement records *)

Record scheduled := {
  sc_class_id : Z;
  sc_class_name : string;
  sc_style : string;
  sc_level : Z;
  sc_age_start : Z;
  sc_age_end : Z;
  sc_duration : Q;
  sc_duration_slots : Z;
  sc_room_id : Z;
  sc_day_idx : Z;
  sc_day : option string;
  sc_start_slot : Z;
  sc_start_time : string;
  sc_end_slot : Z;
  sc_end_time : string;
  teacher_id : option Z
}.

(** [unscheduled_class = class_data.copy(); unscheduled_class["reason"] = ...] *)
Record unscheduled_class := { uc_class : class_data; uc_reason : string }.

Definition make_scheduled (c : class_data) (rid d st : Z) : scheduled := {|
  sc_class_id := class_id c;
  sc_class_name := class_name c;
  sc_style := style c;
  sc_level := level c;
  sc_age_start := age_start c;
  sc_age_end := age_end c;
  sc_duration := duration c;
  sc_duration_slots := duration_slots c;
  sc_room_id := rid;
  sc_day_idx := d;
  sc_day := index_to_day d;
  sc_start_slot := st;
  sc_start_time := slot_index_to_time st;
  sc_end_slot := st + duration_slots c;
  sc_end_time := slot_index_to_time (st + duration_slots c);
  teacher_id := None
|}.

(** ** [score_slot] *)

(** The time-preference test [isinstance(time_slot, int) and time_slot <=
    start_slot < time_slot + class_data["duration_slots"]]. *)
Definition time_hit (c : class_data) (start_slot : Z) (p : pref) : bool :=
  match value p with
  | VInt time_slot => (time_slot <=? start_slot) && (start_slot <? time_slot + duration_slots c)
  | VStr _ => false
  end.

(** The three preference parts; each loop stops at its first match. *)
Definition room_pref_score (rid : Z) (prefs : dict string (list pref)) : Q :=
  match dict_get String.eqb prefs "room"%string with
  | Some ps => match find (fun p => pyval_eqb (value p) (VInt rid)) ps with
               | Some p => (weight p * 10)%Q
               | None => 0%Q
               end
  | None => 0%Q
  end.

Definition day_pref_score (d : Z) (prefs : dict string (list pref)) : Q :=
  match dict_get String.eqb prefs "day"%string with
  | Some ps => match index_to_day d with
               | Some day_name =>
                   match find (fun p => pyval_eqb (value p) (VStr day_name)) ps with
                   | Some p => (weight p * 8)%Q
                   | None => 0%Q
                   end
               | None => 0%Q
               end
  | None => 0%Q
  end.

Definition time_pref_score (c : class_data) (st : Z) (prefs : dict string (list pref)) : Q :=
  match dict_get String.eqb prefs "time"%string with
  | Some ps => match find (time_hit c st) ps with
               | Some p => (weight p * 5)%Q
               | None => 0%Q
               end
  | None => 0%Q
  end.

Definition pref_score (slot : key) (c : class_data) (cp : class_prefs) : Q :=
  let '(rid, d, st) := slot in
  match dict_get Z.eqb cp (class_id c) with
  | None => 0%Q
  | Some prefs => (room_pref_score rid prefs + day_pref_score d prefs + time_pref_score c st prefs)%Q
  end.

Definition count_in_room (scheduled_classes : list scheduled) (rid : Z) : Z :=
  Z.of_nat (List.length (filter (fun s => sc_room_id s =? rid) scheduled_classes)).

Definition count_on_day (scheduled_classes : list scheduled) (d : Z) : Z :=
  Z.of_nat (List.length (filter (fun s => sc_day_idx s =? d) scheduled_classes)).

(** Room balance: [room_counts] has the ids of [rooms] as keys. *)
Definition room_balance (rid : Z) (scheduled_classes : list scheduled) (rooms : list room) : Z :=
  let ids := map room_id rooms in
  let current_room_count :=
    if existsb (Z.eqb rid) ids then count_in_room scheduled_classes rid else 0 in
  let max_room_count :=
    fold_left (fun acc r => Z.max acc (count_in_room scheduled_classes r)) ids 0 in
  if 0 <? max_room_count then (max_room_count - current_room_count) * 3 else 0.

(** Day balance: [day_counts] has the keys [0..6]; the placed classes'
    days are in that range. *)
Definition day_balance (d : Z) (scheduled_classes : list scheduled) : Z :=
  let current_day_count :=
    if (0 <=? d) && (d <? 7) then count_on_day scheduled_classes d else 0 in
  let max_day_count :=
    fold_left (fun acc d' => Z.max acc (count_on_day scheduled_classes d')) (zrange 0 7) 0 in
  if 0 <? max_day_count then (max_day_count - current_day_count) * 2 else 0.

(** Time continuity over the classes already placed in the same room and day. *)
Definition continuity (slot : key) (c : class_data) (scheduled_classes : list scheduled) : Z :=
  let '(rid, d, st) := slot in
  fold_left (fun acc s =>
    if (sc_room_id s =? rid) && (sc_day_idx s =? d) then
      let after :=
        if sc_end_slot s =? st then
          (if String.eqb (sc_style s) (style c) then 5 else 0)
          + (if sc_level s + 1 =? level c then 3 else 0)
        else 0 in
      let before :=
        if st + duration_slots c =? sc_start_slot s then
          (if String.eqb (sc_style s) (style c) then 5 else 0)
          + (if level c + 1 =? sc_level s then 3 else 0)
        else 0 in
      acc + after + before
    else acc) scheduled_classes 0.

Definition score_slot (slot : key) (c : class_data) (cp : class_prefs)
  (scheduled_classes : list scheduled) (rooms : list room) : Q :=
  let '(rid, d, st) := slot in
  (pref_score slot c cp
   + inject_Z (room_balance rid scheduled_classes rooms)
   + inject_Z (day_balance d scheduled_classes)
   + inject_Z (continuity slot c scheduled_classes))%Q.

(** ** [assign_classes_to_slots] *)

(** The update of one slot [start_slot + offset]: the room itself, then for
    every [room] of [rooms] the two conflict loops of the source. *)
Definition mark_slot (rooms : list room) (m : matrix) (rid d s : Z) : matrix :=
  let m := set m (rid, d, s) false in
  fold_left (fun m room =>
    let m :=
      if (room_id room =? rid) && is_combined room && has_components room then
        fold_left (fun m component_name =>
          fold_left (fun m r =>
            if String.eqb (room_name r) component_name
            then set m (room_id r, d, s) false
            else m) rooms m) (components room) m
      else m in
    fold_left (fun m r =>
      if is_combined r && has_components r then
        fold_left (fun m component_name =>
          fold_left (fun m comp_room =>
            if String.eqb (room_name comp_room) component_name && (room_id comp_room =? rid)
            then set m (room_id r, d, s) false
            else m) rooms m) (components r) m
      else m) rooms m) rooms m.

Definition mark_placement (rooms : list room) (m : matrix) (rid d start dur : Z) : matrix :=
  fold_left (fun m offset => mark_slot rooms m rid d (start + offset)) (zrange 0 dur) m.

Definition no_slot_reason : string := "No compatible room-time slot found".

(** The loop state: the matrix [room_time_slots] and the two result lists. *)
Definition room_state := (matrix * list scheduled * list unscheduled_class)%type.

(** The best slot: the first entry of the scored list sorted descending. *)
Definition best_slot (c : class_data) (cp : class_prefs) (sch : list scheduled)
  (rooms : list room) (compatible_slots : list key) : option key :=
  let scored_slots := map (fun slot => (score_slot slot c cp sch rooms, slot)) compatible_slots in
  match sort_desc (Q_then key_leb) scored_slots with
  | [] => None
  | (_, slot) :: _ => Some slot
  end.

Definition place_class (rooms : list room) (cp : class_prefs) (st : room_state)
  (c : class_data) : room_state :=
  let '(m, sch, uns) := st in
  match best_slot c cp sch rooms (find_compatible_slots c m rooms cp) with
  | Some (rid, d, s) =>
      (mark_placement rooms m rid d s (duration_slots c), sch ++ [make_scheduled c rid d s], uns)
  | None =>
      (m, sch, uns ++ [{| uc_class := c; uc_reason := no_slot_reason |}])
  end.

Definition assign_classes_to_slots (classes : list class_data) (rooms : list room)
  (room_availability : matrix) (cp : class_prefs) : list scheduled * list unscheduled_class :=
  let room_time_slots := create_room_availability_matrix rooms room_availability in
  let sorted_classes := sort_classes_by_difficulty classes cp in
  let '(_, sch, uns) := fold_left (place_class rooms cp) sorted_classes (room_time_slots, [], []) in
  (sch, uns).

(** ** [score_teacher] *)

(** [str(n)] for an integer. *)
Definition py_str_int (n : Z) : string := NilZero.string_of_int (Z.to_int n).

(** [s.split(sep)]. *)
Fixpoint split_on (sep : ascii) (s : string) : list string :=
  match s with
  | EmptyString => [EmptyString]
  | String a rest =>
      if Ascii.eqb a sep then EmptyString :: split_on sep rest
      else match split_on sep rest with
           | w :: ws => String a w :: ws
           | [] => [String a EmptyString]
           end
  end.

Definition is_py_space (a : ascii) : bool :=
  let n := nat_of_ascii a in (Nat.eqb n 32 || ((9 <=? n) && (n <=? 13))%nat).

Fixpoint drop_space (l : list ascii) : list ascii :=
  match l with
  | a :: t => if is_py_space a then drop_space t else l
  | [] => []
  end.

Fixpoint digits_acc (acc : Z) (l : list ascii) : option Z :=
  match l with
  | [] => Some acc
  | a :: t =>
      let n := Z.of_nat (nat_of_ascii a) in
      if (48 <=? n) && (n <=? 57) then digits_acc (acc * 10 + (n - 48)) t else None
  end.

Definition digits (l : list ascii) : option Z :=
  match l with [] => None | _ => digits_acc 0 l end.

(** [int(s)] on a string: surrounding white space, an optional sign and
    decimal digits ([None] is the [ValueError]; digit-group underscores are
    not modelled). *)
Definition parse_int (s : string) : option Z :=
  let l := rev (drop_space (rev (drop_space (list_ascii_of_string s)))) in
  match l with
  | "-"%char :: ds => option_map Z.opp (digits ds)
  | "+"%char :: ds => digits ds
  | ds => digits ds
  end.

(** [age_start, age_end = map(int, age_group.split("-"))]. *)
Definition parse_age_range (g : string) : option (Z * Z) :=
  match split_on "-"%char g with
  | [a; b] => match parse_int a, parse_int b with
              | Some x, Some y => Some (x, y)
              | _, _ => None
              end
  | _ => None
  end.

(** The age-group loop; [None] is the [AttributeError] of [.split] on an
    integer cell, which the [except] clause does not catch. *)
Fixpoint age_match (sc : scheduled) (groups : list pyval) : option bool :=
  match groups with
  | [] => Some false
  | VInt _ :: _ => None
  | VStr g :: rest =>
      match parse_age_range g with
      | Some (a, b) =>
          if (a <=? sc_age_start sc) && (sc_age_end sc <=? b) then Some true
          else age_match sc rest
      | None =>
          if String.eqb g (py_str_int (sc_age_start sc) ++ "-" ++ py_str_int (sc_age_end sc))
          then Some true else age_match sc rest
      end
  end.

Definition score_teacher (tid : Z) (sc : scheduled) (preferred_teachers : list (pyval * Q))
  (ts : teacher_specs) : option Q :=
  let pscore := match find (fun tw => pyval_eqb (fst tw) (VInt tid)) preferred_teachers with
                | Some (_, w) => (w * 10)%Q
                | None => 0%Q
                end in
  match dict_get Z.eqb ts tid with
  | None => Some pscore
  | Some specs =>
      let style_part :=
        match dict_get String.eqb specs "style"%string with
        | Some l => if py_in (VStr (sc_style sc)) l then 8%Q else 0%Q
        | None => 0%Q
        end in
      let level_part :=
        match dict_get String.eqb specs "level"%string with
        | Some l => if py_in (VStr (py_str_int (sc_level sc))) l then 3%Q else 0%Q
        | None => 0%Q
        end in
      let age_part :=
        match dict_get String.eqb specs "age_group"%string with
        | Some l => option_map (fun b : bool => if b then 5%Q else 0%Q) (age_match sc l)
        | None => Some 0%Q
        end in
      option_map (fun a => (pscore + style_part + a + level_part)%Q) age_part
  end.

(** ** [assign_teachers_to_classes] *)

Record unassigned_class := { ua_class : scheduled; ua_reason : string }.

Definition no_teacher_reason : string := "No available teacher found".

(** [scheduled_class["teacher_id"] = best_teacher] *)
Definition with_teacher (sc : scheduled) (t : Z) : scheduled := {|
  sc_class_id := sc_class_id sc;
  sc_class_name := sc_class_name sc;
  sc_style := sc_style sc;
  sc_level := sc_level sc;
  sc_age_start := sc_age_start sc;
  sc_age_end := sc_age_end sc;
  sc_duration := sc_duration sc;
  sc_duration_slots := sc_duration_slots sc;
  sc_room_id := sc_room_id sc;
  sc_day_idx := sc_day_idx sc;
  sc_day := sc_day sc;
  sc_start_slot := sc_start_slot sc;
  sc_start_time := sc_start_time sc;
  sc_end_slot := sc_end_slot sc;
  sc_end_time := sc_end_time sc;
  teacher_id := Some t
|}.

(** The sort key [(c["day_idx"], c["start_slot"])]. *)
Definition chrono_leb (a b : scheduled) : bool :=
  (sc_day_idx a <? sc_day_idx b)
  || ((sc_day_idx a =? sc_day_idx b) && (sc_start_slot a <=? sc_start_slot b)).

Definition preferred_teachers_of (cp : class_prefs) (cid : Z) : list (pyval * Q) :=
  match prefs_of cp cid "teacher" with
  | Some l => map (fun p => (value p, weight p)) l
  | None => []
  end.

Definition teacher_available (ta : matrix) (tid d start_slot end_slot : Z) : bool :=
  forallb (fun slot => ta (tid, d, slot)) (zrange start_slot end_slot).

(** The teacher pass, for a scoring function [score_fn] with the signature
    of [score_teacher] ([None]: the scoring raised). *)
Section TeacherPass.

Variable score_fn : Z -> scheduled -> list (pyval * Q) -> teacher_specs -> option Q.
Variable ts : teacher_specs.
Variable cp : class_prefs.

(** [available_teachers]: the teachers of [teacher_specializations.keys()]
    free over [range(start_slot, end_slot)], with their scores. *)
Fixpoint available_teachers (ta : matrix) (sc : scheduled) (prefs : list (pyval * Q))
  (tids : list Z) : option (list (Q * Z)) :=
  match tids with
  | [] => Some []
  | tid :: rest =>
      if teacher_available ta tid (sc_day_idx sc) (sc_start_slot sc) (sc_end_slot sc) then
        match score_fn tid sc prefs ts with
        | None => None
        | Some score =>
            option_map (cons (score, tid)) (available_teachers ta sc prefs rest)
        end
      else available_teachers ta sc prefs rest
  end.

Definition assign_one (ta : matrix) (sc : scheduled) : option (matrix * scheduled) :=
  match available_teachers ta sc (preferred_teachers_of cp (sc_class_id sc)) (map fst ts) with
  | None => None
  | Some avail =>
      match sort_desc (Q_then Z.leb) avail with
      | [] => Some (ta, sc)
      | (_, best_teacher) :: _ =>
          Some (fold_left (fun ta slot => set ta (best_teacher, sc_day_idx sc, slot) false)
                  (zrange (sc_start_slot sc) (sc_end_slot sc)) ta,
                with_teacher sc best_teacher)
      end
  end.

Fixpoint assign_loop (ta : matrix) (l : list scheduled) : option (list scheduled) :=
  match l with
  | [] => Some []
  | sc :: rest =>
      match assign_one ta sc with
      | None => None
      | Some (ta', sc') => option_map (cons sc') (assign_loop ta' rest)
      end
  end.

(** [(assigned_classes, unassigned_classes)] from the processed list. *)
Definition split_assigned (l : list scheduled) : list scheduled * list unassigned_class :=
  fold_left (fun acc sc =>
    let '(a, u) := acc in
    match teacher_id sc with
    | None => (a, u ++ [{| ua_class := sc; ua_reason := no_teacher_reason |}])
    | Some _ => (a ++ [sc], u)
    end) l ([], []).

Definition assign_teachers_with (scheduled_classes : list scheduled) (teacher_availability : matrix)
  : option (list scheduled * list unassigned_class) :=
  let sorted := sort_asc chrono_leb scheduled_classes in
  option_map split_assigned (assign_loop teacher_availability sorted).

End TeacherPass.

Definition assign_teachers_to_classes (scheduled_classes : list scheduled)
  (teacher_availability : matrix) (cp : class_prefs) (ts : teacher_specs)
  : option (list scheduled * list unassigned_class) :=
  assign_teachers_with score_teacher ts cp scheduled_classes teacher_availability.

(** ** [schedule_classes]: the two phases and the statistics

    Loading and the visualisation are external collaborators; they do not
    modify the result lists. The spreadsheet output is called with more
    arguments than it takes (below). *)
Record loaded_data := {
  d_classes : list class_data;
  d_rooms : list room;
  d_room_availability : matrix;
  d_teacher_availability : matrix;
  d_class_preferences : class_prefs;
  d_teacher_specializations : teacher_specs
}.

Record stats := {
  total_classes : Z;
  scheduled_classes : Z;
  unscheduled_classes : Z;
  scheduling_rate : Q;
  unscheduled_by_room : Z;
  unscheduled_by_teacher : Z
}.

Definition zlen {A} (l : list A) : Z := Z.of_nat (List.length l).

Definition calc_scheduling_rate {A B} (sch : list A) (all_classes : list B) : Q :=
  match all_classes with
  | [] => 0%Q
  | _ => (inject_Z (zlen sch) / inject_Z (zlen all_classes))%Q
  end.

(** The [stats] dict: the input classes and the result lists of the two
    phases, [all_unscheduled = unscheduled_from_rooms + unscheduled_from_teachers]. *)
Definition build_stats (classes : list class_data) (final_scheduled : list scheduled)
  (unscheduled_from_rooms : list unscheduled_class)
  (unscheduled_from_teachers : list unassigned_class) : stats :=
  {| total_classes := zlen classes;
     scheduled_classes := zlen final_scheduled;
     unscheduled_classes := zlen unscheduled_from_rooms + zlen unscheduled_from_teachers;
     scheduling_rate := calc_scheduling_rate final_scheduled classes;
     unscheduled_by_room := zlen unscheduled_from_rooms;
     unscheduled_by_teacher := zlen unscheduled_from_teachers |}.

(** The two phases of [schedule_classes] followed by the [stats] dict built
    from their results: what the function computes apart from the output
    call between them. [None] when the teacher pass raises. *)
Definition phase_stats (data : loaded_data) : option stats :=
  let '(sch, unscheduled_from_rooms) :=
    assign_classes_to_slots (d_classes data) (d_rooms data) (d_room_availability data)
      (d_class_preferences data) in
  match assign_teachers_to_classes sch (d_teacher_availability data)
          (d_class_preferences data) (d_teacher_specializations data) with
  | None => None
  | Some (final_scheduled, unscheduled_from_teachers) =>
      Some (build_stats (d_classes data) final_scheduled unscheduled_from_rooms
              unscheduled_from_teachers)
  end.

(** [from output import create_schedule_output]: the function takes the
    parameters [(schedule, unscheduled, rooms, teachers, output_dir=".")],
    at most five positional arguments. A call with more raises [TypeError]
    before the body runs; the body writes the spreadsheet and leaves the
    lists as they are. *)
Definition create_schedule_output_max_args : nat := 5.

Definition create_schedule_output_call (nargs : nat) : option unit :=
  if Nat.leb nargs create_schedule_output_max_args then Some tt else None.

(** [schedule_classes]: phase 1, phase 2, then [create_schedule_output(
    final_scheduled, all_unscheduled, data["rooms"],
    data["teacher_specializations"], output_dir, data["teacher_names"])] with
    six positional arguments, then the [stats] dict. [None] when a call
    raises. *)
Definition schedule_classes (data : loaded_data) : option stats :=
  let '(sch, unscheduled_from_rooms) :=
    assign_classes_to_slots (d_classes data) (d_rooms data) (d_room_availability data)
      (d_class_preferences data) in
  match assign_teachers_to_classes sch (d_teacher_availability data)
          (d_class_preferences data) (d_teacher_specializations data) with
  | None => None
  | Some (final_scheduled, unscheduled_from_teachers) =>
      match create_schedule_output_call 6 with
      | None => None
      | Some _ =>
          Some (build_stats (d_classes data) final_scheduled unscheduled_from_rooms
                  unscheduled_from_teachers)
      end
  end.

(** ** [load_data]: availability rows

    A parsed row of the [room_availability] or [teacher_availability] sheet:
    the id, the day name and the two times returned by [parse_time_value],
    as minutes since midnight. Both times of a row are parsed to the same
    date and lie before midnight, so the 15-minute steps of the loop below
    stay on that date while [current_time < end_time]. *)
Record avail_row := { ar_id : Z; ar_day : string; ar_start : Z; ar_end : Z }.

(** [while current_time < end_time: slot_idx = time_to_slot_index(current_time);
    ...; current_time += timedelta(minutes=15)]. Each round adds 15 minutes,
    so [end_time - start_time] rounds of fuel are never exhausted. *)
Fixpoint interval_slots_loop (fuel : nat) (current_time end_time : Z) : list Z :=
  match fuel with
  | O => []
  | S fuel' =>
      if current_time <? end_time then
        time_to_slot_index (current_time / 60) (current_time mod 60)
        :: interval_slots_loop fuel' (current_time + 15) end_time
      else []
  end.

Definition interval_slots (start_time end_time : Z) : list Z :=
  interval_slots_loop (Z.to_nat (end_time - start_time)) start_time end_time.

(** The availability dictionary built from the rows: [True] at
    [(id, day_to_index(day), slot_idx)] for every slot of every row. *)
Definition load_availability (rows : list avail_row) : matrix :=
  fold_left (fun m row =>
    fold_left (fun m slot => set m (ar_id row, day_to_index (ar_day row), slot) true)
      (interval_slots (ar_start row) (ar_end row)) m)
    rows (fun _ => false).

(** ** [load_data]: nested dictionaries of lists *)

(** [if k not in d: d[k] = default], then [d[k]] updated by [f]; a new key
    goes last, as in a Python dict. *)
Fixpoint dict_update {K V} (eqb : K -> K -> bool) (d : dict K V) (k : K) (default : V)
  (f : V -> V) : dict K V :=
  match d with
  | [] => [(k, f default)]
  | (k', v) :: d' =>
      if eqb k k' then (k', f v) :: d' else (k', v) :: dict_update eqb d' k default f
  end.

(** The loops building [class_preferences] and [teacher_specializations]:
    [if id not in d: d[id] = {}], [if kind not in d[id]: d[id][kind] = []],
    then the entries of the row are appended to [d[id][kind]]. *)
Definition group_rows {R V} (row_id : R -> Z) (row_kind : R -> string) (entries : R -> list V)
  (rows : list R) : dict Z (dict string (list V)) :=
  fold_left (fun d row =>
    dict_update Z.eqb d (row_id row) []
      (fun kinds => dict_update String.eqb kinds (row_kind row) [] (fun l => l ++ entries row)))
    rows [].

(** A [teacher_specializations] row. *)
Record spec_row := { sr_teacher : Z; sr_type : string; sr_value : pyval }.

Definition load_teacher_specializations (rows : list spec_row) : teacher_specs :=
  group_rows sr_teacher sr_type (fun row => [sr_value row]) rows.

(** A [class_preferences] row. *)
Record pref_row := { pr_class : Z; pr_type : string; pr_value : pyval; pr_weight : Q }.

(** [room_name_to_id = {room["room_name"]: room["room_id"] for room in rooms}]:
    the last room with a given name wins. *)
Definition room_name_to_id (rooms : list room) (n : string) : option Z :=
  fold_left (fun acc r => if String.eqb (room_name r) n then Some (room_id r) else acc) rooms None.

(** [r["room_name"] == n] *)
Definition named (n : string) (r : room) : bool := String.eqb (room_name r) n.

(** ["-" in pref_value] *)
Definition has_dash (s : string) : bool := existsb (Ascii.eqb "-"%char) (list_ascii_of_string s).

Section ClassPreferences.

(** The [try] block of a time range: [split("-")] into two parts, both read
    by [strptime(.., "%H:%M")] and turned into slot indices; [None] when it
    raises, in which case the original value is kept. *)
Variable parse_time_range : string -> option (Z * Z).

(** The preference entries one row appends. *)
Definition pref_entries (rooms : list room) (row : pref_row) : list pref :=
  let w := pr_weight row in
  match pr_value row with
  | VStr v =>
      if String.eqb (pr_type row) "room" then
        match room_name_to_id rooms v with
        | Some i => [{| value := VInt i; weight := w |}]
        | None => [{| value := VStr v; weight := w |}]
        end
      else if String.eqb (pr_type row) "time" && has_dash v then
        match parse_time_range v with
        | Some (start_slot, end_slot) =>
            map (fun slot => {| value := VInt slot; weight := w |}) (zrange start_slot end_slot)
        | None => [{| value := VStr v; weight := w |}]
        end
      else [{| value := VStr v; weight := w |}]
  | VInt _ => [{| value := pr_value row; weight := w |}]
  end.

Definition load_class_preferences (rooms : list room) (rows : list pref_row) : class_prefs :=
  group_rows pr_class pr_type (pref_entries rooms) rows.

End ClassPreferences.

(** Reading back a string ["HH:MM"] as a slot index. *)
Definition decode_time (t : string) : option Z :=
  match split_on ":"%char t with
  | [h; m] => match parse_int h, parse_int m with
              | Some hh, Some mm => Some (time_to_slot_index hh mm)
              | _, _ => None
              end
  | _ => None
  end.

(** ** Occupancy and the accordion relation *)

(** A placement occupies [[start_slot, start_slot + duration_slots)] of its
    room on its day. *)
Definition occupiesb (x : scheduled) (r d s : Z) : bool :=
  (sc_room_id x =? r) && (sc_day_idx x =? d)
  && (sc_start_slot x <=? s) && (s <? sc_start_slot x + sc_duration_slots x).

(** The number of placements occupying one of the rooms [g] at [(d, s)]. *)
Definition occupants (sch : list scheduled) (g : list Z) (d s : Z) : nat :=
  List.length (filter (fun x => existsb (fun r => occupiesb x r d s) g) sch).

(** [q] is an accordion partner of [r]: [r] is a combined room and [q] a
    room whose name is one of its component names, or [q] is a combined
    room listing the name of the room [r]. *)
Definition partner (rooms : list room) (r q : Z) : Prop :=
  (exists c n cr, In c rooms /\ room_id c = r /\ is_combined c = true /\
               In n (components c) /\ In cr rooms /\ room_name cr = n /\ room_id cr = q)
  \/ (exists c n cr, In c rooms /\ room_id c = q /\ is_combined c = true /\
               In n (components c) /\ In cr rooms /\ room_name cr = n /\ room_id cr = r).

(** Rooms that pairwise exclude each other. *)
Definition clique (rooms : list room) (g : list Z) : Prop :=
  forall r r', In r g -> In r' g -> r = r' \/ partner rooms r r'.

(** Every slot occupied by a placement is unavailable in [m], in its room
    and in all the partners of its room. *)
Definition blocked (rooms : list room) (m : matrix) (sch : list scheduled) : Prop :=
  forall x s, In x sch -> sc_start_slot x <= s < sc_start_slot x + sc_duration_slots x ->
    m (sc_room_id x, sc_day_idx x, s) = false /\
    forall q, partner rooms (sc_room_id x) q -> m (q, sc_day_idx x, s) = false.

(** The loop invariant of the placement loop. *)
Definition placed_ok (rooms : list room) (m : matrix) (sch : list scheduled) : Prop :=
  blocked rooms m sch /\
  forall g d s, clique rooms g -> (occupants sch g d s <= 1)%nat.

(** [m'] has no availability that [m] lacks. *)
Definition shrinks (m m' : matrix) : Prop := forall k, m' k = true -> m k = true.

(** A class record with a teacher, as tested by
    [scheduled_class["teacher_id"] is None]. *)
Definition has_teacher (x : scheduled) : bool :=
  match teacher_id x with
  | Some _ => true
  | None => false
  end.

(** [x] has teacher [t] and covers [(d, s)], i.e. [s] is in
    [range(start_slot, end_slot)] on its day. *)
Definition teachesb (x : scheduled) (t d s : Z) : bool :=
  match teacher_id x with
  | Some t' => (t' =? t) && (sc_day_idx x =? d) && (sc_start_slot x <=? s) && (s <? sc_end_slot x)
  | None => false
  end.

(** The loop invariant of the teacher pass: each slot taught by a processed
    class is unavailable for its teacher in [ta], and no slot is taught
    twice by the same teacher. *)
Definition teacher_booked_ok (ta : matrix) (acc : list scheduled) : Prop :=
  (forall x t d s, In x acc -> teachesb x t d s = true -> ta (t, d, s) = false) /\
  (forall t d s, (List.length (filter (fun x => teachesb x t d s) acc) <= 1)%nat).

(** A class record with its [teacher_id] field cleared. *)
Definition strip_teacher (x : scheduled) : scheduled := {|
  sc_class_id := sc_class_id x;
  sc_class_name := sc_class_name x;
  sc_style := sc_style x;
  sc_level := sc_level x;
  sc_age_start := sc_age_start x;
  sc_age_end := sc_age_end x;
  sc_duration := sc_duration x;
  sc_duration_slots := sc_duration_slots x;
  sc_room_id := sc_room_id x;
  sc_day_idx := sc_day_idx x;
  sc_day := sc_day x;
  sc_start_slot := sc_start_slot x;
  sc_start_time := sc_start_time x;
  sc_end_slot := sc_end_slot x;
  sc_end_time := sc_end_time x;
  teacher_id := None
|}.

(** A placement made from one of [classes] in one of [rooms], inside the
    week, accepted by the class's preferences and available in [m0] over
    all its slots. *)
Definition placement_from (classes : list class_data) (rooms : list room) (cp : class_prefs)
  (m0 : matrix) (x : scheduled) : Prop :=
  exists c r d st, In c classes /\ In r rooms /\ x = make_scheduled c (room_id r) d st /\
    0 <= d < 7 /\ 0 <= st < 96 /\
    (pref_values cp (class_id c) "room" = [] \/ In (VInt (room_id r)) (pref_values cp (class_id c) "room")) /\
    (pref_values cp (class_id c) "day" = [] \/
       exists n, index_to_day d = Some n /\ In (VStr n) (pref_values cp (class_id c) "day")) /\
    (pref_values cp (class_id c) "time" = [] \/ In (VInt st) (pref_values cp (class_id c) "time")) /\
    (forall s, st <= s < st + duration_slots c -> m0 (room_id r, d, s) = true).

(** The sort key of a class in [sort_classes_by_difficulty]. *)
Definition class_key (cp : class_prefs) (c : class_data) : Q * Z := (difficulty_score cp c, class_id c).

(** ** Example inputs *)

Definition ex_R1 : room :=
  {| room_id := 1; room_name := "R1"; is_combined := false; component_rooms := None |}.
Definition ex_R2 : room :=
  {| room_id := 2; room_name := "R2"; is_combined := false; component_rooms := None |}.
Definition ex_R12 : room :=
  {| room_id := 3; room_name := "R1+2"; is_combined := true;
     component_rooms := Some ["R1"; "R2"]%string |}.
Definition ex_rooms : list room := [ex_R1; ex_R2; ex_R12].

Definition ex_class (cid : Z) (dur : Z) : class_data :=
  {| class_id := cid; class_name := "Class"; style := "ballet"; level := 1;
     age_start := 7; age_end := 12; duration := (inject_Z dur / 4)%Q; duration_slots := dur |}.

(** Open on Monday in [[lo, hi)]. *)
Definition ex_open (rid lo hi : Z) : list key := map (fun s => (rid, 0, s)) (zrange lo hi).

Definition room_pref (cid rid : Z) : Z * dict string (list pref) :=
  (cid, [("room"%string, [{| value := VInt rid; weight := 1 |}])]).

(** Time preferences [6] (weight 1) and [4] (weight 2) for class 1. *)
Definition ex_time_list : list pref :=
  [{| value := VInt 6; weight := 1 |}; {| value := VInt 4; weight := 2 |}].

Definition ex_time_dict := [("time"%string, ex_time_list)].

Definition ex_time_prefs : class_prefs := [(1, ex_time_dict)].

(** Class [cid] (4 slots) placed in room [rid] on Monday at slot 0. *)
Definition ex_sched (cid rid : Z) : scheduled := make_scheduled (ex_class cid 4) rid 0 0.

(** Teacher 7, free on Monday in [[0, 4)], with no specialization values. *)
Definition ex_ta : matrix := avail_of_keys (ex_open 7 0 4).
Definition ex_ts : teacher_specs := [(7, [])].

(** Two classes, one room open for one of them, and teacher 7. *)
Definition ex_data : loaded_data := {|
  d_classes := [ex_class 1 4; ex_class 2 4];
  d_rooms := [ex_R1];
  d_room_availability := avail_of_keys (ex_open 1 0 4);
  d_teacher_availability := ex_ta;
  d_class_preferences := [];
  d_teacher_specializations := ex_ts
|}.

Definition ex_stats : stats := {|
  total_classes := 2;
  scheduled_classes := 1;
  unscheduled_classes := 1;
  scheduling_rate := (inject_Z 1 / inject_Z 2)%Q;
  unscheduled_by_room := 1;
  unscheduled_by_teacher := 0
|}.

(** ** General lemmas *)

Lemma shrinks_refl m : shrinks m m.
Proof. intros k H; exact H. Qed.

Lemma shrinks_trans m1 m2 m3 : shrinks m1 m2 -> shrinks m2 m3 -> shrinks m1 m3.
Proof. unfold shrinks; auto. Qed.

Lemma set_false_shrinks m k : shrinks m (set m k false).
Proof. intros k' H; unfold set in H; destruct (key_eqb k' k); [discriminate | exact H]. Qed.

Lemma key_eqb_refl k : key_eqb k k = true.
Proof. destruct k as [[x y] z]; simpl; now rewrite !Z.eqb_refl. Qed.

Lemma set_false_at m k : set m k false k = false.
Proof. unfold set; now rewrite key_eqb_refl. Qed.

Lemma fold_shrinks {A} (f : matrix -> A -> matrix) (l : list A) m :
  (forall m x, shrinks m (f m x)) -> shrinks m (fold_left f l m).
Proof.
  intros Hf; revert m; induction l as [|x l IH]; intros m; simpl.
  - apply shrinks_refl.
  - eapply shrinks_trans; [apply Hf | apply IH].
Qed.

(** A fold whose step at some [x] of the list clears [k] leaves [k] cleared. *)
Lemma fold_hit {A} (f : matrix -> A -> matrix) (l : list A) m x k :
  (forall m y, shrinks m (f m y)) -> In x l -> (forall m, f m x k = false) ->
  fold_left f l m k = false.
Proof.
  intros Hf Hin Hx.
  destruct (in_split _ _ Hin) as (l1 & l2 & ->).
  rewrite fold_left_app; simpl.
  destruct (fold_left f l2 (f (fold_left f l1 m) x) k) eqn:E; [|reflexivity].
  apply (fold_shrinks f l2 (f (fold_left f l1 m) x) Hf) in E.
  now rewrite Hx in E.
Qed.

Lemma in_zrange x lo hi : In x (zrange lo hi) <-> lo <= x < hi.
Proof.
  unfold zrange; rewrite in_map_iff; split.
  - intros (i & <- & Hi); apply in_seq in Hi; lia.
  - intros H; exists (Z.to_nat (x - lo)); split; [lia|].
    apply in_seq; lia.
Qed.

(** ** Seeding *)

Lemma seed_combined_step_shrinks rooms m room : shrinks m (seed_combined_step rooms m room).
Proof.
  intros [[r d] s]; unfold seed_combined_step.
  destruct (is_combined room && has_components room); [|auto].
  destruct (m (room_id room, d, s) && existsb (Z.eqb r) _); [discriminate | auto].
Qed.

Lemma seed_component_step_shrinks rooms m room : shrinks m (seed_component_step rooms m room).
Proof.
  intros [[r d] s]; unfold seed_component_step.
  destruct (negb (is_combined room)); [|auto].
  destruct (m (room_id room, d, s) && existsb (Z.eqb r) _); [discriminate | auto].
Qed.

Lemma seed_shrinks rooms avail : shrinks avail (create_room_availability_matrix rooms avail).
Proof.
  unfold create_room_availability_matrix; intros k Hk.
  apply (fold_shrinks _ rooms _ (seed_combined_step_shrinks rooms)).
  exact (fold_shrinks _ rooms _ (seed_component_step_shrinks rooms) k Hk).
Qed.

Lemma in_component_ids rooms c n p :
  In n (components c) -> first_room_named rooms n = Some p -> In p (component_ids rooms (components c)).
Proof.
  intros Hn Hp; unfold component_ids; apply in_flat_map.
  exists n; split; [exact Hn | rewrite Hp; now left].
Qed.

Lemma has_components_of c n : In n (components c) -> has_components c = true.
Proof. unfold has_components; destruct (components c); [intros []|reflexivity]. Qed.

Lemma fold_split {A} (f : matrix -> A -> matrix) (l : list A) m x :
  In x l -> exists l1 l2, fold_left f l m = fold_left f l2 (f (fold_left f l1 m) x).
Proof.
  intros Hin; destruct (in_split _ _ Hin) as (l1 & l2 & ->).
  exists l1, l2; now rewrite fold_left_app.
Qed.

Lemma exclusive_shrinks m m' k1 k2 :
  shrinks m m' -> m k1 && m k2 = false -> m' k1 && m' k2 = false.
Proof.
  intros Hs H.
  destruct (m' k1) eqn:E1; destruct (m' k2) eqn:E2; try reflexivity.
  now rewrite (Hs _ E1), (Hs _ E2) in H.
Qed.

(** Pass 1 at a combined room [c] leaves [c] and each resolved component
    [p] never both available. *)
Lemma seed_combined_step_exclusive rooms m c n p d s :
  is_combined c = true -> In n (components c) -> first_room_named rooms n = Some p ->
  seed_combined_step rooms m c (room_id c, d, s) && seed_combined_step rooms m c (p, d, s) = false.
Proof.
  intros Hcomb Hn Hp; unfold seed_combined_step.
  rewrite Hcomb, (has_components_of c n Hn); simpl.
  assert (Hex : existsb (Z.eqb p) (component_ids rooms (components c)) = true).
  { apply existsb_exists; exists p; split; [eapply in_component_ids; eauto | apply Z.eqb_refl]. }
  rewrite Hex.
  destruct (m (room_id c, d, s)); simpl; [now rewrite andb_false_r|].
  destruct (existsb _ (component_ids rooms (components c))); reflexivity.
Qed.

(** C2 (amended). Seeding never adds availability: the seeded matrix is
    available at a triple only where the input is. It also removes some:
    for a combined room [c] and a component room [p] it resolves by name
    (the first room with that name, where the seeding loop breaks), the
    seeded matrix never has [c] and [p] both available at one
    [(day_idx, slot_idx)]. *)
Theorem seeded_matrix_subset_exclusive rooms avail c n p d s
  (Hc : In c rooms) (Hcomb : is_combined c = true) (Hn : In n (components c))
  (Hp : first_room_named rooms n = Some p) :
  (forall k, create_room_availability_matrix rooms avail k = true -> avail k = true) /\
  create_room_availability_matrix rooms avail (room_id c, d, s)
  && create_room_availability_matrix rooms avail (p, d, s) = false.
Proof.
  split; [apply seed_shrinks|].
  unfold create_room_availability_matrix.
  apply exclusive_shrinks with (m := fold_left (seed_combined_step rooms) rooms avail).
  { apply fold_shrinks, seed_component_step_shrinks. }
  destruct (fold_split (seed_combined_step rooms) rooms avail c Hc) as (l1 & l2 & ->).
  apply exclusive_shrinks with
    (m := seed_combined_step rooms (fold_left (seed_combined_step rooms) l1 avail) c).
  { apply fold_shrinks, seed_combined_step_shrinks. }
  eapply seed_combined_step_exclusive; eauto.
Qed.

Lemma seeded_matrix_subset_exclusive_witness :
  In ex_R12 ex_rooms /\ is_combined ex_R12 = true /\ In "R1"%string (components ex_R12) /\
  first_room_named ex_rooms "R1" = Some 1 /\
  ((forall k, create_room_availability_matrix ex_rooms (avail_of_keys [(1, 0, 0); (3, 0, 0)]) k = true ->
             avail_of_keys [(1, 0, 0); (3, 0, 0)] k = true) /\
   create_room_availability_matrix ex_rooms (avail_of_keys [(1, 0, 0); (3, 0, 0)]) (room_id ex_R12, 0, 0)
   && create_room_availability_matrix ex_rooms (avail_of_keys [(1, 0, 0); (3, 0, 0)]) (1, 0, 0) = false).
Proof.
  split; [simpl; tauto|]. split; [reflexivity|]. split; [simpl; tauto|]. split; [reflexivity|].
  apply (seeded_matrix_subset_exclusive ex_rooms _ ex_R12 "R1"%string 1 0 0);
    [simpl; tauto | reflexivity | simpl; tauto | reflexivity].
Defined.

(** C2, counterexample: rooms R1, R2 and the combined room R1+2, with R1
    and R1+2 open on Monday at slot 0. The seeded matrix has R1 unavailable
    there although the input has it open. *)
Lemma seeded_matrix_not_input :
  ~ (forall k, create_room_availability_matrix ex_rooms (avail_of_keys [(1, 0, 0); (3, 0, 0)]) k = true
               <-> avail_of_keys [(1, 0, 0); (3, 0, 0)] k = true).
Proof.
  intros H; specialize (H (1, 0, 0)).
  vm_compute in H; destruct H as [_ H]; discriminate (H eq_refl).
Qed.

(** ** Marking a placement *)

Lemma fold_shrinks_from {A} (f : matrix -> A -> matrix) (l : list A) m m0 :
  shrinks m m0 -> (forall m x, shrinks m (f m x)) -> shrinks m (fold_left f l m0).
Proof. intros H0 Hf; eapply shrinks_trans; [exact H0 | now apply fold_shrinks]. Qed.

Lemma fold_keeps_false {A} (f : matrix -> A -> matrix) (l : list A) m0 k :
  (forall m x, shrinks m (f m x)) -> m0 k = false -> fold_left f l m0 k = false.
Proof.
  intros Hf H0; destruct (fold_left f l m0 k) eqn:E; [|reflexivity].
  now rewrite (fold_shrinks f l m0 Hf k E) in H0.
Qed.

Ltac shrink_steps :=
  repeat match goal with
  | |- shrinks ?m ?m => apply shrinks_refl
  | |- shrinks _ (set _ _ false) => apply set_false_shrinks
  | |- shrinks _ (fold_left _ _ _) => apply fold_shrinks_from; [|intros]
  | |- shrinks _ (if ?b then _ else _) => destruct b
  | |- shrinks _ (match ?o with Some _ => _ | None => _ end) => destruct o
  | |- shrinks _ _ => progress cbv beta zeta
  end.

Lemma mark_slot_shrinks rooms m r d s : shrinks m (mark_slot rooms m r d s).
Proof. unfold mark_slot; shrink_steps. Qed.

Lemma mark_placement_shrinks rooms m r d st dur : shrinks m (mark_placement rooms m r d st dur).
Proof. unfold mark_placement; apply fold_shrinks; intros; apply mark_slot_shrinks. Qed.

Lemma first_room_named_spec rooms n q :
  first_room_named rooms n = Some q -> exists cr, In cr rooms /\ room_name cr = n /\ room_id cr = q.
Proof.
  induction rooms as [|r rs IH]; simpl; [discriminate|].
  destruct (String.eqb (room_name r) n) eqn:E.
  - intros [= <-]; exists r; split; [now left|]; split; [now apply String.eqb_eq | reflexivity].
  - intros H; destruct (IH H) as (cr & ? & ? & ?); exists cr; tauto.
Qed.

Lemma mark_slot_self rooms m r d s : mark_slot rooms m r d s (r, d, s) = false.
Proof.
  unfold mark_slot; apply fold_keeps_false; [intros; shrink_steps | apply set_false_at].
Qed.

Lemma mark_slot_partner rooms m r d s q :
  partner rooms r q -> mark_slot rooms m r d s (q, d, s) = false.
Proof.
  intros [(c & n & cr & Hc & Hr & Hcomb & Hn & Hcr & Hname & Hq)
         | (c & n & cr & Hc & Hq & Hcomb & Hn & Hcr & Hname & Hid)];
    unfold mark_slot.
  - apply fold_hit with (x := c); [intros; shrink_steps | exact Hc |].
    intros m1; cbv beta zeta.
    apply fold_keeps_false; [intros; shrink_steps|].
    rewrite Hr, Z.eqb_refl, Hcomb, (has_components_of c n Hn); simpl.
    apply fold_hit with (x := n); [intros; shrink_steps | exact Hn |].
    intros m2; apply fold_hit with (x := cr); [intros; shrink_steps | exact Hcr |].
    intros m3; rewrite Hname, String.eqb_refl, <- Hq; apply set_false_at.
  - apply fold_hit with (x := c); [intros; shrink_steps | exact Hc |].
    intros m1; cbv beta zeta.
    apply fold_hit with (x := c); [intros; shrink_steps | exact Hc |].
    intros m2; rewrite Hcomb, (has_components_of c n Hn); simpl.
    apply fold_hit with (x := n); [intros; shrink_steps | exact Hn |].
    intros m3; apply fold_hit with (x := cr); [intros; shrink_steps | exact Hcr |].
    intros m4; rewrite Hname, String.eqb_refl, Hid, Z.eqb_refl; simpl.
    rewrite <- Hq; apply set_false_at.
Qed.

(** Marking a placement makes the placed room and each of its partners
    unavailable over the placed range. *)
Lemma mark_placement_blocks rooms m r d st dur s :
  st <= s < st + dur ->
  mark_placement rooms m r d st dur (r, d, s) = false /\
  forall q, partner rooms r q -> mark_placement rooms m r d st dur (q, d, s) = false.
Proof.
  intros Hs; unfold mark_placement.
  assert (Hoff : In (s - st) (zrange 0 dur)) by (apply in_zrange; lia).
  split; [|intros q Hq].
  - apply fold_hit with (x := s - st); [intros; apply mark_slot_shrinks | exact Hoff |].
    intros m1; replace (st + (s - st)) with s by lia; apply mark_slot_self.
  - apply fold_hit with (x := s - st); [intros; apply mark_slot_shrinks | exact Hoff |].
    intros m1; replace (st + (s - st)) with s by lia; now apply mark_slot_partner.
Qed.

(** ** Sorting lemmas *)

Lemma insert_desc_perm {A} (leb : A -> A -> bool) x l : Permutation (insert_desc leb x l) (x :: l).
Proof.
  induction l as [|y l IH]; simpl; [auto|].
  destruct (leb y x); [auto|].
  eapply perm_trans; [apply perm_skip, IH | apply perm_swap].
Qed.

Lemma sort_desc_perm {A} (leb : A -> A -> bool) l : Permutation (sort_desc leb l) l.
Proof.
  induction l as [|x l IH]; simpl; [auto|].
  eapply perm_trans; [apply insert_desc_perm | now apply perm_skip].
Qed.

Lemma insert_asc_perm {A} (leb : A -> A -> bool) x l : Permutation (insert_asc leb x l) (x :: l).
Proof.
  induction l as [|y l IH]; simpl; [auto|].
  destruct (leb x y); [auto|].
  eapply perm_trans; [apply perm_skip, IH | apply perm_swap].
Qed.

Lemma sort_asc_perm {A} (leb : A -> A -> bool) l : Permutation (sort_asc leb l) l.
Proof.
  induction l as [|x l IH]; simpl; [auto|].
  eapply perm_trans; [apply insert_asc_perm | now apply perm_skip].
Qed.

(** ** The placement loop *)

Lemma best_slot_in c cp sch rooms l k : best_slot c cp sch rooms l = Some k -> In k l.
Proof.
  unfold best_slot.
  destruct (sort_desc _ _) as [|[q k'] t] eqn:E; [discriminate|].
  intros [= <-].
  assert (H : In (q, k') (map (fun slot => (score_slot slot c cp sch rooms, slot)) l)).
  { eapply Permutation_in; [apply sort_desc_perm|]. rewrite E; now left. }
  apply in_map_iff in H as (k0 & [= _ <-] & Hk0); exact Hk0.
Qed.

Lemma in_find_compatible_slots c m rooms cp rid d st :
  In (rid, d, st) (find_compatible_slots c m rooms cp) -> fits m rid d st (duration_slots c) = true.
Proof.
  unfold find_compatible_slots; intros H.
  apply in_flat_map in H as (room & _ & H).
  destruct (_ && _) in H; [contradiction|].
  apply in_flat_map in H as (d' & _ & H).
  destruct (_ && _) in H; [contradiction|].
  apply in_flat_map in H as (st' & _ & H).
  destruct (_ && _) in H; [contradiction|].
  destruct (fits _ _ _ _ _) eqn:Ef in H; [|contradiction].
  destruct H as [[= <- <- <-] | []]; exact Ef.
Qed.

Lemma fits_at m rid d st dur s :
  fits m rid d st dur = true -> st <= s < st + dur -> m (rid, d, s) = true.
Proof.
  unfold fits; rewrite forallb_forall; intros H Hs.
  assert (Hin : In (s - st) (zrange 0 dur)) by (apply in_zrange; lia).
  specialize (H _ Hin); now replace (st + (s - st)) with s in H by lia.
Qed.

Lemma occupiesb_spec x r d s :
  occupiesb x r d s = true <->
  sc_room_id x = r /\ sc_day_idx x = d /\ sc_start_slot x <= s < sc_start_slot x + sc_duration_slots x.
Proof.
  unfold occupiesb; rewrite !andb_true_iff, Z.eqb_eq, Z.eqb_eq, Z.leb_le, Z.ltb_lt; tauto.
Qed.

Lemma filter_all_false {A} (f : A -> bool) l : (forall y, In y l -> f y = false) -> filter f l = [].
Proof.
  induction l as [|y l IH]; simpl; intros H; [reflexivity|].
  rewrite (H y (or_introl eq_refl)); apply IH; auto.
Qed.

Lemma place_class_ok rooms cp m sch uns c :
  placed_ok rooms m sch ->
  let '(m', sch', _) := place_class rooms cp (m, sch, uns) c in placed_ok rooms m' sch'.
Proof.
  intros [Hbl Hocc]; unfold place_class.
  destruct (best_slot c cp sch rooms (find_compatible_slots c m rooms cp))
    as [[[rid d0] st]|] eqn:Eb; [|split; assumption].
  pose proof (in_find_compatible_slots _ _ _ _ _ _ _ (best_slot_in _ _ _ _ _ _ Eb)) as Hfit.
  split.
  - intros y s Hy Hs; apply in_app_or in Hy as [Hy | [<- | []]].
    + destruct (Hbl y s Hy Hs) as [H1 H2]; split.
      * destruct (mark_placement _ _ _ _ _ _ _) eqn:E; [|reflexivity].
        now rewrite (mark_placement_shrinks _ _ _ _ _ _ _ E) in H1.
      * intros q Hq; specialize (H2 q Hq).
        destruct (mark_placement _ _ _ _ _ _ _) eqn:E; [|reflexivity].
        now rewrite (mark_placement_shrinks _ _ _ _ _ _ _ E) in H2.
    + exact (mark_placement_blocks rooms m rid d0 st (duration_slots c) s Hs).
  - intros g d s Hg; unfold occupants; rewrite filter_app, length_app; simpl.
    destruct (existsb (fun r => occupiesb (make_scheduled c rid d0 st) r d s) g) eqn:Ex;
      [| rewrite Nat.add_0_r; apply Hocc, Hg].
    apply existsb_exists in Ex as (r & Hr & Ho); apply occupiesb_spec in Ho; simpl in Ho.
    destruct Ho as (Er & Ed & Hs); subst r d.
    rewrite filter_all_false; [simpl; lia|].
    intros y Hy; destruct (existsb _ g) eqn:Ey; [|reflexivity]; exfalso.
    apply existsb_exists in Ey as (r' & Hr' & Hoy); apply occupiesb_spec in Hoy.
    destruct Hoy as (Hry & Hdy & Hsy).
    destruct (Hbl y s Hy Hsy) as [H1 H2]; rewrite Hry, Hdy in *.
    assert (Hfree : m (rid, d0, s) = true) by (eapply fits_at; eauto).
    destruct (Hg r' rid Hr' Hr) as [<- | Hp]; [congruence|].
    rewrite (H2 rid Hp) in Hfree; discriminate.
Qed.

Lemma place_loop_ok rooms cp l m sch uns :
  placed_ok rooms m sch ->
  let '(m', sch', _) := fold_left (place_class rooms cp) l (m, sch, uns) in placed_ok rooms m' sch'.
Proof.
  revert m sch uns; induction l as [|c l IH]; intros m sch uns H; [exact H|].
  cbn [fold_left].
  pose proof (place_class_ok rooms cp m sch uns c H) as H'.
  destruct (place_class rooms cp (m, sch, uns) c) as [[m' sch'] uns'].
  now apply IH.
Qed.

(** Any set of pairwise excluding rooms is occupied by at most one placement
    at each [(day_idx, slot_idx)]. *)
Lemma assign_classes_clique classes rooms avail cp g d s :
  clique rooms g -> (occupants (fst (assign_classes_to_slots classes rooms avail cp)) g d s <= 1)%nat.
Proof.
  intros Hg; unfold assign_classes_to_slots.
  assert (H0 : placed_ok rooms (create_room_availability_matrix rooms avail) []).
  { split; [intros x s' []|]. intros; unfold occupants; simpl; lia. }
  pose proof (place_loop_ok rooms cp (sort_classes_by_difficulty classes cp) _ [] [] H0) as H.
  destruct (fold_left _ _ _) as [[m' sch'] uns'].
  apply H, Hg.
Qed.

(** C3. No room-time double-booking: among the placements returned by
    [assign_classes_to_slots], at most one occupies any
    [(room_id, day_idx, slot_idx)]. *)
Theorem no_room_double_booking classes rooms avail cp r d s :
  (List.length (filter (fun x => occupiesb x r d s)
                 (fst (assign_classes_to_slots classes rooms avail cp))) <= 1)%nat.
Proof.
  pose proof (assign_classes_clique classes rooms avail cp [r] d s) as H.
  unfold occupants in H.
  rewrite (filter_ext (fun x => occupiesb x r d s)
                      (fun x => existsb (fun r0 => occupiesb x r0 d s) [r])).
  - apply H; intros r1 r2 [<- | []] [<- | []]; now left.
  - intros x; simpl; now rewrite orb_false_r.
Qed.

Lemma combined_component_clique rooms c n p :
  In c rooms -> is_combined c = true -> In n (components c) -> In p rooms -> room_name p = n ->
  clique rooms [room_id c; room_id p].
Proof.
  intros Hc Hcomb Hn Hp Hname r r' Hr Hr'.
  destruct Hr as [<- | [<- | []]]; destruct Hr' as [<- | [<- | []]]; try (now left); right.
  - left; exists c, n, p; auto 8.
  - right; exists c, n, p; auto 8.
Qed.

(** C1 (amended). Accordion exclusion between a combined room and its
    components: after [assign_classes_to_slots] returns, for every combined
    room [c], every room [p] whose name is one of the component names of [c]
    and every [(day_idx, slot_idx)], at most one placement occupies [c] or
    [p] there. *)
Theorem accordion_exclusion classes rooms avail cp c n p d s
  (Hc : In c rooms) (Hcomb : is_combined c = true) (Hn : In n (components c))
  (Hp : In p rooms) (Hname : room_name p = n) :
  (List.length (filter (fun x => occupiesb x (room_id c) d s || occupiesb x (room_id p) d s)
                 (fst (assign_classes_to_slots classes rooms avail cp))) <= 1)%nat.
Proof.
  pose proof (assign_classes_clique classes rooms avail cp [room_id c; room_id p] d s
                (combined_component_clique rooms c n p Hc Hcomb Hn Hp Hname)) as H.
  unfold occupants in H.
  rewrite (filter_ext (fun x => occupiesb x (room_id c) d s || occupiesb x (room_id p) d s)
                      (fun x => existsb (fun r0 => occupiesb x r0 d s) [room_id c; room_id p])); [exact H|].
  intros x; simpl; now rewrite orb_false_r.
Qed.

Lemma accordion_exclusion_witness :
  In ex_R12 ex_rooms /\ is_combined ex_R12 = true /\ In "R1"%string (components ex_R12) /\
  In ex_R1 ex_rooms /\ room_name ex_R1 = "R1"%string /\
  (List.length (filter (fun x => occupiesb x (room_id ex_R12) 0 36 || occupiesb x (room_id ex_R1) 0 36)
     (fst (assign_classes_to_slots [ex_class 1 4; ex_class 2 4] ex_rooms
             (avail_of_keys (ex_open 1 36 48 ++ ex_open 3 36 48)) []))) <= 1)%nat.
Proof.
  split; [simpl; tauto|]. split; [reflexivity|]. split; [simpl; tauto|].
  split; [simpl; tauto|]. split; [reflexivity|].
  apply (accordion_exclusion _ ex_rooms _ [] ex_R12 "R1"%string ex_R1 0 36);
    [simpl; tauto | reflexivity | simpl; tauto | simpl; tauto | reflexivity].
Defined.

(** C1, counterexample: R1 and R2 are the components of R1+2, both open on
    Monday at slot 0; class 1 prefers R1 and class 2 prefers R2. Both are
    placed at slot 0, so two placements occupy rooms of the same accordion
    group at the same (day, slot). *)
Lemma accordion_components_together :
  let sch := fst (assign_classes_to_slots [ex_class 1 1; ex_class 2 1] ex_rooms
                    (avail_of_keys (ex_open 1 0 1 ++ ex_open 2 0 1))
                    [room_pref 1 1; room_pref 2 2]) in
  existsb (fun x => occupiesb x 1 0 0) sch = true /\
  existsb (fun x => occupiesb x 2 0 0) sch = true /\
  List.length (filter (fun x => occupiesb x 1 0 0 || occupiesb x 2 0 0 || occupiesb x 3 0 0) sch) = 2%nat.
Proof. vm_compute; auto. Qed.

(** ** Selection of the best slot *)

Lemma sort_desc_head_max {A} (leb : A -> A -> bool)
  (Htot : forall a b, leb a b = false -> leb b a = true)
  (Htrans : forall a b c, leb a b = true -> leb b c = true -> leb a c = true) :
  forall l h t, sort_desc leb l = h :: t -> forall y, In y l -> leb y h = true.
Proof.
  assert (Hrefl : forall a, leb a a = true).
  { intros a; destruct (leb a a) eqn:E; [reflexivity|]; rewrite <- E; now apply Htot. }
  induction l as [|x l IH]; intros h t Hs y Hy; [destruct Hy|].
  simpl in Hs; destruct (sort_desc leb l) as [|h' t'] eqn:E.
  - simpl in Hs; injection Hs as <- _.
    assert (l = []) as ->.
    { apply Permutation_nil; rewrite <- E; apply sort_desc_perm. }
    destruct Hy as [<- | []]; apply Hrefl.
  - simpl in Hs; destruct (leb h' x) eqn:Ehx.
    + injection Hs as <- _.
      destruct Hy as [<- | Hy]; [apply Hrefl|].
      eapply Htrans; [apply (IH h' t' eq_refl y Hy) | exact Ehx].
    + injection Hs as <- _.
      destruct Hy as [<- | Hy]; [now apply Htot | apply (IH h' t' eq_refl y Hy)].
Qed.

Lemma key_leb_iff x1 y1 z1 x2 y2 z2 :
  key_leb (x1, y1, z1) (x2, y2, z2) = true <->
  x1 < x2 \/ (x1 = x2 /\ (y1 < y2 \/ (y1 = y2 /\ z1 <= z2))).
Proof.
  simpl; rewrite !orb_true_iff, !andb_true_iff, !orb_true_iff, !andb_true_iff,
    !Z.ltb_lt, !Z.eqb_eq, Z.leb_le; tauto.
Qed.

Lemma key_leb_total a b : key_leb a b = false -> key_leb b a = true.
Proof.
  destruct a as [[x1 y1] z1], b as [[x2 y2] z2]; intros H.
  apply key_leb_iff; destruct (key_leb_iff x1 y1 z1 x2 y2 z2) as [_ H2].
  assert (~ (x1 < x2 \/ (x1 = x2 /\ (y1 < y2 \/ (y1 = y2 /\ z1 <= z2))))).
  { intros Hc; rewrite (H2 Hc) in H; discriminate. }
  lia.
Qed.

Lemma key_leb_trans a b c : key_leb a b = true -> key_leb b c = true -> key_leb a c = true.
Proof.
  destruct a as [[x1 y1] z1], b as [[x2 y2] z2], c as [[x3 y3] z3].
  rewrite !key_leb_iff; lia.
Qed.

Lemma Q_then_total {A} (leb : A -> A -> bool) (Htot : forall a b, leb a b = false -> leb b a = true) a b :
  Q_then leb a b = false -> Q_then leb b a = true.
Proof.
  unfold Q_then; rewrite <- (Qcompare_antisym (fst a) (fst b)).
  destruct (fst a ?= fst b)%Q; simpl; auto; discriminate.
Qed.

Lemma Q_then_trans {A} (leb : A -> A -> bool)
  (Htrans : forall a b c, leb a b = true -> leb b c = true -> leb a c = true) a b c :
  Q_then leb a b = true -> Q_then leb b c = true -> Q_then leb a c = true.
Proof.
  unfold Q_then.
  destruct (Qcompare_spec (fst a) (fst b)), (Qcompare_spec (fst b) (fst c)),
    (Qcompare_spec (fst a) (fst c)); intros; try discriminate; try reflexivity.
  all: try (exfalso; lra).
  all: eauto.
Qed.

Lemma Q_then_spec {A} (leb : A -> A -> bool) a b :
  Q_then leb a b = true <-> (fst a < fst b)%Q \/ (fst a == fst b /\ leb (snd a) (snd b) = true)%Q.
Proof.
  unfold Q_then; destruct (Qcompare_spec (fst a) (fst b)) as [H | H | H].
  - split; [intros; right; auto | intros [H' | [_ H']]; [exfalso; lra | exact H']].
  - split; [intros; left; exact H | intros; reflexivity].
  - split; [discriminate | intros [H' | [H' _]]; exfalso; lra].
Qed.

Lemma best_slot_max c cp sch rooms l k :
  best_slot c cp sch rooms l = Some k ->
  In k l /\
  forall k', In k' l ->
    (score_slot k' c cp sch rooms < score_slot k c cp sch rooms)%Q \/
    (score_slot k' c cp sch rooms == score_slot k c cp sch rooms /\ key_leb k' k = true)%Q.
Proof.
  intros Hb; split; [eapply best_slot_in; eauto|].
  unfold best_slot in Hb.
  destruct (sort_desc _ _) as [|[q k0] t] eqn:E; [discriminate|]; injection Hb as ->.
  intros k' Hk'.
  assert (Hq : In (q, k) (map (fun slot => (score_slot slot c cp sch rooms, slot)) l)).
  { eapply Permutation_in; [apply sort_desc_perm|]. rewrite E; now left. }
  apply in_map_iff in Hq as (k1 & [= <- <-] & _).
  pose proof (sort_desc_head_max (Q_then key_leb) (Q_then_total key_leb key_leb_total)
                (Q_then_trans key_leb key_leb_trans) _ _ _ E
                (score_slot k' c cp sch rooms, k') (in_map _ _ _ Hk')) as H.
  apply Q_then_spec in H; exact H.
Qed.

(** C4 (amended). Slot tie-breaking: when a class has compatible slots, the
    placement loop places it at a candidate of maximal score and, among the
    candidates of maximal score, at the lexicographically LARGEST
    [(room_id, day_idx, start_slot)]: [scored_slots.sort(reverse=True)]
    orders equal scores by descending slot tuple. *)
Theorem place_class_tie_break rooms cp m sch uns c :
  find_compatible_slots c m rooms cp <> [] ->
  exists rid d st,
    In (rid, d, st) (find_compatible_slots c m rooms cp) /\
    snd (fst (place_class rooms cp (m, sch, uns) c)) = sch ++ [make_scheduled c rid d st] /\
    forall k', In k' (find_compatible_slots c m rooms cp) ->
      (score_slot k' c cp sch rooms < score_slot (rid, d, st) c cp sch rooms)%Q \/
      (score_slot k' c cp sch rooms == score_slot (rid, d, st) c cp sch rooms
       /\ key_leb k' (rid, d, st) = true)%Q.
Proof.
  intros Hne.
  destruct (best_slot c cp sch rooms (find_compatible_slots c m rooms cp))
    as [[[rid d] st]|] eqn:Eb.
  - destruct (best_slot_max _ _ _ _ _ _ Eb) as [Hin Hmax].
    exists rid, d, st; split; [exact Hin|]; split; [|exact Hmax].
    unfold place_class; cbv beta iota zeta; rewrite Eb; reflexivity.
  - exfalso; apply Hne; unfold best_slot in Eb.
    destruct (sort_desc _ _) as [|[q k] t] eqn:E; [|discriminate].
    pose proof (sort_desc_perm (Q_then key_leb)
                  (map (fun slot => (score_slot slot c cp sch rooms, slot))
                     (find_compatible_slots c m rooms cp))) as P.
    rewrite E in P; apply Permutation_nil in P; now apply map_eq_nil in P.
Qed.

Lemma place_class_tie_break_witness :
  let rooms := [ex_R1; ex_R2] in
  let m0 := create_room_availability_matrix rooms (avail_of_keys (ex_open 1 36 48 ++ ex_open 2 36 48)) in
  find_compatible_slots (ex_class 1 4) m0 rooms [] <> [] /\
  exists rid d st,
    In (rid, d, st) (find_compatible_slots (ex_class 1 4) m0 rooms []) /\
    snd (fst (place_class rooms [] (m0, [], []) (ex_class 1 4))) = [make_scheduled (ex_class 1 4) rid d st] /\
    forall k', In k' (find_compatible_slots (ex_class 1 4) m0 rooms []) ->
      (score_slot k' (ex_class 1 4) [] [] rooms < score_slot (rid, d, st) (ex_class 1 4) [] [] rooms)%Q \/
      (score_slot k' (ex_class 1 4) [] [] rooms == score_slot (rid, d, st) (ex_class 1 4) [] [] rooms
       /\ key_leb k' (rid, d, st) = true)%Q.
Proof.
  intros rooms m0.
  assert (Hne : find_compatible_slots (ex_class 1 4) m0 rooms [] <> []).
  { intros H; vm_compute in H; discriminate. }
  split; [exact Hne|].
  exact (place_class_tie_break rooms [] m0 [] [] (ex_class 1 4) Hne).
Defined.

(** C4, counterexample: rooms R1 and R2 both open on Monday over slots
    [36, 48) and one class of 4 slots with no preferences. Every candidate
    scores 0 and the first candidate in enumeration order is (1, 0, 36),
    but the class is placed at (2, 0, 44), the largest triple. *)
Lemma tie_break_not_first :
  let rooms := [ex_R1; ex_R2] in
  let avail := avail_of_keys (ex_open 1 36 48 ++ ex_open 2 36 48) in
  let cands := find_compatible_slots (ex_class 1 4) (create_room_availability_matrix rooms avail) rooms [] in
  hd_error cands = Some (1, 0, 36) /\
  forallb (fun k => Qeq_bool (score_slot k (ex_class 1 4) [] [] rooms) 0) cands = true /\
  map (fun x => (sc_room_id x, sc_day_idx x, sc_start_slot x))
      (fst (assign_classes_to_slots [ex_class 1 4] rooms avail [])) = [(2, 0, 44)].
Proof. vm_compute; repeat split. Qed.

(** ** Time-preference bonus *)

Lemma find_first {A} (f : A -> bool) l x :
  find f l = Some x ->
  exists l1 l2, l = l1 ++ x :: l2 /\ f x = true /\ forall y, In y l1 -> f y = false.
Proof.
  induction l as [|a l IH]; simpl; [discriminate|].
  destruct (f a) eqn:E.
  - intros [= <-]; exists [], l; split; [reflexivity|]; split; [exact E | intros y []].
  - intros H; destruct (IH H) as (l1 & l2 & -> & Hx & Hl1).
    exists (a :: l1), l2; split; [reflexivity|]; split; [exact Hx|].
    intros y [<- | Hy]; [exact E | now apply Hl1].
Qed.

Lemma time_hit_spec c st p :
  time_hit c st p = true <-> exists t, value p = VInt t /\ t <= st < t + duration_slots c.
Proof.
  unfold time_hit; destruct (value p) as [t | str]; split.
  - rewrite andb_true_iff, Z.leb_le, Z.ltb_lt; intros H; exists t; split; [reflexivity | lia].
  - intros (t' & [= <-] & H); rewrite andb_true_iff, Z.leb_le, Z.ltb_lt; lia.
  - discriminate.
  - intros (t' & H & _); discriminate.
Qed.

(** C6 (amended). Time-preference bonus window: for a class with time
    preferences [ps], [score_slot] at [(room_id, day_idx, start_slot)] adds
    [5 * w] on top of its other terms, where [w] is the weight of the first
    preference of [ps] whose value is an integer [t] with
    [t <= start_slot < t + duration_slots] (the preference slot lies in
    [(start_slot - duration_slots, start_slot]]), and adds nothing when no
    preference is in that window. *)
Theorem score_slot_time_window c cp sch rooms rid d st prefs ps
  (Hc : dict_get Z.eqb cp (class_id c) = Some prefs)
  (Ht : dict_get String.eqb prefs "time"%string = Some ps) :
  let rest := (room_pref_score rid prefs + day_pref_score d prefs
               + inject_Z (room_balance rid sch rooms) + inject_Z (day_balance d sch)
               + inject_Z (continuity (rid, d, st) c sch))%Q in
  let window p := exists t, value p = VInt t /\ t <= st < t + duration_slots c in
  (exists ps1 p ps2, ps = ps1 ++ p :: ps2 /\ window p /\ (forall p', In p' ps1 -> ~ window p') /\
     (score_slot (rid, d, st) c cp sch rooms == rest + 5 * weight p)%Q) \/
  ((forall p, In p ps -> ~ window p) /\ (score_slot (rid, d, st) c cp sch rooms == rest)%Q).
Proof.
  intros rest window; unfold score_slot, pref_score, time_pref_score, rest, window.
  rewrite Hc, Ht.
  destruct (find (time_hit c st) ps) as [p|] eqn:Ef.
  - left; destruct (find_first _ _ _ Ef) as (ps1 & ps2 & Eps & Hp & Hps1).
    exists ps1, p, ps2; split; [exact Eps|]; split; [now apply time_hit_spec|]; split.
    + intros p' Hp' Hw; apply time_hit_spec in Hw; rewrite (Hps1 p' Hp') in Hw; discriminate.
    + lra.
  - right; split.
    + intros p Hp Hw; apply time_hit_spec in Hw; rewrite (find_none _ _ Ef p Hp) in Hw; discriminate.
    + lra.
Qed.

Lemma score_slot_time_window_witness :
  dict_get Z.eqb ex_time_prefs (class_id (ex_class 1 4)) = Some (ex_time_dict) /\
  dict_get String.eqb (ex_time_dict) "time"%string
    = Some ex_time_list /\
  let rest := (room_pref_score 1%Z (ex_time_dict)
               + day_pref_score 0%Z (ex_time_dict)
               + inject_Z (room_balance 1%Z [] [ex_R1]) + inject_Z (day_balance 0%Z [])
               + inject_Z (continuity (1, 0, 4)%Z (ex_class 1 4) []))%Q in
  let window p := exists t, value p = VInt t /\ t <= 4 < t + duration_slots (ex_class 1 4) in
  (exists ps1 p ps2,
     ex_time_list = ps1 ++ p :: ps2 /\
     window p /\ (forall p', In p' ps1 -> ~ window p') /\
     (score_slot (1, 0, 4)%Z (ex_class 1 4) ex_time_prefs [] [ex_R1] == rest + 5 * weight p)%Q) \/
  ((forall p, In p ex_time_list -> ~ window p) /\
   (score_slot (1, 0, 4)%Z (ex_class 1 4) ex_time_prefs [] [ex_R1] == rest)%Q).
Proof.
  split; [reflexivity|]. split; [reflexivity|].
  exact (score_slot_time_window (ex_class 1 4) ex_time_prefs [] [ex_R1] 1 0 4 _ _
           eq_refl eq_refl).
Defined.

(** C6, counterexample: class 1 (4 slots) with time preferences [6]
    (weight 1) then [4] (weight 2), scored at the candidate (R1, Monday, 4).
    The first preference in [[4, 8)] is [6], so the claim gives the bonus
    [5 * 1]; the code gives [5 * 2 = 10], from the preference [4], since
    [6 <= 4] fails. *)
Lemma time_bonus_window_differs :
  let rooms := [ex_R1] in
  let m0 := create_room_availability_matrix rooms (avail_of_keys (ex_open 1 0 12)) in
  In (1, 0, 4) (find_compatible_slots (ex_class 1 4) m0 rooms ex_time_prefs) /\
  find (fun p => match value p with VInt t => (4 <=? t) && (t <? 4 + 4) | VStr _ => false end)
       ex_time_list
    = Some {| value := VInt 6; weight := 1 |} /\
  Qeq_bool (score_slot (1, 0, 4) (ex_class 1 4) ex_time_prefs [] rooms) 10 = true /\
  Qeq_bool (score_slot (1, 0, 4) (ex_class 1 4) ex_time_prefs [] rooms) (5 * 1) = false.
Proof. vm_compute; split; [auto|]; repeat split. Qed.

(** ** The teacher pass *)

Lemma teacher_available_spec ta t d st en :
  teacher_available ta t d st en = true <-> forall s, st <= s < en -> ta (t, d, s) = true.
Proof.
  unfold teacher_available; rewrite forallb_forall; split.
  - intros H s Hs; apply H, in_zrange; exact Hs.
  - intros H s Hs; apply H, in_zrange; exact Hs.
Qed.

(** The teachers kept by [available_teachers] are those of [tids] free over
    the class, in order. *)
Lemma available_teachers_filter score_fn ts ta sc prefs tids avail :
  available_teachers score_fn ts ta sc prefs tids = Some avail ->
  map snd avail
  = filter (fun t => teacher_available ta t (sc_day_idx sc) (sc_start_slot sc) (sc_end_slot sc)) tids.
Proof.
  revert avail; induction tids as [|t tids IH]; intros avail; simpl.
  - intros [= <-]; reflexivity.
  - destruct (teacher_available ta t (sc_day_idx sc) (sc_start_slot sc) (sc_end_slot sc)).
    + destruct (score_fn t sc prefs ts) as [q|]; [|discriminate].
      destruct (available_teachers score_fn ts ta sc prefs tids) as [rest|] eqn:Er; [|discriminate].
      simpl; intros [= <-]; simpl; f_equal; exact (IH rest eq_refl).
    + exact (IH avail).
Qed.

(** C5 (amended). Teacher candidate set: the candidates scored for a class
    are exactly the keys [t] of [teacher_specializations] whose availability
    is true at [(t, day_idx, s)] for every [s] in [[start_slot, end_slot)];
    a teacher without specialization records is never a candidate. *)
Theorem teacher_candidates_from_specs ts ta sc prefs avail t :
  available_teachers score_teacher ts ta sc prefs (map fst ts) = Some avail ->
  (In t (map snd avail) <->
   In t (map fst ts) /\
   forall s, sc_start_slot sc <= s < sc_end_slot sc -> ta (t, sc_day_idx sc, s) = true).
Proof.
  intros H; rewrite (available_teachers_filter _ _ _ _ _ _ _ H), filter_In, teacher_available_spec.
  reflexivity.
Qed.

Lemma teacher_candidates_from_specs_witness :
  let avail := match available_teachers score_teacher ex_ts ex_ta (ex_sched 1 1) [] (map fst ex_ts) with
               | Some a => a
               | None => []
               end in
  available_teachers score_teacher ex_ts ex_ta (ex_sched 1 1) [] (map fst ex_ts) = Some avail /\
  (In 7 (map snd avail) <->
   In 7 (map fst ex_ts) /\
   forall s, sc_start_slot (ex_sched 1 1) <= s < sc_end_slot (ex_sched 1 1) ->
     ex_ta (7, sc_day_idx (ex_sched 1 1), s) = true).
Proof.
  intros avail.
  assert (H : available_teachers score_teacher ex_ts ex_ta (ex_sched 1 1) [] (map fst ex_ts) = Some avail)
    by (vm_compute; reflexivity).
  split; [exact H|].
  exact (teacher_candidates_from_specs ex_ts ex_ta (ex_sched 1 1) [] avail 7 H).
Defined.

(** C5, counterexample: teacher 7 is free over the whole class but has no
    specialization records; the class gets no teacher. *)
Lemma teacher_without_specs_ignored :
  teacher_available ex_ta 7 0 0 4 = true /\
  assign_teachers_to_classes [ex_sched 1 1] ex_ta [] [] =
    Some ([], [{| ua_class := ex_sched 1 1; ua_reason := no_teacher_reason |}]).
Proof. split; vm_compute; reflexivity. Qed.

Lemma filter_filter_le {A} (p q : A -> bool) l :
  (List.length (filter p (filter q l)) <= List.length (filter p l))%nat.
Proof.
  induction l as [|x l IH]; simpl; [lia|].
  destruct (q x); simpl; destruct (p x); simpl; lia.
Qed.

Lemma split_assigned_acc l a u :
  fold_left (fun acc sc =>
    let '(a, u) := acc in
    match teacher_id sc with
    | None => (a, u ++ [{| ua_class := sc; ua_reason := no_teacher_reason |}])
    | Some _ => (a ++ [sc], u)
    end) l (a, u)
  = (a ++ filter has_teacher l,
     u ++ map (fun sc => {| ua_class := sc; ua_reason := no_teacher_reason |})
              (filter (fun sc => negb (has_teacher sc)) l)).
Proof.
  revert a u; induction l as [|x l IH]; intros a u; simpl.
  - now rewrite !app_nil_r.
  - destruct (teacher_id x) eqn:E.
    + assert (Hx : has_teacher x = true) by (unfold has_teacher; now rewrite E).
      rewrite IH, Hx; simpl; now rewrite <- app_assoc.
    + assert (Hx : has_teacher x = false) by (unfold has_teacher; now rewrite E).
      rewrite IH, Hx; simpl; now rewrite <- app_assoc.
Qed.

Lemma split_assigned_spec l :
  split_assigned l
  = (filter has_teacher l,
     map (fun sc => {| ua_class := sc; ua_reason := no_teacher_reason |})
         (filter (fun sc => negb (has_teacher sc)) l)).
Proof. unfold split_assigned; now rewrite split_assigned_acc. Qed.

(** One step of the teacher pass either leaves the class and the
    availability as they are, or assigns a free teacher of
    [teacher_specializations] and clears its slots. *)
Lemma assign_one_cases score_fn ts cp ta sc ta' sc' :
  assign_one score_fn ts cp ta sc = Some (ta', sc') ->
  (ta' = ta /\ sc' = sc) \/
  exists b, In b (map fst ts) /\
    teacher_available ta b (sc_day_idx sc) (sc_start_slot sc) (sc_end_slot sc) = true /\
    sc' = with_teacher sc b /\
    ta' = fold_left (fun ta slot => set ta (b, sc_day_idx sc, slot) false)
            (zrange (sc_start_slot sc) (sc_end_slot sc)) ta.
Proof.
  unfold assign_one.
  destruct (available_teachers score_fn ts ta sc (preferred_teachers_of cp (sc_class_id sc)) (map fst ts))
    as [avail|] eqn:Ea; [|discriminate].
  destruct (sort_desc (Q_then Z.leb) avail) as [|[q b] rest] eqn:Es.
  - intros [= <- <-]; left; split; reflexivity.
  - intros [= <- <-]; right; exists b.
    assert (Hb : In b (filter (fun t => teacher_available ta t (sc_day_idx sc) (sc_start_slot sc)
                                          (sc_end_slot sc)) (map fst ts))).
    { rewrite <- (available_teachers_filter _ _ _ _ _ _ _ Ea).
      apply in_map_iff; exists (q, b); split; [reflexivity|].
      apply (Permutation_in _ (sort_desc_perm (Q_then Z.leb) avail)); rewrite Es; left; reflexivity. }
    apply filter_In in Hb as [Hin Hav].
    split; [exact Hin|]; split; [exact Hav|]; split; reflexivity.
Qed.

Lemma assign_one_ok score_fn ts cp ta sc ta' sc' acc :
  teacher_id sc = None -> teacher_booked_ok ta acc ->
  assign_one score_fn ts cp ta sc = Some (ta', sc') ->
  teacher_booked_ok ta' (acc ++ [sc']).
Proof.
  intros Hnone [Hb Hc] Ho.
  destruct (assign_one_cases _ _ _ _ _ _ _ Ho) as [[-> ->] | (b & _ & Hav & -> & ->)].
  - assert (Hsc : forall t d s, teachesb sc t d s = false)
      by (intros; unfold teachesb; now rewrite Hnone).
    split.
    + intros x t d s Hx Ht; apply in_app_or in Hx as [Hx | [<- | []]].
      * exact (Hb x t d s Hx Ht).
      * now rewrite Hsc in Ht.
    + intros t d s; rewrite filter_app; simpl; rewrite Hsc, app_nil_r; apply Hc.
  - set (F := fold_left _ _ ta).
    assert (HF : shrinks ta F) by (apply fold_shrinks; intros; apply set_false_shrinks).
    assert (Hw : forall t d s, teachesb (with_teacher sc b) t d s = true ->
                 t = b /\ d = sc_day_idx sc /\ sc_start_slot sc <= s < sc_end_slot sc).
    { intros t d s; unfold teachesb; simpl.
      rewrite !andb_true_iff, !Z.eqb_eq, Z.leb_le, Z.ltb_lt; lia. }
    split.
    + intros x t d s Hx Ht; apply in_app_or in Hx as [Hx | [<- | []]].
      * specialize (Hb x t d s Hx Ht).
        destruct (F (t, d, s)) eqn:E; [|reflexivity].
        now rewrite (HF _ E) in Hb.
      * destruct (Hw t d s Ht) as (-> & -> & Hs).
        unfold F; apply (fold_hit _ _ ta s).
        -- intros; apply set_false_shrinks.
        -- now apply in_zrange.
        -- intros m; apply set_false_at.
    + intros t d s; rewrite filter_app; simpl.
      destruct (teachesb (with_teacher sc b) t d s) eqn:Ht.
      * destruct (Hw t d s Ht) as (-> & -> & Hs).
        rewrite filter_all_false; [simpl; lia|].
        intros y Hy; destruct (teachesb y b (sc_day_idx sc) s) eqn:Ey; [|reflexivity].
        pose proof (proj1 (teacher_available_spec _ _ _ _ _) Hav s Hs) as Hfree.
        now rewrite (Hb y _ _ _ Hy Ey) in Hfree.
      * rewrite app_nil_r; apply Hc.
Qed.

Lemma assign_loop_ok score_fn ts cp l ta acc out :
  Forall (fun x => teacher_id x = None) l -> teacher_booked_ok ta acc ->
  assign_loop score_fn ts cp ta l = Some out ->
  forall t d s, (List.length (filter (fun x => teachesb x t d s) (acc ++ out)) <= 1)%nat.
Proof.
  revert ta acc out; induction l as [|sc l IH]; intros ta acc out Hl Hok; simpl.
  - intros [= <-]; rewrite app_nil_r; apply Hok.
  - apply Forall_cons_iff in Hl as [Hsc Hl'].
    destruct (assign_one score_fn ts cp ta sc) as [[ta' sc']|] eqn:Ho; [|discriminate].
    destruct (assign_loop score_fn ts cp ta' l) as [out'|] eqn:Er; [|discriminate].
    simpl; intros [= <-].
    replace (acc ++ sc' :: out') with ((acc ++ [sc']) ++ out') by (now rewrite <- app_assoc).
    apply (IH ta'); [exact Hl' | eapply assign_one_ok; eassumption | exact Er].
Qed.

(** C7. Teacher single-booking: when the classes given to
    [assign_teachers_to_classes] have no teacher yet (as phase 1 leaves
    them), among the returned assigned classes at most one has teacher [t]
    and covers [(day_idx, slot_idx)]. *)
Theorem teacher_single_booking sch ta cp ts a u t d s :
  Forall (fun x => teacher_id x = None) sch ->
  assign_teachers_to_classes sch ta cp ts = Some (a, u) ->
  (List.length (filter (fun x => teachesb x t d s) a) <= 1)%nat.
Proof.
  intros Hn; unfold assign_teachers_to_classes, assign_teachers_with.
  destruct (assign_loop score_teacher ts cp ta (sort_asc chrono_leb sch)) as [out|] eqn:E;
    [|discriminate].
  simpl; rewrite split_assigned_spec; intros [= <- _].
  eapply Nat.le_trans; [apply filter_filter_le|].
  apply (assign_loop_ok score_teacher ts cp (sort_asc chrono_leb sch) ta [] out); [| |exact E].
  - apply Forall_forall; intros x Hx; rewrite Forall_forall in Hn; apply Hn.
    exact (Permutation_in _ (sort_asc_perm chrono_leb sch) Hx).
  - split; [intros x ? ? ? []|]. intros; simpl; lia.
Qed.

Lemma teacher_single_booking_witness :
  Forall (fun x => teacher_id x = None) [ex_sched 1 1; ex_sched 2 2] /\
  assign_teachers_to_classes [ex_sched 1 1; ex_sched 2 2] ex_ta [] ex_ts =
    Some ([with_teacher (ex_sched 1 1) 7],
          [{| ua_class := ex_sched 2 2; ua_reason := no_teacher_reason |}]) /\
  (List.length (filter (fun x => teachesb x 7 0 2) [with_teacher (ex_sched 1 1) 7]) <= 1)%nat.
Proof.
  assert (Hn : Forall (fun x => teacher_id x = None) [ex_sched 1 1; ex_sched 2 2])
    by (repeat constructor).
  assert (Ha : assign_teachers_to_classes [ex_sched 1 1; ex_sched 2 2] ex_ta [] ex_ts =
    Some ([with_teacher (ex_sched 1 1) 7],
          [{| ua_class := ex_sched 2 2; ua_reason := no_teacher_reason |}]))
    by (vm_compute; reflexivity).
  split; [exact Hn|]; split; [exact Ha|].
  exact (teacher_single_booking _ _ _ _ _ _ 7 0 2 Hn Ha).
Defined.

(** ** Reasons, framing and statistics *)

Lemma place_loop_reasons rooms cp l m sch uns :
  Forall (fun x => uc_reason x = no_slot_reason) uns ->
  let '(_, _, uns') := fold_left (place_class rooms cp) l (m, sch, uns) in
  Forall (fun x => uc_reason x = no_slot_reason) uns'.
Proof.
  revert m sch uns; induction l as [|c l IH]; intros m sch uns H; [exact H|].
  cbn [fold_left].
  assert (H' : let '(_, _, uns1) := place_class rooms cp (m, sch, uns) c in
               Forall (fun x => uc_reason x = no_slot_reason) uns1).
  { unfold place_class.
    destruct (best_slot c cp sch rooms (find_compatible_slots c m rooms cp)) as [[[rid d] s]|].
    - exact H.
    - apply Forall_app; split; [exact H | repeat constructor]. }
  destruct (place_class rooms cp (m, sch, uns) c) as [[m1 sch1] uns1].
  now apply IH.
Qed.

Lemma teacher_pass_reasons sch ta cp ts a u :
  assign_teachers_to_classes sch ta cp ts = Some (a, u) ->
  Forall (fun y => ua_reason y = no_teacher_reason) u.
Proof.
  unfold assign_teachers_to_classes, assign_teachers_with.
  destruct (assign_loop score_teacher ts cp ta (sort_asc chrono_leb sch)) as [out|];
    [|discriminate].
  simpl; rewrite split_assigned_spec; intros [= _ <-].
  apply Forall_forall; intros y Hy; apply in_map_iff in Hy as (x & <- & _); reflexivity.
Qed.

(** C8 (amended). Unscheduled reason strings: every class left unscheduled by
    phase 1 carries the reason ["No compatible room-time slot found"], and
    every class left without a teacher by phase 2 carries the reason
    ["No available teacher found"]. *)
Theorem unscheduled_reasons classes rooms avail cp ta ts a u :
  assign_teachers_to_classes (fst (assign_classes_to_slots classes rooms avail cp)) ta cp ts
    = Some (a, u) ->
  Forall (fun x => uc_reason x = "No compatible room-time slot found"%string)
    (snd (assign_classes_to_slots classes rooms avail cp)) /\
  Forall (fun y => ua_reason y = "No available teacher found"%string) u.
Proof.
  intros H; split; [|exact (teacher_pass_reasons _ _ _ _ _ _ H)].
  unfold assign_classes_to_slots.
  pose proof (place_loop_reasons rooms cp (sort_classes_by_difficulty classes cp)
                (create_room_availability_matrix rooms avail) [] [] (Forall_nil _)) as R.
  revert R; destruct (fold_left _ _ _) as [[m' sch'] uns']; simpl; auto.
Qed.

Lemma unscheduled_reasons_witness :
  assign_teachers_to_classes
    (fst (assign_classes_to_slots [ex_class 1 4; ex_class 2 4] [ex_R1] (avail_of_keys (ex_open 1 0 4)) []))
    ex_ta [] ex_ts = Some ([with_teacher (ex_sched 2 1) 7], []) /\
  Forall (fun x => uc_reason x = "No compatible room-time slot found"%string)
    (snd (assign_classes_to_slots [ex_class 1 4; ex_class 2 4] [ex_R1] (avail_of_keys (ex_open 1 0 4)) [])) /\
  Forall (fun y => ua_reason y = "No available teacher found"%string) ([] : list unassigned_class).
Proof.
  assert (H : assign_teachers_to_classes
    (fst (assign_classes_to_slots [ex_class 1 4; ex_class 2 4] [ex_R1] (avail_of_keys (ex_open 1 0 4)) []))
    ex_ta [] ex_ts = Some ([with_teacher (ex_sched 2 1) 7], [])) by (vm_compute; reflexivity).
  split; [exact H|].
  exact (unscheduled_reasons _ _ _ _ _ _ _ _ H).
Defined.

(** C8, counterexample: a class with no room gets the reason
    ["No compatible room-time slot found"], and a class with no free teacher
    gets ["No available teacher found"]; neither is the string of the
    claim. *)
Lemma reason_strings_differ :
  map uc_reason (snd (assign_classes_to_slots [ex_class 1 4] [] (avail_of_keys []) []))
    = ["No compatible room-time slot found"%string] /\
  option_map (fun p => map ua_reason (snd p))
    (assign_teachers_to_classes [ex_sched 1 1] (avail_of_keys []) [] ex_ts)
    = Some ["No available teacher found"%string] /\
  "No compatible room-time slot found"%string <> "no compatible room-time slot"%string /\
  "No available teacher found"%string <> "no available teacher"%string.
Proof.
  split; [vm_compute; reflexivity|]. split; [vm_compute; reflexivity|].
  split; intros H; discriminate H.
Qed.

Lemma strip_with_teacher sc b : strip_teacher (with_teacher sc b) = strip_teacher sc.
Proof. destruct sc; reflexivity. Qed.

Lemma assign_loop_strip score_fn ts cp l ta out :
  assign_loop score_fn ts cp ta l = Some out -> map strip_teacher out = map strip_teacher l.
Proof.
  revert ta out; induction l as [|sc l IH]; intros ta out; simpl.
  - intros [= <-]; reflexivity.
  - destruct (assign_one score_fn ts cp ta sc) as [[ta' sc']|] eqn:Ho; [|discriminate].
    destruct (assign_loop score_fn ts cp ta' l) as [out'|] eqn:Er; [|discriminate].
    simpl; intros [= <-]; simpl.
    rewrite (IH ta' out' Er).
    destruct (assign_one_cases _ _ _ _ _ _ _ Ho) as [[_ ->] | (b & _ & _ & -> & _)];
      [reflexivity | now rewrite strip_with_teacher].
Qed.

Lemma filter_partition_perm {A} (p : A -> bool) l :
  Permutation (filter p l ++ filter (fun x => negb (p x)) l) l.
Proof.
  induction l as [|x l IH]; simpl; [constructor|].
  destruct (p x); simpl.
  - now apply perm_skip.
  - apply Permutation_sym, Permutation_cons_app, Permutation_sym, IH.
Qed.

(** The teacher pass returns the class records it was given, up to their
    [teacher_id] field, split into the assigned and the unassigned ones. *)
Lemma teacher_pass_strip sch ta cp ts a u :
  assign_teachers_to_classes sch ta cp ts = Some (a, u) ->
  Permutation (map strip_teacher (a ++ map ua_class u)) (map strip_teacher sch).
Proof.
  unfold assign_teachers_to_classes, assign_teachers_with.
  destruct (assign_loop score_teacher ts cp ta (sort_asc chrono_leb sch)) as [out|] eqn:E;
    [|discriminate].
  simpl; rewrite split_assigned_spec; intros [= <- <-].
  rewrite map_map; simpl; rewrite map_id.
  eapply perm_trans; [apply Permutation_map, filter_partition_perm|].
  rewrite (assign_loop_strip _ _ _ _ _ _ E).
  apply Permutation_map, sort_asc_perm.
Qed.

(** C10. Phase 2 frames the placements: the assigned classes and the class
    records of the unassigned ones are, up to order and to their
    [teacher_id] field, the records given to [assign_teachers_to_classes]
    (same class fields, [room_id], [day_idx], [start_slot], [end_slot]); the
    unassigned copies carry the reason ["No available teacher found"]. *)
Theorem teacher_pass_frames sch ta cp ts a u :
  assign_teachers_to_classes sch ta cp ts = Some (a, u) ->
  Permutation (map strip_teacher (a ++ map ua_class u)) (map strip_teacher sch) /\
  Forall (fun y => ua_reason y = no_teacher_reason) u.
Proof.
  intros H; split; [exact (teacher_pass_strip _ _ _ _ _ _ H) | exact (teacher_pass_reasons _ _ _ _ _ _ H)].
Qed.

Lemma teacher_pass_frames_witness :
  assign_teachers_to_classes [ex_sched 1 1; ex_sched 2 2] ex_ta [] ex_ts =
    Some ([with_teacher (ex_sched 1 1) 7],
          [{| ua_class := ex_sched 2 2; ua_reason := no_teacher_reason |}]) /\
  Permutation (map strip_teacher ([with_teacher (ex_sched 1 1) 7] ++
                 map ua_class [{| ua_class := ex_sched 2 2; ua_reason := no_teacher_reason |}]))
              (map strip_teacher [ex_sched 1 1; ex_sched 2 2]) /\
  Forall (fun y => ua_reason y = no_teacher_reason)
    [{| ua_class := ex_sched 2 2; ua_reason := no_teacher_reason |}].
Proof.
  assert (Ha : assign_teachers_to_classes [ex_sched 1 1; ex_sched 2 2] ex_ta [] ex_ts =
    Some ([with_teacher (ex_sched 1 1) 7],
          [{| ua_class := ex_sched 2 2; ua_reason := no_teacher_reason |}]))
    by (vm_compute; reflexivity).
  split; [exact Ha|].
  exact (teacher_pass_frames _ _ _ _ _ _ Ha).
Defined.

Lemma flat_map_find_ids classes (l : list (Q * Z)) :
  (forall p, In p l -> In (snd p) (map class_id classes)) ->
  map class_id (flat_map (fun sc => match find (fun c => class_id c =? snd sc) classes with
                                    | Some c => [c]
                                    | None => []
                                    end) l)
  = map snd l.
Proof.
  induction l as [|p l IH]; intros H; simpl; [reflexivity|].
  destruct (find (fun c => class_id c =? snd p) classes) as [c|] eqn:E.
  - apply find_some in E as [_ E]; apply Z.eqb_eq in E.
    simpl; rewrite E, IH; [reflexivity|]. intros p' Hp'; apply H; right; exact Hp'.
  - exfalso.
    destruct (proj1 (in_map_iff _ _ _) (H p (or_introl eq_refl))) as (c & Hc & Hin).
    pose proof (find_none _ _ E c Hin) as Hf; simpl in Hf.
    rewrite Hc, Z.eqb_refl in Hf; discriminate.
Qed.

(** Sorting by difficulty returns one class per input class, with the same
    multiset of class ids. *)
Lemma sort_classes_ids classes cp :
  Permutation (map class_id (sort_classes_by_difficulty classes cp)) (map class_id classes).
Proof.
  unfold sort_classes_by_difficulty; rewrite flat_map_find_ids.
  - eapply perm_trans; [apply Permutation_map, sort_desc_perm|].
    rewrite map_map; apply Permutation_refl.
  - intros p Hp.
    apply (Permutation_in _ (sort_desc_perm _ _)) in Hp.
    apply in_map_iff in Hp as (c & <- & Hc); simpl.
    apply in_map; exact Hc.
Qed.

Lemma place_loop_ids rooms cp l m sch uns :
  let '(_, sch', uns') := fold_left (place_class rooms cp) l (m, sch, uns) in
  Permutation (map sc_class_id sch' ++ map (fun x => class_id (uc_class x)) uns')
              (map sc_class_id sch ++ map (fun x => class_id (uc_class x)) uns ++ map class_id l).
Proof.
  revert m sch uns; induction l as [|c l IH]; intros m sch uns.
  - simpl; rewrite app_nil_r; apply Permutation_refl.
  - cbn [fold_left].
    assert (H' : let '(_, sch1, uns1) := place_class rooms cp (m, sch, uns) c in
                 Permutation (map sc_class_id sch1 ++ map (fun x => class_id (uc_class x)) uns1)
                   (map sc_class_id sch ++ map (fun x => class_id (uc_class x)) uns ++ [class_id c])).
    { unfold place_class.
      destruct (best_slot c cp sch rooms (find_compatible_slots c m rooms cp)) as [[[rid d] s]|].
      - rewrite map_app; simpl; rewrite <- app_assoc; simpl.
        apply Permutation_app_head, Permutation_cons_append.
      - rewrite map_app; simpl; apply Permutation_refl. }
    destruct (place_class rooms cp (m, sch, uns) c) as [[m1 sch1] uns1].
    specialize (IH m1 sch1 uns1).
    destruct (fold_left (place_class rooms cp) l (m1, sch1, uns1)) as [[m2 sch2] uns2].
    eapply perm_trans; [exact IH|].
    rewrite app_assoc.
    eapply perm_trans; [apply Permutation_app_tail; exact H'|].
    rewrite <- !app_assoc; simpl; apply Permutation_refl.
Qed.

Lemma map_strip_ids l : map sc_class_id (map strip_teacher l) = map sc_class_id l.
Proof. induction l as [|x l IH]; simpl; [reflexivity | now rewrite IH]. Qed.

(** C9. Stats consistency of the [stats] dict that [schedule_classes] builds
    from the two phases: [scheduled_classes + unscheduled_by_room +
    unscheduled_by_teacher = total_classes]; the class ids of the assigned,
    the teacher-unassigned and the room-unscheduled lists are, together,
    those of the input classes. ([schedule_classes] itself raises at the
    output call before returning it; see [schedule_classes_raises_on_example].) *)
Theorem stats_consistent data st :
  phase_stats data = Some st ->
  scheduled_classes st + unscheduled_by_room st + unscheduled_by_teacher st = total_classes st /\
  exists a ut,
    assign_teachers_to_classes
      (fst (assign_classes_to_slots (d_classes data) (d_rooms data) (d_room_availability data)
              (d_class_preferences data)))
      (d_teacher_availability data) (d_class_preferences data) (d_teacher_specializations data)
      = Some (a, ut) /\
    Permutation
      (map sc_class_id a ++ map (fun y => sc_class_id (ua_class y)) ut
       ++ map (fun x => class_id (uc_class x))
            (snd (assign_classes_to_slots (d_classes data) (d_rooms data) (d_room_availability data)
                    (d_class_preferences data))))
      (map class_id (d_classes data)).
Proof.
  unfold phase_stats.
  pose proof (place_loop_ids (d_rooms data) (d_class_preferences data)
                (sort_classes_by_difficulty (d_classes data) (d_class_preferences data))
                (create_room_availability_matrix (d_rooms data) (d_room_availability data)) [] [])
    as H1.
  assert (E1 : exists sch ur,
            assign_classes_to_slots (d_classes data) (d_rooms data) (d_room_availability data)
              (d_class_preferences data) = (sch, ur) /\
            Permutation (map sc_class_id sch ++ map (fun x => class_id (uc_class x)) ur)
              (map class_id (d_classes data))).
  { unfold assign_classes_to_slots.
    revert H1; destruct (fold_left _ _ _) as [[m' sch'] ur']; simpl; intros H1.
    exists sch', ur'; split; [reflexivity|].
    eapply perm_trans; [exact H1|]. apply sort_classes_ids. }
  destruct E1 as (sch & ur & -> & Hp1).
  destruct (assign_teachers_to_classes sch (d_teacher_availability data) (d_class_preferences data)
              (d_teacher_specializations data)) as [[a ut]|] eqn:E2; [|discriminate].
  intros [= <-]; simpl.
  assert (Hp : Permutation (map sc_class_id a ++ map (fun y => sc_class_id (ua_class y)) ut
                            ++ map (fun x => class_id (uc_class x)) ur)
                           (map class_id (d_classes data))).
  { pose proof (Permutation_map sc_class_id (teacher_pass_strip _ _ _ _ _ _ E2)) as Hp2.
    rewrite !map_strip_ids, map_app, map_map in Hp2.
    rewrite app_assoc.
    eapply perm_trans; [apply Permutation_app_tail; exact Hp2|].
    exact Hp1. }
  split.
  - pose proof (Permutation_length Hp) as L.
    rewrite !length_app, !length_map in L.
    unfold zlen; lia.
  - exists a, ut; split; [exact E2 | exact Hp].
Qed.

Lemma stats_consistent_witness :
  phase_stats ex_data = Some ex_stats /\
  scheduled_classes ex_stats + unscheduled_by_room ex_stats + unscheduled_by_teacher ex_stats
    = total_classes ex_stats /\
  exists a ut,
    assign_teachers_to_classes
      (fst (assign_classes_to_slots (d_classes ex_data) (d_rooms ex_data) (d_room_availability ex_data)
              (d_class_preferences ex_data)))
      (d_teacher_availability ex_data) (d_class_preferences ex_data) (d_teacher_specializations ex_data)
      = Some (a, ut) /\
    Permutation
      (map sc_class_id a ++ map (fun y => sc_class_id (ua_class y)) ut
       ++ map (fun x => class_id (uc_class x))
            (snd (assign_classes_to_slots (d_classes ex_data) (d_rooms ex_data)
                    (d_room_availability ex_data) (d_class_preferences ex_data))))
      (map class_id (d_classes ex_data)).
Proof.
  assert (H : phase_stats ex_data = Some ex_stats) by (vm_compute; reflexivity).
  split; [exact H|].
  exact (stats_consistent ex_data ex_stats H).
Defined.

(** C9, the divergence: on [ex_data] both phases succeed and their [stats]
    dict is [ex_stats], which satisfies the equation, but [schedule_classes]
    raises ([TypeError] at the six-argument [create_schedule_output] call)
    and returns no statistics. *)
Lemma schedule_classes_raises_on_example :
  phase_stats ex_data = Some ex_stats /\
  scheduled_classes ex_stats + unscheduled_by_room ex_stats + unscheduled_by_teacher ex_stats
    = total_classes ex_stats /\
  create_schedule_output_call 6 = None /\
  schedule_classes ex_data = None.
Proof. vm_compute; repeat split; reflexivity. Qed.

(** ** Day and slot conversions *)

Lemma day_to_index_unknown n : ~ In n days -> day_to_index n = -1.
Proof.
  intros Hn; unfold day_to_index; simpl.
  repeat match goal with
         | |- context [String.eqb n ?m] =>
             destruct (String.eqb_spec n m) as [-> | _]; [exfalso; apply Hn; simpl; tauto|]
         end.
  reflexivity.
Qed.

Lemma index_to_day_in d n : index_to_day d = Some n -> In n days.
Proof.
  unfold index_to_day; destruct ((0 <=? d) && (d <? 7)); [|discriminate].
  apply nth_error_In.
Qed.

Lemma index_to_day_range d n : index_to_day d = Some n -> 0 <= d < 7.
Proof.
  unfold index_to_day; destruct ((0 <=? d) && (d <? 7)) eqn:E; [|discriminate].
  intros _; apply andb_true_iff in E as [E1 E2]; apply Z.leb_le in E1; apply Z.ltb_lt in E2; lia.
Qed.

(** X1. [index_to_day] and [day_to_index] are inverse on the week: each
    index [0..6] names a day that [day_to_index] maps back to it, and each
    of the seven day names round-trips through its index. *)
Theorem day_index_round_trip :
  (forall d, 0 <= d < 7 -> exists n, index_to_day d = Some n /\ In n days /\ day_to_index n = d) /\
  (forall n, In n days -> index_to_day (day_to_index n) = Some n).
Proof.
  split.
  - intros d Hd.
    assert (H : d = 0 \/ d = 1 \/ d = 2 \/ d = 3 \/ d = 4 \/ d = 5 \/ d = 6) by lia.
    destruct H as [-> | [-> | [-> | [-> | [-> | [-> | ->]]]]]];
      eexists; (split; [reflexivity | split; [simpl; tauto | reflexivity]]).
  - intros n Hn; simpl in Hn.
    repeat (destruct Hn as [<- | Hn]; [reflexivity|]); destruct Hn.
Qed.

(** X2. Out of the week: a name that is not one of the seven day names has
    index [-1], and an index outside [0..6] has no day name ([None]). *)
Theorem day_conversions_out_of_range :
  (forall n, ~ In n days -> day_to_index n = -1) /\
  (forall d, ~ (0 <= d < 7) -> index_to_day d = None).
Proof.
  split; [exact day_to_index_unknown|].
  intros d Hd; destruct (index_to_day d) as [n|] eqn:E; [|reflexivity].
  exfalso; apply Hd, (index_to_day_range d n E).
Qed.

Lemma decode_slot_index_to_time_check :
  forallb (fun s => match decode_time (slot_index_to_time s) with
                    | Some s' => s' =? s
                    | None => false
                    end) (zrange 0 400) = true.
Proof. vm_compute; reflexivity. Qed.

(** X3. [slot_index_to_time] is injective on the slots [0 <= s < 400]
    (hours [00] to [99]): two different slots never print as the same
    ["HH:MM"] string. *)
Theorem slot_index_to_time_injective s s' :
  0 <= s < 400 -> 0 <= s' < 400 -> slot_index_to_time s = slot_index_to_time s' -> s = s'.
Proof.
  intros Hs Hs' E.
  pose proof decode_slot_index_to_time_check as C; rewrite forallb_forall in C.
  pose proof (C s (proj2 (in_zrange _ _ _) Hs)) as C1.
  pose proof (C s' (proj2 (in_zrange _ _ _) Hs')) as C2.
  rewrite E in C1; destruct (decode_time (slot_index_to_time s')); [|discriminate].
  apply Z.eqb_eq in C1; apply Z.eqb_eq in C2; congruence.
Qed.

Lemma slot_index_to_time_injective_witness :
  0 <= 37 < 400 /\ 0 <= 38 < 400 /\
  (slot_index_to_time 37 = slot_index_to_time 38 -> 37 = 38).
Proof.
  split; [lia|]. split; [lia|].
  apply (slot_index_to_time_injective 37 38); lia.
Defined.

(** ** The availability loading loop *)

Lemma zrange_nil lo hi : hi <= lo -> zrange lo hi = [].
Proof. intros H; unfold zrange; replace (Z.to_nat (hi - lo)) with 0%nat by lia; reflexivity. Qed.

Lemma zrange_cons lo hi : lo < hi -> zrange lo hi = lo :: zrange (lo + 1) hi.
Proof.
  intros H; unfold zrange.
  replace (Z.to_nat (hi - lo)) with (S (Z.to_nat (hi - (lo + 1)))) by lia.
  simpl; f_equal; [lia|].
  rewrite <- seq_shift, map_map; apply map_ext; lia.
Qed.

Lemma time_to_slot_index_minutes c :
  0 <= c -> time_to_slot_index (c / 60) (c mod 60) = c / 15.
Proof.
  intros Hc; unfold time_to_slot_index.
  rewrite (Z.div_mod c 60) at 3 by lia.
  replace (60 * (c / 60) + c mod 60) with (c mod 60 + (4 * (c / 60)) * 15) by ring.
  rewrite Z.div_add by lia; ring.
Qed.

Ltac div15_facts x :=
  pose proof (Z.div_mod x 15 ltac:(lia)); pose proof (Z.mod_pos_bound x 15 ltac:(lia)).

Lemma interval_slots_loop_range fuel cur en :
  0 <= cur -> (Z.to_nat (en - cur) <= fuel)%nat ->
  interval_slots_loop fuel cur en = zrange (cur / 15) (cur / 15 + (en - cur + 14) / 15).
Proof.
  revert cur; induction fuel as [|fuel IH]; intros cur Hc Hf; simpl.
  - div15_facts (en - cur + 14). rewrite zrange_nil; [reflexivity|]. lia.
  - destruct (Z.ltb_spec cur en) as [Hlt | Hge].
    + rewrite IH by lia.
      rewrite time_to_slot_index_minutes by lia.
      div15_facts (en - cur + 14). div15_facts cur. div15_facts (cur + 15).
      div15_facts (en - (cur + 15) + 14).
      rewrite (zrange_cons (cur / 15)) by lia.
      f_equal; f_equal; lia.
    + div15_facts (en - cur + 14). rewrite zrange_nil; [reflexivity|]. lia.
Qed.

(** X4. The slots marked for one availability row starting at minute
    [start_time >= 0] form the contiguous range that starts at the slot of
    [start_time] and has one slot per started quarter hour before
    [end_time] (none when [end_time <= start_time]). *)
Theorem interval_slots_range start_time end_time :
  0 <= start_time ->
  interval_slots start_time end_time
  = zrange (start_time / 15) (start_time / 15 + (end_time - start_time + 14) / 15).
Proof. intros H; unfold interval_slots; apply interval_slots_loop_range; lia. Qed.

Lemma interval_slots_range_witness :
  0 <= 545 /\
  interval_slots 545 600 = zrange (545 / 15) (545 / 15 + (600 - 545 + 14) / 15).
Proof. split; [lia | apply interval_slots_range; lia]. Defined.

Lemma key_eqb_spec k k' : key_eqb k k' = true <-> k = k'.
Proof.
  destruct k as [[a b] c], k' as [[a' b'] c']; simpl.
  rewrite !andb_true_iff, !Z.eqb_eq; split.
  - intros [[-> ->] ->]; reflexivity.
  - intros [= -> -> ->]; auto.
Qed.

Lemma fold_set_true_spec a b l m k :
  fold_left (fun m slot => set m (a, b, slot) true) l m k = true <->
  m k = true \/ exists slot, In slot l /\ k = (a, b, slot).
Proof.
  revert m; induction l as [|x l IH]; intros m; simpl.
  - split; [auto | intros [H | (y & [] & _)]; exact H].
  - rewrite IH; unfold set.
    destruct (key_eqb k (a, b, x)) eqn:E.
    + apply key_eqb_spec in E; split; [intros _; right; exists x; auto | intros _; left; reflexivity].
    + split.
      * intros [H | (y & Hy & ->)]; [left; exact H | right; exists y; auto].
      * intros [H | (y & [<- | Hy] & ->)].
        -- left; exact H.
        -- rewrite key_eqb_refl in E; discriminate.
        -- right; exists y; auto.
Qed.

Lemma load_rows_spec rows m k :
  fold_left (fun m row =>
    fold_left (fun m slot => set m (ar_id row, day_to_index (ar_day row), slot) true)
      (interval_slots (ar_start row) (ar_end row)) m) rows m k = true <->
  m k = true \/
  exists row slot, In row rows /\ In slot (interval_slots (ar_start row) (ar_end row)) /\
    k = (ar_id row, day_to_index (ar_day row), slot).
Proof.
  revert m; induction rows as [|row rows IH]; intros m; simpl.
  - split; [auto | intros [H | (r & s & [] & _)]; exact H].
  - rewrite IH, fold_set_true_spec; split.
    + intros [[H | (s & Hs & ->)] | (r & s & Hr & Hs & ->)].
      * left; exact H.
      * right; exists row, s; auto.
      * right; exists r, s; auto.
    + intros [H | (r & s & [<- | Hr] & Hs & ->)].
      * left; left; exact H.
      * left; right; exists s; auto.
      * right; exists r, s; auto.
Qed.

Lemma load_availability_true rows i d s :
  load_availability rows (i, d, s) = true <->
  exists row, In row rows /\ ar_id row = i /\ day_to_index (ar_day row) = d /\
    In s (interval_slots (ar_start row) (ar_end row)).
Proof.
  unfold load_availability; rewrite load_rows_spec; split.
  - intros [H | (row & s' & Hr & Hs & E)]; [discriminate|].
    injection E as -> -> ->; exists row; auto.
  - intros (row & Hr & <- & <- & Hs); right; exists row, s; auto.
Qed.

(** X5. The loaded availability dictionary is true at
    [(id, day_idx, slot_idx)] exactly when some row has that id, a day name
    whose [day_to_index] is [day_idx], and [slot_idx] among its slots. *)
Theorem load_availability_spec rows i d s :
  load_availability rows (i, d, s) = true <->
  exists row, In row rows /\ ar_id row = i /\ day_to_index (ar_day row) = d /\
    In s (interval_slots (ar_start row) (ar_end row)).
Proof. apply load_availability_true. Qed.

(** ** Candidate slots *)

Lemma py_in_spec x l : py_in x l = true <-> In x l.
Proof.
  unfold py_in; rewrite existsb_exists; split.
  - intros (y & Hy & E); destruct x as [a|a], y as [b|b]; simpl in E; try discriminate.
    + apply Z.eqb_eq in E; subst; exact Hy.
    + apply String.eqb_eq in E; subst; exact Hy.
  - intros H; exists x; split; [exact H|].
    destruct x as [a|a]; simpl; [apply Z.eqb_refl | apply String.eqb_refl].
Qed.

Lemma is_nil_spec {A} (l : list A) : is_nil l = true <-> l = [].
Proof. destruct l; simpl; split; congruence. Qed.

Lemma fits_iff m rid d st dur :
  fits m rid d st dur = true <-> forall s, st <= s < st + dur -> m (rid, d, s) = true.
Proof.
  split; [intros H s Hs; exact (fits_at _ _ _ _ _ _ H Hs)|].
  intros H; unfold fits; apply forallb_forall; intros off Hoff.
  apply in_zrange in Hoff; apply H; lia.
Qed.

Lemma negb_and_false a b : negb a && negb b = false <-> a = true \/ b = true.
Proof. destruct a, b; simpl; intuition congruence. Qed.

Lemma find_compatible_slots_sound c m rooms cp rid d st :
  In (rid, d, st) (find_compatible_slots c m rooms cp) ->
  (exists r, In r rooms /\ room_id r = rid) /\ 0 <= d < 7 /\ 0 <= st < 96 /\
  (pref_values cp (class_id c) "room" = [] \/ In (VInt rid) (pref_values cp (class_id c) "room")) /\
  (pref_values cp (class_id c) "day" = [] \/
     exists n, index_to_day d = Some n /\ In (VStr n) (pref_values cp (class_id c) "day")) /\
  (pref_values cp (class_id c) "time" = [] \/ In (VInt st) (pref_values cp (class_id c) "time")) /\
  fits m rid d st (duration_slots c) = true.
Proof.
  unfold find_compatible_slots; cbv zeta; intros H.
  apply in_flat_map in H as (room & Hr & H).
  match type of H with context [if ?b then _ else _] => destruct b eqn:E1 end; [contradiction|].
  apply in_flat_map in H as (d' & Hd & H).
  match type of H with context [if ?b then _ else _] => destruct b eqn:E2 end; [contradiction|].
  apply in_flat_map in H as (st' & Hst & H).
  match type of H with context [if ?b then _ else _] => destruct b eqn:E3 end; [contradiction|].
  destruct (fits m (room_id room) d' st' (duration_slots c)) eqn:Ef; [|contradiction].
  destruct H as [[= <- <- <-] | []].
  apply in_zrange in Hd; apply in_zrange in Hst.
  apply negb_and_false in E1, E2, E3.
  rewrite is_nil_spec, py_in_spec in E1, E3; rewrite is_nil_spec in E2.
  split; [exists room; auto|]. split; [exact Hd|]. split; [exact Hst|].
  split; [exact E1|]. split; [|split; [exact E3 | exact Ef]].
  destruct E2 as [E2 | E2]; [left; exact E2 | right].
  destruct (index_to_day d') as [n|]; [|discriminate].
  exists n; split; [reflexivity | apply py_in_spec; exact E2].
Qed.

Lemma find_compatible_slots_complete c m rooms cp r d st :
  In r rooms -> 0 <= d < 7 -> 0 <= st < 96 ->
  (pref_values cp (class_id c) "room" = [] \/ In (VInt (room_id r)) (pref_values cp (class_id c) "room")) ->
  (pref_values cp (class_id c) "day" = [] \/
     exists n, index_to_day d = Some n /\ In (VStr n) (pref_values cp (class_id c) "day")) ->
  (pref_values cp (class_id c) "time" = [] \/ In (VInt st) (pref_values cp (class_id c) "time")) ->
  fits m (room_id r) d st (duration_slots c) = true ->
  In (room_id r, d, st) (find_compatible_slots c m rooms cp).
Proof.
  intros Hr Hd Hst Hpr Hpd Hpt Hf.
  unfold find_compatible_slots; cbv zeta.
  apply in_flat_map; exists r; split; [exact Hr|].
  rewrite (proj2 (negb_and_false _ _))
    by (rewrite is_nil_spec, py_in_spec; exact Hpr).
  apply in_flat_map; exists d; split; [apply in_zrange; exact Hd|].
  rewrite (proj2 (negb_and_false _ _)).
  2: { rewrite is_nil_spec; destruct Hpd as [Hpd | (n & -> & Hn)]; [left; exact Hpd|].
       right; apply py_in_spec; exact Hn. }
  apply in_flat_map; exists st; split; [apply in_zrange; exact Hst|].
  rewrite (proj2 (negb_and_false _ _))
    by (rewrite is_nil_spec, py_in_spec; exact Hpt).
  rewrite Hf; left; reflexivity.
Qed.

(** X6. [find_compatible_slots] returns exactly the triples
    [(room_id, day_idx, start_slot)] with [room_id] the id of a room of
    [rooms], [0 <= day_idx < 7], [0 <= start_slot < 96], that pass each
    non-empty preference list of the class (room id, day name, start slot
    listed) and whose [duration_slots] slots from [start_slot] are all
    available in the matrix. *)
Theorem find_compatible_slots_spec c m rooms cp rid d st :
  In (rid, d, st) (find_compatible_slots c m rooms cp) <->
  (exists r, In r rooms /\ room_id r = rid) /\ 0 <= d < 7 /\ 0 <= st < 96 /\
  (pref_values cp (class_id c) "room" = [] \/ In (VInt rid) (pref_values cp (class_id c) "room")) /\
  (pref_values cp (class_id c) "day" = [] \/
     exists n, index_to_day d = Some n /\ In (VStr n) (pref_values cp (class_id c) "day")) /\
  (pref_values cp (class_id c) "time" = [] \/ In (VInt st) (pref_values cp (class_id c) "time")) /\
  (forall s, st <= s < st + duration_slots c -> m (rid, d, s) = true).
Proof.
  split.
  - intros H; pose proof (find_compatible_slots_sound _ _ _ _ _ _ _ H) as (H1 & H2 & H3 & H4 & H5 & H6 & H7).
    repeat (split; [assumption|]); apply fits_iff; exact H7.
  - intros ((r & Hr & <-) & H2 & H3 & H4 & H5 & H6 & H7).
    apply find_compatible_slots_complete; try assumption.
    apply fits_iff; exact H7.
Qed.

(** X7. Rows of the availability sheet whose day name is not one of the
    seven names never yield a candidate slot: every candidate start slot of
    a class with [duration_slots > 0], on the loaded and seeded matrix, comes
    from a row of that room with a valid day name. *)
Theorem candidates_from_valid_rows rooms rows c cp rid d st :
  0 < duration_slots c ->
  In (rid, d, st)
    (find_compatible_slots c (create_room_availability_matrix rooms (load_availability rows)) rooms cp) ->
  exists row, In row rows /\ ar_id row = rid /\ In (ar_day row) days /\
    day_to_index (ar_day row) = d /\ In st (interval_slots (ar_start row) (ar_end row)).
Proof.
  intros Hdur H.
  destruct (find_compatible_slots_sound _ _ _ _ _ _ _ H) as (_ & Hd & _ & _ & _ & _ & Hf).
  pose proof (fits_at _ _ _ _ _ st Hf ltac:(lia)) as Hst.
  apply seed_shrinks, load_availability_true in Hst as (row & Hr & Hi & Hday & Hs).
  exists row; split; [exact Hr|]; split; [exact Hi|]; split; [|split; [exact Hday | exact Hs]].
  destruct (in_dec string_dec (ar_day row) days) as [Hin | Hout]; [exact Hin|].
  rewrite (day_to_index_unknown _ Hout) in Hday; lia.
Qed.

Lemma candidates_from_valid_rows_witness :
  let rows := [{| ar_id := 1; ar_day := "Monday"; ar_start := 0; ar_end := 60 |};
               {| ar_id := 1; ar_day := "Mnday"; ar_start := 60; ar_end := 120 |}] in
  0 < duration_slots (ex_class 1 4) /\
  In (1, 0, 0)
    (find_compatible_slots (ex_class 1 4) (create_room_availability_matrix [ex_R1] (load_availability rows))
       [ex_R1] []) /\
  exists row, In row rows /\ ar_id row = 1 /\ In (ar_day row) days /\
    day_to_index (ar_day row) = 0 /\ In 0 (interval_slots (ar_start row) (ar_end row)).
Proof.
  intros rows.
  assert (H1 : 0 < duration_slots (ex_class 1 4)) by (simpl; lia).
  assert (H2 : In (1, 0, 0)
    (find_compatible_slots (ex_class 1 4) (create_room_availability_matrix [ex_R1] (load_availability rows))
       [ex_R1] [])) by (vm_compute; left; reflexivity).
  split; [exact H1|]; split; [exact H2|].
  exact (candidates_from_valid_rows [ex_R1] rows (ex_class 1 4) [] 1 0 0 H1 H2).
Defined.

(** ** Soundness of the placements *)

Lemma sort_classes_in classes cp c :
  In c (sort_classes_by_difficulty classes cp) -> In c classes.
Proof.
  unfold sort_classes_by_difficulty; intros H.
  apply in_flat_map in H as (p & _ & H).
  destruct (find _ classes) as [c'|] eqn:E; [|destruct H].
  destruct H as [<- | []]; exact (proj1 (find_some _ _ E)).
Qed.

Lemma place_class_sound classes rooms cp m0 m sch uns c :
  In c classes -> shrinks m0 m -> (forall x, In x sch -> placement_from classes rooms cp m0 x) ->
  let '(m', sch', _) := place_class rooms cp (m, sch, uns) c in
  shrinks m0 m' /\ forall x, In x sch' -> placement_from classes rooms cp m0 x.
Proof.
  intros Hc Hm Hs; unfold place_class.
  destruct (best_slot c cp sch rooms (find_compatible_slots c m rooms cp))
    as [[[rid d] st]|] eqn:Eb; [|split; assumption].
  pose proof (find_compatible_slots_sound _ _ _ _ _ _ _ (best_slot_in _ _ _ _ _ _ Eb))
    as ((r & Hr & <-) & Hd & Hst & Hpr & Hpd & Hpt & Hf).
  split; [eapply shrinks_trans; [exact Hm | apply mark_placement_shrinks]|].
  intros x Hx; apply in_app_or in Hx as [Hx | [<- | []]]; [exact (Hs x Hx)|].
  exists c, r, d, st; repeat (split; [assumption || reflexivity|]).
  intros s Hs'; apply Hm; exact (fits_at _ _ _ _ _ _ Hf Hs').
Qed.

Lemma place_loop_sound classes rooms cp m0 l m sch uns :
  incl l classes -> shrinks m0 m -> (forall x, In x sch -> placement_from classes rooms cp m0 x) ->
  let '(m', sch', _) := fold_left (place_class rooms cp) l (m, sch, uns) in
  forall x, In x sch' -> placement_from classes rooms cp m0 x.
Proof.
  revert m sch uns; induction l as [|c l IH]; intros m sch uns Hl Hm Hs; [exact Hs|].
  cbn [fold_left].
  pose proof (place_class_sound classes rooms cp m0 m sch uns c (Hl c (or_introl eq_refl)) Hm Hs) as H.
  destruct (place_class rooms cp (m, sch, uns) c) as [[m' sch'] uns'].
  destruct H as [Hm' Hs']; apply IH; [intros y Hy; apply Hl; right; exact Hy | exact Hm' | exact Hs'].
Qed.

Lemma assign_classes_sound classes rooms avail cp x :
  In x (fst (assign_classes_to_slots classes rooms avail cp)) ->
  placement_from classes rooms cp avail x.
Proof.
  unfold assign_classes_to_slots.
  pose proof (place_loop_sound classes rooms cp avail (sort_classes_by_difficulty classes cp)
                (create_room_availability_matrix rooms avail) [] []
                (sort_classes_in classes cp) (seed_shrinks rooms avail)
                (fun x (H : In x []) => match H with end)) as H.
  destruct (fold_left _ _ _) as [[m' sch'] uns']; exact (H x).
Qed.

(** X8. Every placement returned by [assign_classes_to_slots] is the record
    built by [make_scheduled] from one of the input classes, in one of the
    input rooms, on a day index in [0..6] and a start slot in [0..95], and
    the input availability is true for that room and day over every slot the
    class occupies. *)
Theorem placements_sound classes rooms avail cp x :
  In x (fst (assign_classes_to_slots classes rooms avail cp)) ->
  exists c r d st, In c classes /\ In r rooms /\ x = make_scheduled c (room_id r) d st /\
    0 <= d < 7 /\ 0 <= st < 96 /\
    forall s, st <= s < st + duration_slots c -> avail (room_id r, d, s) = true.
Proof.
  intros H; destruct (assign_classes_sound _ _ _ _ _ H)
    as (c & r & d & st & Hc & Hr & Ex & Hd & Hst & _ & _ & _ & Hav).
  exists c, r, d, st; tauto.
Qed.

Lemma placements_sound_witness :
  In (ex_sched 1 1)
    (fst (assign_classes_to_slots [ex_class 1 4] [ex_R1] (avail_of_keys (ex_open 1 0 4)) [])) /\
  exists c r d st, In c [ex_class 1 4] /\ In r [ex_R1] /\ ex_sched 1 1 = make_scheduled c (room_id r) d st /\
    0 <= d < 7 /\ 0 <= st < 96 /\
    forall s, st <= s < st + duration_slots c -> avail_of_keys (ex_open 1 0 4) (room_id r, d, s) = true.
Proof.
  assert (H : In (ex_sched 1 1)
    (fst (assign_classes_to_slots [ex_class 1 4] [ex_R1] (avail_of_keys (ex_open 1 0 4)) [])))
    by (vm_compute; left; reflexivity).
  split; [exact H|].
  exact (placements_sound _ _ _ _ _ H).
Defined.

(** X9. Every placement returned by [assign_classes_to_slots] satisfies the
    preferences of its class id: each of the room, day and time preference
    lists is empty or lists the placement's room id, day name and start slot
    respectively. *)
Theorem placements_respect_preferences classes rooms avail cp x :
  In x (fst (assign_classes_to_slots classes rooms avail cp)) ->
  (pref_values cp (sc_class_id x) "room" = [] \/ In (VInt (sc_room_id x)) (pref_values cp (sc_class_id x) "room")) /\
  (pref_values cp (sc_class_id x) "day" = [] \/
     exists n, sc_day x = Some n /\ In (VStr n) (pref_values cp (sc_class_id x) "day")) /\
  (pref_values cp (sc_class_id x) "time" = [] \/ In (VInt (sc_start_slot x)) (pref_values cp (sc_class_id x) "time")).
Proof.
  intros H; destruct (assign_classes_sound _ _ _ _ _ H)
    as (c & r & d & st & _ & _ & -> & _ & _ & Hpr & Hpd & Hpt & _).
  simpl; tauto.
Qed.

Lemma placements_respect_preferences_witness :
  In (ex_sched 1 1)
    (fst (assign_classes_to_slots [ex_class 1 4] [ex_R1] (avail_of_keys (ex_open 1 0 4)) [room_pref 1 1])) /\
  (pref_values [room_pref 1 1] (sc_class_id (ex_sched 1 1)) "room" = [] \/
     In (VInt (sc_room_id (ex_sched 1 1))) (pref_values [room_pref 1 1] (sc_class_id (ex_sched 1 1)) "room")) /\
  (pref_values [room_pref 1 1] (sc_class_id (ex_sched 1 1)) "day" = [] \/
     exists n, sc_day (ex_sched 1 1) = Some n /\ In (VStr n) (pref_values [room_pref 1 1] (sc_class_id (ex_sched 1 1)) "day")) /\
  (pref_values [room_pref 1 1] (sc_class_id (ex_sched 1 1)) "time" = [] \/
     In (VInt (sc_start_slot (ex_sched 1 1))) (pref_values [room_pref 1 1] (sc_class_id (ex_sched 1 1)) "time")).
Proof.
  assert (H : In (ex_sched 1 1)
    (fst (assign_classes_to_slots [ex_class 1 4] [ex_R1] (avail_of_keys (ex_open 1 0 4)) [room_pref 1 1])))
    by (vm_compute; left; reflexivity).
  split; [exact H|].
  exact (placements_respect_preferences _ _ _ _ _ H).
Defined.

(** ** Seeding leaves unrelated rooms alone *)

Lemma fold_keeps_at {A} (f : matrix -> A -> matrix) (l : list A) m k :
  (forall m x, In x l -> f m x k = m k) -> fold_left f l m k = m k.
Proof.
  revert m; induction l as [|x l IH]; intros m H; simpl; [reflexivity|].
  rewrite IH; [apply H; left; reflexivity|].
  intros m' y Hy; apply H; right; exact Hy.
Qed.

(** X10. Seeding only touches combined rooms and their components: a room id
    that is neither the id of a combined room with a component list nor the
    id [first_room_named] finds for one of the components of such a room
    keeps its input availability at every [(day_idx, slot_idx)]. *)
Theorem seeding_frame rooms avail rid d s :
  (forall c, In c rooms -> is_combined c && has_components c = true ->
     room_id c <> rid /\ forall n, In n (components c) -> first_room_named rooms n <> Some rid) ->
  create_room_availability_matrix rooms avail (rid, d, s) = avail (rid, d, s).
Proof.
  intros H; unfold create_room_availability_matrix.
  rewrite fold_keeps_at.
  - apply fold_keeps_at; intros m c Hc; unfold seed_combined_step.
    destruct (is_combined c && has_components c) eqn:Ec; [|reflexivity].
    destruct (H c Hc Ec) as [_ Hn].
    destruct (existsb (Z.eqb rid) (component_ids rooms (components c))) eqn:Ex;
      [|rewrite andb_false_r; reflexivity].
    exfalso; apply existsb_exists in Ex as (i & Hi & Ei); apply Z.eqb_eq in Ei; subst i.
    unfold component_ids in Hi; apply in_flat_map in Hi as (n & Hn' & Hi).
    destruct (first_room_named rooms n) eqn:Ef; [|destruct Hi].
    destruct Hi as [<- | []]; exact (Hn n Hn' Ef).
  - intros m c Hc; unfold seed_component_step.
    destruct (negb (is_combined c)); [|reflexivity].
    destruct (existsb (Z.eqb rid) (combined_ids_of rooms (room_name c))) eqn:Ex;
      [|rewrite andb_false_r; reflexivity].
    exfalso; apply existsb_exists in Ex as (i & Hi & Ei); apply Z.eqb_eq in Ei; subst i.
    unfold combined_ids_of in Hi; apply in_map_iff in Hi as (c' & Hid & Hc').
    apply filter_In in Hc' as [Hc' Ef]; apply andb_true_iff in Ef as [Ef _].
    exact (proj1 (H c' Hc' Ef) Hid).
Qed.

Lemma seeding_frame_witness :
  (forall c, In c ex_rooms -> is_combined c && has_components c = true ->
     room_id c <> 5 /\ forall n, In n (components c) -> first_room_named ex_rooms n <> Some 5) /\
  create_room_availability_matrix ex_rooms (avail_of_keys (ex_open 5 0 4)) (5, 0, 1)
  = avail_of_keys (ex_open 5 0 4) (5, 0, 1).
Proof.
  assert (H : forall c, In c ex_rooms -> is_combined c && has_components c = true ->
     room_id c <> 5 /\ forall n, In n (components c) -> first_room_named ex_rooms n <> Some 5).
  { intros c Hc; simpl in Hc.
    destruct Hc as [<- | [<- | [<- | []]]]; simpl; try discriminate.
    intros _; split; [discriminate|].
    intros n [<- | [<- | []]]; simpl; discriminate. }
  split; [exact H|].
  exact (seeding_frame ex_rooms _ 5 0 1 H).
Defined.

(** ** Order of [sort_classes_by_difficulty] *)

Lemma find_by_id classes c :
  NoDup (map class_id classes) -> In c classes ->
  find (fun c' => class_id c' =? class_id c) classes = Some c.
Proof.
  induction classes as [|c0 classes IH]; intros Hnd Hc; [destruct Hc|].
  simpl; inversion Hnd as [|? ? Hnin Hnd']; subst.
  destruct Hc as [<- | Hc]; [rewrite Z.eqb_refl; reflexivity|].
  destruct (Z.eqb_spec (class_id c0) (class_id c)) as [E | _].
  - exfalso; apply Hnin; rewrite E; apply in_map; exact Hc.
  - apply IH; assumption.
Qed.

Lemma insert_desc_sorted {A} (leb : A -> A -> bool)
  (Htot : forall a b, leb a b = false -> leb b a = true) x l :
  Sorted (fun a b => leb b a = true) l -> Sorted (fun a b => leb b a = true) (insert_desc leb x l).
Proof.
  induction l as [|y l IH]; intros Hs; simpl; [auto|].
  destruct (leb y x) eqn:E; [constructor; [exact Hs | constructor; exact E]|].
  apply Sorted_inv in Hs as [Hs Hh].
  constructor; [apply IH, Hs|].
  destruct l as [|z l]; simpl; [constructor; apply Htot, E|].
  destruct (leb z x); constructor; [apply Htot, E | inversion Hh; assumption].
Qed.

Lemma sort_desc_sorted {A} (leb : A -> A -> bool)
  (Htot : forall a b, leb a b = false -> leb b a = true) l :
  Sorted (fun a b => leb b a = true) (sort_desc leb l).
Proof.
  induction l as [|x l IH]; simpl; [constructor|].
  apply insert_desc_sorted; assumption.
Qed.

Lemma Z_leb_total a b : Z.leb a b = false -> Z.leb b a = true.
Proof. rewrite Z.leb_gt, Z.leb_le; lia. Qed.

Lemma flat_map_find_key_list cp classes (l : list (Q * Z)) :
  NoDup (map class_id classes) -> (forall p, In p l -> In p (map (class_key cp) classes)) ->
  map (class_key cp)
    (flat_map (fun sc => match find (fun c => class_id c =? snd sc) classes with
                         | Some c => [c]
                         | None => []
                         end) l) = l.
Proof.
  intros Hnd; induction l as [|p l IH]; intros H; simpl; [reflexivity|].
  destruct (proj1 (in_map_iff _ _ _) (H p (or_introl eq_refl))) as (c & <- & Hc).
  unfold class_key at 2; simpl snd; rewrite (find_by_id classes c Hnd Hc); simpl.
  rewrite IH; [reflexivity|]. intros p' Hp'; apply H; right; exact Hp'.
Qed.

Lemma flat_map_find_self cp classes :
  NoDup (map class_id classes) ->
  flat_map (fun sc => match find (fun c => class_id c =? snd sc) classes with
                      | Some c => [c]
                      | None => []
                      end) (map (class_key cp) classes) = classes.
Proof.
  intros Hnd.
  assert (H : forall l, incl l classes ->
    flat_map (fun sc => match find (fun c => class_id c =? snd sc) classes with
                        | Some c => [c]
                        | None => []
                        end) (map (class_key cp) l) = l).
  { induction l as [|c l IH]; intros Hl; simpl; [reflexivity|].
    rewrite (find_by_id classes c Hnd (Hl c (or_introl eq_refl))), IH; [reflexivity|].
    intros y Hy; apply Hl; right; exact Hy. }
  apply H, incl_refl.
Qed.

Lemma sort_classes_keys cp classes :
  NoDup (map class_id classes) ->
  map (class_key cp) (sort_classes_by_difficulty classes cp)
  = sort_desc (Q_then Z.leb) (map (class_key cp) classes).
Proof.
  intros Hnd; unfold sort_classes_by_difficulty.
  apply flat_map_find_key_list; [exact Hnd|].
  intros p Hp; apply (Permutation_in _ (sort_desc_perm _ _)) in Hp; exact Hp.
Qed.

(** X11. When the class ids are distinct, [sort_classes_by_difficulty]
    returns a permutation of its input: every class exactly once. *)
Theorem sort_classes_permutation classes cp :
  NoDup (map class_id classes) ->
  Permutation (sort_classes_by_difficulty classes cp) classes.
Proof.
  intros Hnd; unfold sort_classes_by_difficulty.
  rewrite <- (flat_map_find_self cp classes Hnd) at 2.
  apply Permutation_flat_map, sort_desc_perm.
Qed.

Lemma sort_classes_permutation_witness :
  NoDup (map class_id [ex_class 1 4; ex_class 2 8]) /\
  Permutation (sort_classes_by_difficulty [ex_class 1 4; ex_class 2 8] []) [ex_class 1 4; ex_class 2 8].
Proof.
  assert (H : NoDup (map class_id [ex_class 1 4; ex_class 2 8])).
  { simpl; constructor; [intros [H | []]; discriminate | constructor; [intros [] | constructor]]. }
  split; [exact H | exact (sort_classes_permutation _ [] H)].
Defined.

(** X12. When the class ids are distinct, the classes come out in
    non-increasing difficulty score, and classes of equal score in
    non-increasing class id. *)
Theorem sort_classes_ordered classes cp :
  NoDup (map class_id classes) ->
  Sorted (fun a b => (difficulty_score cp b < difficulty_score cp a)%Q \/
                     (difficulty_score cp b == difficulty_score cp a)%Q /\ (class_id b <= class_id a)%Z)
         (sort_classes_by_difficulty classes cp).
Proof.
  intros Hnd.
  pose proof (sort_desc_sorted (Q_then Z.leb) (Q_then_total Z.leb Z_leb_total)
                (map (class_key cp) classes)) as Hs.
  rewrite <- (sort_classes_keys cp classes Hnd) in Hs.
  induction (sort_classes_by_difficulty classes cp) as [|a l IH]; [constructor|].
  simpl in Hs; apply Sorted_inv in Hs as [Hs Hh]; constructor; [apply IH, Hs|].
  destruct l as [|b l]; constructor.
  inversion Hh as [|? ? Hb]; subst.
  apply Q_then_spec in Hb; unfold class_key in Hb; simpl in Hb.
  rewrite Z.leb_le in Hb; exact Hb.
Qed.

Lemma sort_classes_ordered_witness :
  NoDup (map class_id [ex_class 1 4; ex_class 2 8]) /\
  Sorted (fun a b => (difficulty_score [] b < difficulty_score [] a)%Q \/
                     (difficulty_score [] b == difficulty_score [] a)%Q /\ (class_id b <= class_id a)%Z)
         (sort_classes_by_difficulty [ex_class 1 4; ex_class 2 8] []).
Proof.
  assert (H : NoDup (map class_id [ex_class 1 4; ex_class 2 8])).
  { simpl; constructor; [intros [H | []]; discriminate | constructor; [intros [] | constructor]]. }
  split; [exact H | exact (sort_classes_ordered _ [] H)].
Defined.

(** ** The teacher pass *)

Lemma available_teachers_in score_fn ts ta sc prefs tids avail q t :
  available_teachers score_fn ts ta sc prefs tids = Some avail ->
  In (q, t) avail ->
  In t tids /\ teacher_available ta t (sc_day_idx sc) (sc_start_slot sc) (sc_end_slot sc) = true /\
  score_fn t sc prefs ts = Some q.
Proof.
  revert avail; induction tids as [|t0 tids IH]; intros avail; simpl.
  - intros [= <-] [].
  - destruct (teacher_available ta t0 (sc_day_idx sc) (sc_start_slot sc) (sc_end_slot sc)) eqn:Ea.
    + destruct (score_fn t0 sc prefs ts) as [q0|] eqn:Es; [|discriminate].
      destruct (available_teachers score_fn ts ta sc prefs tids) as [rest|] eqn:Er; [|discriminate].
      simpl; intros [= <-] [[= <- <-] | H].
      * auto.
      * destruct (IH rest eq_refl H) as (H1 & H2 & H3); auto.
    + intros H Hin; destruct (IH avail H Hin) as (H1 & H2 & H3); auto.
Qed.

Lemma available_teachers_complete score_fn ts ta sc prefs tids avail t q :
  available_teachers score_fn ts ta sc prefs tids = Some avail ->
  In t tids -> teacher_available ta t (sc_day_idx sc) (sc_start_slot sc) (sc_end_slot sc) = true ->
  score_fn t sc prefs ts = Some q -> In (q, t) avail.
Proof.
  revert avail; induction tids as [|t0 tids IH]; intros avail; simpl; [intros _ []|].
  intros Hav [<- | Ht] Hta Hs.
  - rewrite Hta, Hs in Hav.
    destruct (available_teachers score_fn ts ta sc prefs tids); [|discriminate].
    injection Hav as <-; left; reflexivity.
  - destruct (teacher_available ta t0 (sc_day_idx sc) (sc_start_slot sc) (sc_end_slot sc)).
    + destruct (score_fn t0 sc prefs ts); [|discriminate].
      destruct (available_teachers score_fn ts ta sc prefs tids) as [rest|]; [|discriminate].
      injection Hav as <-; right; exact (IH rest eq_refl Ht Hta Hs).
    + exact (IH avail Hav Ht Hta Hs).
Qed.

Lemma Q_then_Z_trans a b c :
  Q_then Z.leb a b = true -> Q_then Z.leb b c = true -> Q_then Z.leb a c = true.
Proof.
  apply Q_then_trans; intros x y z; rewrite !Z.leb_le; lia.
Qed.

Lemma assign_one_best_gen score_fn ts cp ta sc ta' sc' :
  assign_one score_fn ts cp ta sc = Some (ta', sc') ->
  let prefs := preferred_teachers_of cp (sc_class_id sc) in
  (sc' = sc /\ ta' = ta /\
   forall t, In t (map fst ts) ->
     teacher_available ta t (sc_day_idx sc) (sc_start_slot sc) (sc_end_slot sc) = false) \/
  (exists b q, sc' = with_teacher sc b /\ In b (map fst ts) /\
     teacher_available ta b (sc_day_idx sc) (sc_start_slot sc) (sc_end_slot sc) = true /\
     score_fn b sc prefs ts = Some q /\
     forall t q', In t (map fst ts) ->
       teacher_available ta t (sc_day_idx sc) (sc_start_slot sc) (sc_end_slot sc) = true ->
       score_fn t sc prefs ts = Some q' -> (q' < q)%Q \/ (q' == q)%Q /\ t <= b).
Proof.
  unfold assign_one; cbv zeta.
  destruct (available_teachers score_fn ts ta sc (preferred_teachers_of cp (sc_class_id sc)) (map fst ts))
    as [avail|] eqn:Ea; [|discriminate].
  destruct (sort_desc (Q_then Z.leb) avail) as [|[q b] rest] eqn:Es.
  - intros [= <- <-]; left; split; [reflexivity|]; split; [reflexivity|].
    intros t Ht; destruct (teacher_available ta t _ _ _) eqn:Eta; [|reflexivity].
    exfalso.
    assert (Hm : In t (map snd avail)).
    { rewrite (available_teachers_filter _ _ _ _ _ _ _ Ea); apply filter_In; auto. }
    apply in_map_iff in Hm as ([q' t'] & _ & Hin).
    apply (Permutation_in _ (Permutation_sym (sort_desc_perm (Q_then Z.leb) avail))) in Hin.
    rewrite Es in Hin; destruct Hin.
  - intros [= <- <-]; right.
    assert (Hin : In (q, b) avail).
    { apply (Permutation_in _ (sort_desc_perm (Q_then Z.leb) avail)); rewrite Es; left; reflexivity. }
    destruct (available_teachers_in _ _ _ _ _ _ _ _ _ Ea Hin) as (Hb & Hav & Hq).
    exists b, q; split; [reflexivity|]; split; [exact Hb|]; split; [exact Hav|]; split; [exact Hq|].
    intros t q' Ht Hta Hs.
    pose proof (available_teachers_complete _ _ _ _ _ _ _ _ _ Ea Ht Hta Hs) as Hy.
    pose proof (sort_desc_head_max (Q_then Z.leb) (Q_then_total Z.leb Z_leb_total) Q_then_Z_trans
                  avail _ _ Es _ Hy) as Hmax.
    apply Q_then_spec in Hmax; simpl in Hmax; rewrite Z.leb_le in Hmax; exact Hmax.
Qed.

(** X13. One round of the teacher loop of [assign_teachers_to_classes]:
    either no key of [teacher_specializations] is free over the class and
    the class and the availability are unchanged, or the class gets the
    teacher [b] of highest [score_teacher] among the free keys (ties going to
    the largest id), and [b] is itself a free key. *)
Theorem assign_one_best ts cp ta sc ta' sc' :
  assign_one score_teacher ts cp ta sc = Some (ta', sc') ->
  let prefs := preferred_teachers_of cp (sc_class_id sc) in
  (sc' = sc /\ ta' = ta /\
   forall t, In t (map fst ts) ->
     teacher_available ta t (sc_day_idx sc) (sc_start_slot sc) (sc_end_slot sc) = false) \/
  (exists b q, sc' = with_teacher sc b /\ In b (map fst ts) /\
     teacher_available ta b (sc_day_idx sc) (sc_start_slot sc) (sc_end_slot sc) = true /\
     score_teacher b sc prefs ts = Some q /\
     forall t q', In t (map fst ts) ->
       teacher_available ta t (sc_day_idx sc) (sc_start_slot sc) (sc_end_slot sc) = true ->
       score_teacher t sc prefs ts = Some q' -> (q' < q)%Q \/ (q' == q)%Q /\ t <= b).
Proof. apply assign_one_best_gen. Qed.

Lemma assign_one_best_witness :
  let ts : teacher_specs := [(7, []); (8, [])] in
  let ta := avail_of_keys (ex_open 7 0 4 ++ ex_open 8 0 4) in
  assign_one score_teacher ts [] ta (ex_sched 1 1)
    = Some (fold_left (fun ta slot => set ta (8, 0, slot) false) (zrange 0 4) ta, with_teacher (ex_sched 1 1) 8) /\
  let prefs := preferred_teachers_of [] (sc_class_id (ex_sched 1 1)) in
  ((with_teacher (ex_sched 1 1) 8) = ex_sched 1 1 /\
   fold_left (fun ta slot => set ta (8, 0, slot) false) (zrange 0 4) ta = ta /\
   forall t, In t (map fst ts) ->
     teacher_available ta t (sc_day_idx (ex_sched 1 1)) (sc_start_slot (ex_sched 1 1)) (sc_end_slot (ex_sched 1 1)) = false) \/
  (exists b q, with_teacher (ex_sched 1 1) 8 = with_teacher (ex_sched 1 1) b /\ In b (map fst ts) /\
     teacher_available ta b (sc_day_idx (ex_sched 1 1)) (sc_start_slot (ex_sched 1 1)) (sc_end_slot (ex_sched 1 1)) = true /\
     score_teacher b (ex_sched 1 1) prefs ts = Some q /\
     forall t q', In t (map fst ts) ->
       teacher_available ta t (sc_day_idx (ex_sched 1 1)) (sc_start_slot (ex_sched 1 1)) (sc_end_slot (ex_sched 1 1)) = true ->
       score_teacher t (ex_sched 1 1) prefs ts = Some q' -> (q' < q)%Q \/ (q' == q)%Q /\ t <= b).
Proof.
  intros ts ta.
  assert (H : assign_one score_teacher ts [] ta (ex_sched 1 1)
    = Some (fold_left (fun ta slot => set ta (8, 0, slot) false) (zrange 0 4) ta, with_teacher (ex_sched 1 1) 8))
    by (vm_compute; reflexivity).
  split; [exact H|].
  exact (assign_one_best ts [] ta (ex_sched 1 1) _ _ H).
Defined.

Lemma assign_loop_sound score_fn ts cp ta0 l ta out :
  Forall (fun x => teacher_id x = None) l -> shrinks ta0 ta ->
  assign_loop score_fn ts cp ta l = Some out ->
  forall x t, In x out -> teacher_id x = Some t ->
    In t (map fst ts) /\ forall s, sc_start_slot x <= s < sc_end_slot x -> ta0 (t, sc_day_idx x, s) = true.
Proof.
  revert ta out; induction l as [|sc l IH]; intros ta out Hl Hs; simpl.
  - intros [= <-] x t [].
  - apply Forall_cons_iff in Hl as [Hsc Hl'].
    destruct (assign_one score_fn ts cp ta sc) as [[ta' sc']|] eqn:Ho; [|discriminate].
    destruct (assign_loop score_fn ts cp ta' l) as [out'|] eqn:Er; [|discriminate].
    simpl; intros [= <-].
    destruct (assign_one_cases _ _ _ _ _ _ _ Ho) as [[-> ->] | (b & Hb & Hav & -> & ->)].
    + intros x t [<- | Hx] Ht; [congruence|].
      exact (IH ta out' Hl' Hs Er x t Hx Ht).
    + assert (Hs' : shrinks ta0 (fold_left (fun ta slot => set ta (b, sc_day_idx sc, slot) false)
                                   (zrange (sc_start_slot sc) (sc_end_slot sc)) ta)).
      { eapply shrinks_trans; [exact Hs|]. apply fold_shrinks; intros; apply set_false_shrinks. }
      intros x t [<- | Hx] Ht.
      * simpl in Ht; injection Ht as <-; split; [exact Hb|].
        intros s Hs''; apply Hs; exact (proj1 (teacher_available_spec _ _ _ _ _) Hav s Hs'').
      * exact (IH _ out' Hl' Hs' Er x t Hx Ht).
Qed.

(** X14. When the classes given to [assign_teachers_to_classes] have no
    teacher yet, every returned assigned class has a teacher [t] that is a
    key of [teacher_specializations] and whose input availability is true
    over every slot of the class. *)
Theorem assigned_teachers_sound sch ta cp ts a u :
  Forall (fun x => teacher_id x = None) sch ->
  assign_teachers_to_classes sch ta cp ts = Some (a, u) ->
  forall x, In x a -> exists t, teacher_id x = Some t /\ In t (map fst ts) /\
    forall s, sc_start_slot x <= s < sc_end_slot x -> ta (t, sc_day_idx x, s) = true.
Proof.
  intros Hn; unfold assign_teachers_to_classes, assign_teachers_with.
  destruct (assign_loop score_teacher ts cp ta (sort_asc chrono_leb sch)) as [out|] eqn:E;
    [|discriminate].
  simpl; rewrite split_assigned_spec; intros [= <- _] x Hx.
  apply filter_In in Hx as [Hx Ht]; unfold has_teacher in Ht.
  destruct (teacher_id x) as [t|] eqn:Et; [|discriminate].
  exists t; split; [reflexivity|].
  refine (assign_loop_sound score_teacher ts cp ta (sort_asc chrono_leb sch) ta out _
            (shrinks_refl ta) E x t Hx Et).
  apply Forall_forall; intros y Hy; rewrite Forall_forall in Hn; apply Hn.
  exact (Permutation_in _ (sort_asc_perm chrono_leb sch) Hy).
Qed.

Lemma assigned_teachers_sound_witness :
  Forall (fun x => teacher_id x = None) [ex_sched 1 1] /\
  assign_teachers_to_classes [ex_sched 1 1] ex_ta [] ex_ts
    = Some ([with_teacher (ex_sched 1 1) 7], []) /\
  forall x, In x [with_teacher (ex_sched 1 1) 7] -> exists t, teacher_id x = Some t /\ In t (map fst ex_ts) /\
    forall s, sc_start_slot x <= s < sc_end_slot x -> ex_ta (t, sc_day_idx x, s) = true.
Proof.
  assert (H1 : Forall (fun x => teacher_id x = None) [ex_sched 1 1]) by (repeat constructor).
  assert (H2 : assign_teachers_to_classes [ex_sched 1 1] ex_ta [] ex_ts
    = Some ([with_teacher (ex_sched 1 1) 7], [])) by (vm_compute; reflexivity).
  split; [exact H1|]; split; [exact H2|].
  exact (assigned_teachers_sound _ _ _ _ _ _ H1 H2).
Defined.

Lemma chrono_leb_total a b : chrono_leb a b = false -> chrono_leb b a = true.
Proof.
  unfold chrono_leb; rewrite !orb_true_iff, !orb_false_iff, !andb_true_iff, !andb_false_iff,
    !Z.ltb_lt, !Z.ltb_ge, !Z.eqb_eq, !Z.eqb_neq, !Z.leb_le, !Z.leb_gt; lia.
Qed.

Lemma chrono_leb_trans a b c : chrono_leb a b = true -> chrono_leb b c = true -> chrono_leb a c = true.
Proof.
  unfold chrono_leb; rewrite !orb_true_iff, !andb_true_iff, !Z.ltb_lt, !Z.eqb_eq, !Z.leb_le; lia.
Qed.

Lemma insert_asc_sorted {A} (leb : A -> A -> bool)
  (Htot : forall a b, leb a b = false -> leb b a = true) x l :
  Sorted (fun a b => leb a b = true) l -> Sorted (fun a b => leb a b = true) (insert_asc leb x l).
Proof.
  induction l as [|y l IH]; intros Hs; simpl; [auto|].
  destruct (leb x y) eqn:E; [constructor; [exact Hs | constructor; exact E]|].
  apply Sorted_inv in Hs as [Hs Hh].
  constructor; [apply IH, Hs|].
  destruct l as [|z l]; simpl; [constructor; apply Htot, E|].
  destruct (leb x z); constructor; [apply Htot, E | inversion Hh; assumption].
Qed.

Lemma sort_asc_sorted {A} (leb : A -> A -> bool)
  (Htot : forall a b, leb a b = false -> leb b a = true) l :
  Sorted (fun a b => leb a b = true) (sort_asc leb l).
Proof.
  unfold sort_asc; induction l as [|x l IH]; simpl; [constructor|].
  apply insert_asc_sorted; assumption.
Qed.

Lemma assign_loop_keys score_fn ts cp l ta out :
  assign_loop score_fn ts cp ta l = Some out ->
  map (fun x => (sc_day_idx x, sc_start_slot x)) out = map (fun x => (sc_day_idx x, sc_start_slot x)) l.
Proof.
  intros E; pose proof (f_equal (map (fun x => (sc_day_idx x, sc_start_slot x)))
                          (assign_loop_strip _ _ _ _ _ _ E)) as H.
  rewrite !map_map in H; exact H.
Qed.

Lemma sorted_by_keys {A B} (f : A -> B) (R : A -> A -> Prop) (R' : B -> B -> Prop)
  (HR : forall a b, R' (f a) (f b) -> R a b) (l : list A) (l' : list A) :
  map f l = map f l' -> Sorted R' (map f l') -> Sorted R l.
Proof.
  revert l'; induction l as [|x l IH]; intros l' E Hs; [constructor|].
  destruct l' as [|x' l']; [discriminate|]; simpl in E; injection E as Ex E.
  simpl in Hs; apply Sorted_inv in Hs as [Hs Hh]; constructor; [exact (IH l' E Hs)|].
  destruct l as [|y l]; constructor.
  destruct l' as [|y' l']; [discriminate|]; simpl in E; injection E as Ey _.
  apply HR; rewrite Ex, Ey; inversion Hh; assumption.
Qed.

Lemma sorted_map {A B} (f : A -> B) (R : B -> B -> Prop) (l : list A) :
  Sorted (fun a b => R (f a) (f b)) l -> Sorted R (map f l).
Proof.
  induction 1 as [|x l Hs IH Hh]; simpl; constructor; [exact IH|].
  destruct Hh; simpl; constructor; assumption.
Qed.

Lemma strongly_sorted_filter {A} (R : A -> A -> Prop) (p : A -> bool) l :
  StronglySorted R l -> StronglySorted R (filter p l).
Proof.
  induction l as [|x l IH]; intros Hs; simpl; [constructor|].
  apply StronglySorted_inv in Hs as [Hs Hf].
  destruct (p x); [|apply IH, Hs].
  constructor; [apply IH, Hs|].
  apply Forall_forall; intros y Hy; apply filter_In in Hy as [Hy _].
  rewrite Forall_forall in Hf; apply Hf, Hy.
Qed.

(** X15. The assigned classes and the class records of the unassigned ones
    returned by [assign_teachers_to_classes] are each in chronological order:
    by day index, then by start slot. *)
Theorem teacher_pass_chronological sch ta cp ts a u :
  assign_teachers_to_classes sch ta cp ts = Some (a, u) ->
  StronglySorted (fun x y => chrono_leb x y = true) a /\
  StronglySorted (fun x y => chrono_leb x y = true) (map ua_class u).
Proof.
  unfold assign_teachers_to_classes, assign_teachers_with.
  destruct (assign_loop score_teacher ts cp ta (sort_asc chrono_leb sch)) as [out|] eqn:E;
    [|discriminate].
  simpl; rewrite split_assigned_spec; intros [= <- <-].
  set (key := fun x : scheduled => (sc_day_idx x, sc_start_slot x)).
  set (kleb := fun p q : Z * Z => ((fst p <? fst q) || ((fst p =? fst q) && (snd p <=? snd q)))%Z = true).
  assert (Hout : StronglySorted (fun x y => chrono_leb x y = true) out).
  { apply Sorted_StronglySorted; [intros x y z; apply chrono_leb_trans|].
    apply (sorted_by_keys key _ kleb (fun a b H => H) out (sort_asc chrono_leb sch)
             (assign_loop_keys _ _ _ _ _ _ E)).
    apply sorted_map, (sort_asc_sorted chrono_leb chrono_leb_total sch). }
  split; [apply strongly_sorted_filter, Hout|].
  rewrite map_map; simpl; rewrite map_id; apply strongly_sorted_filter, Hout.
Qed.

Lemma teacher_pass_chronological_witness :
  assign_teachers_to_classes [ex_sched 2 1; ex_sched 1 1] ex_ta [] ex_ts
    = Some ([with_teacher (ex_sched 2 1) 7], [{| ua_class := ex_sched 1 1; ua_reason := no_teacher_reason |}]) /\
  StronglySorted (fun x y => chrono_leb x y = true) [with_teacher (ex_sched 2 1) 7] /\
  StronglySorted (fun x y => chrono_leb x y = true)
    (map ua_class [{| ua_class := ex_sched 1 1; ua_reason := no_teacher_reason |}]).
Proof.
  assert (H : assign_teachers_to_classes [ex_sched 2 1; ex_sched 1 1] ex_ta [] ex_ts
    = Some ([with_teacher (ex_sched 2 1) 7], [{| ua_class := ex_sched 1 1; ua_reason := no_teacher_reason |}]))
    by (vm_compute; reflexivity).
  split; [exact H|].
  exact (teacher_pass_chronological _ _ _ _ _ _ H).
Defined.

(** ** The nested dictionaries built by [load_data] *)

Section DictLemmas.

Context {K V : Type} (eqb : K -> K -> bool) (eqb_spec : forall a b, eqb a b = true <-> a = b).

Lemma dict_get_update (d : dict K V) k default f k' :
  dict_get eqb (dict_update eqb d k default f) k'
  = if eqb k' k
    then Some (f (match dict_get eqb d k with Some v => v | None => default end))
    else dict_get eqb d k'.
Proof.
  induction d as [|[k0 v0] d IH]; simpl.
  - destruct (eqb k' k); reflexivity.
  - destruct (eqb k k0) eqn:E1; simpl.
    + apply eqb_spec in E1; subst k0.
      destruct (eqb k' k); reflexivity.
    + destruct (eqb k' k0) eqn:E2.
      * destruct (eqb k' k) eqn:E3; [|reflexivity].
        apply eqb_spec in E2; apply eqb_spec in E3; subst.
        rewrite (proj2 (eqb_spec k0 k0) eq_refl) in E1; discriminate.
      * rewrite IH; reflexivity.
Qed.

Lemma dict_keys_update (d : dict K V) k default f k' :
  In k' (map fst (dict_update eqb d k default f)) <-> k' = k \/ In k' (map fst d).
Proof.
  induction d as [|[k0 v0] d IH]; simpl; [split; intros [H | []]; auto|].
  destruct (eqb k k0) eqn:E; simpl.
  - apply eqb_spec in E; subst; split; [tauto|]; intros [-> | H]; auto.
  - rewrite IH; split; intros [H | [H | H]]; auto.
Qed.

Lemma dict_nodup_update (d : dict K V) k default f :
  NoDup (map fst d) -> NoDup (map fst (dict_update eqb d k default f)).
Proof.
  induction d as [|[k0 v0] d IH]; simpl; intros Hnd.
  - constructor; [intros []| constructor].
  - inversion Hnd as [|? ? Hnin Hnd']; subst.
    destruct (eqb k k0) eqn:E; simpl; [exact Hnd|].
    constructor; [|apply IH, Hnd'].
    rewrite dict_keys_update; intros [-> | H]; [|exact (Hnin H)].
    rewrite (proj2 (eqb_spec k k) eq_refl) in E; discriminate.
Qed.

End DictLemmas.

Lemma group_rows_lookup {R V} (row_id : R -> Z) (row_kind : R -> string) (entries : R -> list V) rows i k :
  match dict_get Z.eqb (group_rows row_id row_kind entries rows) i with
  | Some kinds => dict_get String.eqb kinds k
  | None => None
  end
  = match filter (fun r => (row_id r =? i) && String.eqb (row_kind r) k) rows with
    | [] => None
    | rs => Some (flat_map entries rs)
    end.
Proof.
  unfold group_rows; induction rows as [|row rows IH] using rev_ind; [reflexivity|].
  rewrite fold_left_app; cbn [fold_left]; cbv beta.
  rewrite (dict_get_update Z.eqb Z.eqb_eq).
  rewrite filter_app; simpl.
  revert IH.
  match goal with |- context [dict_get Z.eqb ?D i] => set (DD := D) end.
  destruct (Z.eqb_spec i (row_id row)) as [Ei | Ei].
  - rewrite <- Ei, Z.eqb_refl; simpl.
    rewrite (dict_get_update String.eqb String.eqb_eq).
    destruct (String.eqb_spec k (row_kind row)) as [Ek | Ek].
    + rewrite <- Ek, String.eqb_refl.
      match goal with |- context [@dict_get ?K ?W ?e DD i] => destruct (@dict_get K W e DD i) as [kinds|] end; intros IH.
      * rewrite IH.
        destruct (filter _ rows); simpl; [rewrite ?app_nil_r; reflexivity|].
        rewrite flat_map_app; simpl; rewrite !app_nil_r, app_assoc; reflexivity.
      * destruct (filter _ rows); [simpl; rewrite ?app_nil_r; reflexivity | discriminate].
    + rewrite (proj2 (String.eqb_neq _ _) (not_eq_sym Ek)), ?andb_false_r, app_nil_r.
      match goal with |- context [@dict_get ?K ?W ?e DD i] => destruct (@dict_get K W e DD i) as [kinds|] end; intros IH; exact IH.
  - rewrite ?(proj2 (Z.eqb_neq _ _) Ei), ?(proj2 (Z.eqb_neq _ _) (not_eq_sym Ei)); simpl.
    rewrite ?app_nil_r; intros IH; exact IH.
Qed.

Lemma group_rows_keys {R V} (row_id : R -> Z) (row_kind : R -> string) (entries : R -> list V) rows i :
  In i (map fst (group_rows row_id row_kind entries rows)) <-> exists r, In r rows /\ row_id r = i.
Proof.
  unfold group_rows; induction rows as [|row rows IH] using rev_ind.
  - simpl; split; [intros [] | intros (r & [] & _)].
  - rewrite fold_left_app; cbn [fold_left]; rewrite (dict_keys_update Z.eqb Z.eqb_eq), IH.
    split.
    + intros [-> | (r & Hr & <-)]; [exists row | exists r]; rewrite in_app_iff; simpl; tauto.
    + intros (r & Hr & <-); apply in_app_or in Hr as [Hr | [<- | []]]; [right; exists r; auto | left; auto].
Qed.

Lemma group_rows_nodup {R V} (row_id : R -> Z) (row_kind : R -> string) (entries : R -> list V) rows :
  NoDup (map fst (group_rows row_id row_kind entries rows)).
Proof.
  unfold group_rows; induction rows as [|row rows IH] using rev_ind; [constructor|].
  rewrite fold_left_app; cbn [fold_left]; apply (dict_nodup_update Z.eqb Z.eqb_eq), IH.
Qed.

Lemma flat_map_single {A B} (f : A -> B) l : flat_map (fun x => [f x]) l = map f l.
Proof. induction l as [|x l IH]; simpl; [reflexivity | rewrite IH; reflexivity]. Qed.

Lemma load_teacher_specializations_lookup_gen rows t kind :
  match dict_get Z.eqb (load_teacher_specializations rows) t with
  | Some specs => dict_get String.eqb specs kind
  | None => None
  end
  = match filter (fun r => (sr_teacher r =? t) && String.eqb (sr_type r) kind) rows with
    | [] => None
    | rs => Some (map sr_value rs)
    end.
Proof.
  unfold load_teacher_specializations; rewrite group_rows_lookup.
  destruct (filter _ rows) as [|r rs]; [reflexivity|].
  rewrite flat_map_single; reflexivity.
Qed.

(** X16. Looking up teacher [t] and specialization type [kind] in the
    dictionary built by [load_data] gives the values of the rows with that
    teacher id and type, in row order; it gives nothing ([KeyError]) when no
    row has both. *)
Theorem load_teacher_specializations_lookup rows t kind :
  match dict_get Z.eqb (load_teacher_specializations rows) t with
  | Some specs => dict_get String.eqb specs kind
  | None => None
  end
  = match filter (fun r => (sr_teacher r =? t) && String.eqb (sr_type r) kind) rows with
    | [] => None
    | rs => Some (map sr_value rs)
    end.
Proof. apply load_teacher_specializations_lookup_gen. Qed.

(** X17. The teacher ids of [teacher_specializations] (the candidate teachers
    of the teacher pass) are exactly the ids that appear on at least one
    specialization row, each listed once. *)
Theorem load_teacher_specializations_keys rows t :
  (In t (map fst (load_teacher_specializations rows)) <-> exists r, In r rows /\ sr_teacher r = t) /\
  NoDup (map fst (load_teacher_specializations rows)).
Proof.
  split; [apply group_rows_keys | apply group_rows_nodup].
Qed.

Lemma class_preferences_lookup parse_time_range rooms rows cid kind :
  prefs_of (load_class_preferences parse_time_range rooms rows) cid kind
  = match filter (fun r => (pr_class r =? cid) && String.eqb (pr_type r) kind) rows with
    | [] => None
    | rs => Some (flat_map (pref_entries parse_time_range rooms) rs)
    end.
Proof. unfold prefs_of, load_class_preferences; apply group_rows_lookup. Qed.

(** X18. Looking up class [cid] and preference type [kind] in the
    [class_preferences] built by [load_data] gives the entries produced by
    the rows with that class id and type, in row order (a parsed time range
    gives one entry per slot, a known room name its room id); it gives
    nothing when no row has both. *)
Theorem load_class_preferences_lookup parse_time_range rooms rows cid kind :
  prefs_of (load_class_preferences parse_time_range rooms rows) cid kind
  = match filter (fun r => (pr_class r =? cid) && String.eqb (pr_type r) kind) rows with
    | [] => None
    | rs => Some (flat_map (pref_entries parse_time_range rooms) rs)
    end.
Proof. apply class_preferences_lookup. Qed.

Lemma pref_entries_time_no_dash parse_time_range rooms r v :
  pr_type r = "time"%string -> pr_value r = VStr v -> has_dash v = false ->
  map value (pref_entries parse_time_range rooms r) = [VStr v].
Proof.
  intros Ht Hv Hd; unfold pref_entries; rewrite Hv, Ht, Hd; reflexivity.
Qed.

(** X19. A class whose time preference rows are all strings without a dash
    (a single start time such as ["09:00"], which [load_data] keeps as a
    string) is never placed by [assign_classes_to_slots] on the loaded
    preferences: no placement carries its class id. *)
Theorem single_time_preference_unschedulable parse_time_range classes rooms avail rows cid :
  (exists r, In r rows /\ pr_class r = cid /\ pr_type r = "time"%string) ->
  (forall r, In r rows -> pr_class r = cid -> pr_type r = "time"%string ->
     exists v, pr_value r = VStr v /\ has_dash v = false) ->
  forall x, In x (fst (assign_classes_to_slots classes rooms avail
                        (load_class_preferences parse_time_range rooms rows))) ->
  sc_class_id x <> cid.
Proof.
  intros (r0 & Hr0 & Hc0 & Ht0) Hall x Hx Hid.
  destruct (assign_classes_sound _ _ _ _ _ Hx) as (c & rm & d & st & _ & _ & Ex & _ & _ & _ & _ & Hpt & _).
  subst x; simpl in Hid; rewrite <- Hid in Hc0, Hall.
  unfold pref_values in Hpt; rewrite class_preferences_lookup in Hpt.
  set (F := fun r => (pr_class r =? class_id c) && String.eqb (pr_type r) "time") in Hpt.
  assert (Hin0 : In r0 (filter F rows)).
  { apply filter_In; split; [exact Hr0|]; unfold F; rewrite Hc0, Ht0, Z.eqb_refl; reflexivity. }
  assert (Hvals : forall v, In v (map value (flat_map (pref_entries parse_time_range rooms) (filter F rows))) ->
                  exists g, v = VStr g).
  { intros v Hv; apply in_map_iff in Hv as (p & <- & Hp); apply in_flat_map in Hp as (r & Hr & Hp).
    apply filter_In in Hr as [Hr Hf]; unfold F in Hf; apply andb_true_iff in Hf as [Hc Ht].
    apply Z.eqb_eq in Hc; apply String.eqb_eq in Ht.
    destruct (Hall r Hr Hc Ht) as (g & Hv & Hd).
    pose proof (pref_entries_time_no_dash parse_time_range rooms r g Ht Hv Hd) as E.
    exists g; apply (in_map value) in Hp; rewrite E in Hp; destruct Hp as [<- | []]; reflexivity. }
  destruct (filter F rows) as [|r1 rs] eqn:Ef; [destruct Hin0|].
  destruct Hpt as [Hnil | Hst].
  - destruct (Hall r1) as (g & Hv & Hd).
    + assert (H1 : In r1 (filter F rows)) by (rewrite Ef; left; reflexivity).
      apply filter_In in H1 as [H1 _]; exact H1.
    + assert (H1 : In r1 (filter F rows)) by (rewrite Ef; left; reflexivity).
      apply filter_In in H1 as [_ H1]; unfold F in H1; apply andb_true_iff in H1 as [H1 _].
      apply Z.eqb_eq; exact H1.
    + assert (H1 : In r1 (filter F rows)) by (rewrite Ef; left; reflexivity).
      apply filter_In in H1 as [_ H1]; unfold F in H1; apply andb_true_iff in H1 as [_ H1].
      apply String.eqb_eq; exact H1.
    + simpl in Hnil; rewrite map_app, (pref_entries_time_no_dash _ _ _ g) in Hnil.
      * discriminate.
      * assert (H1 : In r1 (filter F rows)) by (rewrite Ef; left; reflexivity).
        apply filter_In in H1 as [_ H1]; unfold F in H1; apply andb_true_iff in H1 as [_ H1].
        apply String.eqb_eq; exact H1.
      * exact Hv.
      * exact Hd.
  - destruct (Hvals _ Hst) as (g & Eg); discriminate.
Qed.

Lemma single_time_preference_unschedulable_witness :
  let rows := [{| pr_class := 1; pr_type := "time"; pr_value := VStr "09:00"; pr_weight := 1%Q |}] in
  (exists r, In r rows /\ pr_class r = 1 /\ pr_type r = "time"%string) /\
  (forall r, In r rows -> pr_class r = 1 -> pr_type r = "time"%string ->
     exists v, pr_value r = VStr v /\ has_dash v = false) /\
  forall x, In x (fst (assign_classes_to_slots [ex_class 1 4] [ex_R1] (avail_of_keys (ex_open 1 0 4))
                        (load_class_preferences (fun _ => None) [ex_R1] rows))) ->
  sc_class_id x <> 1.
Proof.
  intros rows.
  assert (H1 : exists r, In r rows /\ pr_class r = 1 /\ pr_type r = "time"%string).
  { eexists; split; [left; reflexivity | split; reflexivity]. }
  assert (H2 : forall r, In r rows -> pr_class r = 1 -> pr_type r = "time"%string ->
                 exists v, pr_value r = VStr v /\ has_dash v = false).
  { intros r [<- | []] _ _; exists "09:00"%string; split; reflexivity. }
  split; [exact H1|]; split; [exact H2|].
  exact (single_time_preference_unschedulable (fun _ => None) [ex_class 1 4] [ex_R1]
           (avail_of_keys (ex_open 1 0 4)) rows 1 H1 H2).
Defined.

(** ** Totality of the teacher pass *)

Lemma age_match_strings sc l :
  (forall v, In v l -> exists g, v = VStr g) -> exists b, age_match sc l = Some b.
Proof.
  induction l as [|v l IH]; intros H; simpl; [eauto|].
  destruct (H v (or_introl eq_refl)) as (g & ->).
  assert (IH' : exists b, age_match sc l = Some b) by (apply IH; intros; apply H; right; assumption).
  destruct (parse_age_range g) as [[a b]|];
    [destruct ((a <=? sc_age_start sc) && (sc_age_end sc <=? b)) | destruct (String.eqb _ _)]; eauto.
Qed.

Lemma score_teacher_some tid sc pt ts :
  (forall specs l, dict_get Z.eqb ts tid = Some specs -> dict_get String.eqb specs "age_group"%string = Some l ->
     forall v, In v l -> exists g, v = VStr g) ->
  exists q, score_teacher tid sc pt ts = Some q.
Proof.
  intros H; unfold score_teacher.
  destruct (dict_get Z.eqb ts tid) as [specs|] eqn:Es; [|eauto].
  destruct (dict_get String.eqb specs "age_group"%string) as [l|] eqn:El; [|simpl; eauto].
  destruct (age_match_strings sc l (H specs l eq_refl El)) as (b & Eb).
  rewrite Eb; simpl; eauto.
Qed.

Lemma assign_loop_some score_fn ts cp l ta :
  (forall t sc prefs, exists q, score_fn t sc prefs ts = Some q) ->
  exists out, assign_loop score_fn ts cp ta l = Some out.
Proof.
  intros Hs.
  assert (Hav : forall ta sc prefs tids, exists avail, available_teachers score_fn ts ta sc prefs tids = Some avail).
  { intros ta' sc prefs tids; induction tids as [|t tids [avail IH]]; simpl; [eauto|].
    destruct (teacher_available _ _ _ _ _); [|eauto].
    destruct (Hs t sc prefs) as (q & ->); rewrite IH; simpl; eauto. }
  revert ta; induction l as [|sc l IH]; intros ta; simpl; [eauto|].
  unfold assign_one.
  destruct (Hav ta sc (preferred_teachers_of cp (sc_class_id sc)) (map fst ts)) as (avail & ->).
  destruct (sort_desc (Q_then Z.leb) avail) as [|[q b] rest].
  - destruct (IH ta) as (out & ->); simpl; eauto.
  - match goal with |- context [assign_loop score_fn ts cp ?ta' l] => destruct (IH ta') as (out & ->) end.
    simpl; eauto.
Qed.

(** X20. When every specialization value of the sheet is text, the teacher
    pass on the loaded [teacher_specializations] never raises: it returns an
    assigned and an unassigned list for any classes, availability and
    preferences. (A numeric [age_group] cell makes [age_group.split] raise.) *)
Theorem teacher_pass_total_on_text_specs sch ta cp rows :
  (forall r, In r rows -> exists g, sr_value r = VStr g) ->
  exists a u, assign_teachers_to_classes sch ta cp (load_teacher_specializations rows) = Some (a, u).
Proof.
  intros Hrows.
  assert (Hs : forall t sc prefs, exists q, score_teacher t sc prefs (load_teacher_specializations rows) = Some q).
  { intros t sc prefs; apply score_teacher_some.
    intros specs l Es El v Hv.
    pose proof (load_teacher_specializations_lookup_gen rows t "age_group"%string) as E.
    rewrite Es, El in E.
    destruct (filter _ rows) as [|r rs] eqn:Ef; [discriminate|].
    injection E as ->; change (In v (map sr_value (r :: rs))) in Hv.
    apply in_map_iff in Hv as (r' & <- & Hr').
    rewrite <- Ef in Hr'; apply filter_In in Hr' as [Hr' _]; exact (Hrows r' Hr'). }
  unfold assign_teachers_to_classes, assign_teachers_with.
  destruct (assign_loop_some score_teacher (load_teacher_specializations rows) cp
              (sort_asc chrono_leb sch) ta Hs) as (out & ->).
  simpl; destruct (split_assigned out) as [a u]; eauto.
Qed.

Lemma teacher_pass_total_on_text_specs_witness :
  let rows := [{| sr_teacher := 7; sr_type := "style"; sr_value := VStr "ballet" |}] in
  (forall r, In r rows -> exists g, sr_value r = VStr g) /\
  exists a u, assign_teachers_to_classes [ex_sched 1 1] ex_ta [] (load_teacher_specializations rows) = Some (a, u).
Proof.
  intros rows.
  assert (H : forall r, In r rows -> exists g, sr_value r = VStr g).
  { intros r [<- | []]; eexists; reflexivity. }
  split; [exact H | exact (teacher_pass_total_on_text_specs [ex_sched 1 1] ex_ta [] rows H)].
Defined.

(** ** Score bounds *)

(** X21. [score_teacher] adds at most 16 points to the preference bonus
    (the weight of the first preference entry naming the teacher, times 10):
    8 for the style, 5 for the age group and 3 for the level. *)
Theorem score_teacher_bounds tid sc pt ts s :
  score_teacher tid sc pt ts = Some s ->
  let pscore := match find (fun tw => pyval_eqb (fst tw) (VInt tid)) pt with
                | Some (_, w) => (w * 10)%Q
                | None => 0%Q
                end in
  (pscore <= s <= pscore + 16)%Q.
Proof.
  unfold score_teacher; cbv zeta.
  set (P := match find _ pt with Some (_, w) => _ | None => _ end).
  destruct (dict_get Z.eqb ts tid) as [specs|].
  - set (S1 := match dict_get String.eqb specs "style"%string with Some l => _ | None => _ end).
    set (L1 := match dict_get String.eqb specs "level"%string with Some l => _ | None => _ end).
    assert (HS : (0 <= S1 <= 8)%Q).
    { unfold S1; destruct (dict_get String.eqb specs "style"%string); [destruct (py_in _ _)|]; lra. }
    assert (HL : (0 <= L1 <= 3)%Q).
    { unfold L1; destruct (dict_get String.eqb specs "level"%string); [destruct (py_in _ _)|]; lra. }
    destruct (dict_get String.eqb specs "age_group"%string) as [l|].
    + destruct (age_match sc l) as [[|]|]; simpl; intros [= <-]; lra.
    + simpl; intros [= <-]; lra.
  - intros [= <-]; lra.
Qed.

Lemma score_teacher_bounds_witness :
  score_teacher 7 (ex_sched 1 1) [(VInt 7, 2%Q)] [(7, [("style"%string, [VStr "ballet"])])] = Some 28%Q /\
  let pscore := match find (fun tw => pyval_eqb (fst tw) (VInt 7)) [(VInt 7, 2%Q)] with
                | Some (_, w) => (w * 10)%Q
                | None => 0%Q
                end in
  (pscore <= 28 <= pscore + 16)%Q.
Proof.
  assert (H : score_teacher 7 (ex_sched 1 1) [(VInt 7, 2%Q)] [(7, [("style"%string, [VStr "ballet"])])]
              = Some 28%Q) by (vm_compute; reflexivity).
  split; [exact H | exact (score_teacher_bounds _ _ _ _ _ H)].
Defined.

Lemma fold_max_ge {A} (f : A -> Z) l a : a <= fold_left (fun acc r => Z.max acc (f r)) l a.
Proof.
  revert a; induction l as [|x l IH]; intros a; simpl; [lia|].
  specialize (IH (Z.max a (f x))); lia.
Qed.

Lemma fold_max_in {A} (f : A -> Z) l a x : In x l -> f x <= fold_left (fun acc r => Z.max acc (f r)) l a.
Proof.
  revert a; induction l as [|y l IH]; intros a Hx; simpl; [destruct Hx|].
  destruct Hx as [-> | Hx]; [|apply IH, Hx].
  pose proof (fold_max_ge f l (Z.max a (f x))); lia.
Qed.

Lemma room_balance_nonneg rid sch rooms : 0 <= room_balance rid sch rooms.
Proof.
  unfold room_balance; cbv zeta.
  destruct (0 <? fold_left _ (map room_id rooms) 0) eqn:E; [|lia].
  apply Z.ltb_lt in E.
  destruct (existsb (Z.eqb rid) (map room_id rooms)) eqn:Ex; [|lia].
  apply existsb_exists in Ex as (r & Hr & Er); apply Z.eqb_eq in Er; subst r.
  pose proof (fold_max_in (count_in_room sch) (map room_id rooms) 0 rid Hr); lia.
Qed.

Lemma day_balance_nonneg d sch : 0 <= day_balance d sch.
Proof.
  unfold day_balance; cbv zeta.
  destruct (0 <? fold_left _ (zrange 0 7) 0) eqn:E; [|lia].
  apply Z.ltb_lt in E.
  destruct ((0 <=? d) && (d <? 7)) eqn:Ed; [|lia].
  apply andb_true_iff in Ed as [E1 E2]; apply Z.leb_le in E1; apply Z.ltb_lt in E2.
  pose proof (fold_max_in (count_on_day sch) (zrange 0 7) 0 d (proj2 (in_zrange _ _ _) (conj E1 E2))); lia.
Qed.

Lemma continuity_nonneg slot c sch : 0 <= continuity slot c sch.
Proof.
  destruct slot as [[rid d] st]; unfold continuity.
  assert (H : forall l a, 0 <= a -> 0 <= fold_left (fun acc s =>
    if (sc_room_id s =? rid) && (sc_day_idx s =? d) then
      let after :=
        if sc_end_slot s =? st then
          (if String.eqb (sc_style s) (style c) then 5 else 0)
          + (if sc_level s + 1 =? level c then 3 else 0)
        else 0 in
      let before :=
        if st + duration_slots c =? sc_start_slot s then
          (if String.eqb (sc_style s) (style c) then 5 else 0)
          + (if level c + 1 =? sc_level s then 3 else 0)
        else 0 in
      acc + after + before
    else acc) l a).
  { induction l as [|s l IH]; intros a Ha; simpl; [exact Ha|].
    apply IH; cbv zeta.
    destruct (_ && _); [|exact Ha].
    repeat match goal with |- context [if ?b then _ else _] => destruct b end; lia. }
  apply H; lia.
Qed.

Lemma dict_get_in {K V} (eqb : K -> K -> bool) (d : dict K V) k v :
  dict_get eqb d k = Some v -> exists k', In (k', v) d.
Proof.
  induction d as [|[k0 v0] d IH]; simpl; [discriminate|].
  destruct (eqb k k0); [intros [= <-]; exists k0; left; reflexivity|].
  intros H; destruct (IH H) as (k' & Hk); exists k'; right; exact Hk.
Qed.

Lemma find_weight_nonneg (f : pref -> bool) (ps : list pref) (g : Q -> Q) :
  (forall p, In p ps -> 0 <= weight p)%Q -> (forall w, 0 <= w -> 0 <= g w)%Q ->
  (0 <= match find f ps with Some p => g (weight p) | None => 0 end)%Q.
Proof.
  intros Hw Hg; destruct (find f ps) as [p|] eqn:E; [|lra].
  apply Hg, Hw; exact (proj1 (find_some _ _ E)).
Qed.

(** Case analysis on a dictionary lookup, whatever the spelling of the
    value type. *)
Ltac case_dict_get d k name E :=
  match goal with
  | |- context [@dict_get ?K ?W ?e d k] => destruct (@dict_get K W e d k) as [name|] eqn:E
  end.

(** X22. The balance and continuity terms of [score_slot] are never
    negative: when the preference weights of the class are non-negative, the
    slot score is at least the preference score, which is non-negative. *)
Theorem score_slot_bounds rid d st c cp sch rooms :
  (forall prefs kind ps p, dict_get Z.eqb cp (class_id c) = Some prefs ->
     In (kind, ps) prefs -> In p ps -> 0 <= weight p)%Q ->
  (0 <= pref_score (rid, d, st) c cp <= score_slot (rid, d, st) c cp sch rooms)%Q.
Proof.
  intros Hw; split.
  - unfold pref_score; cbv beta iota.
    case_dict_get cp (class_id c) prefs Ep; [|lra].
    assert (Hk : forall kind ps, dict_get String.eqb prefs kind = Some ps -> forall p, In p ps -> (0 <= weight p)%Q).
    { intros kind ps Hps p Hp; destruct (dict_get_in _ _ _ _ Hps) as (k' & Hk').
      exact (Hw prefs k' ps p Ep Hk' Hp). }
    assert (H1 : (0 <= room_pref_score rid prefs)%Q).
    { unfold room_pref_score; case_dict_get prefs "room"%string ps E; [|lra].
      apply (find_weight_nonneg _ ps (fun w => w * 10)%Q); [exact (Hk _ _ E) | intros; lra]. }
    assert (H2 : (0 <= day_pref_score d prefs)%Q).
    { unfold day_pref_score; case_dict_get prefs "day"%string ps E; [|lra].
      destruct (index_to_day d); [|lra].
      apply (find_weight_nonneg _ ps (fun w => w * 8)%Q); [exact (Hk _ _ E) | intros; lra]. }
    assert (H3 : (0 <= time_pref_score c st prefs)%Q).
    { unfold time_pref_score; case_dict_get prefs "time"%string ps E; [|lra].
      apply (find_weight_nonneg _ ps (fun w => w * 5)%Q); [exact (Hk _ _ E) | intros; lra]. }
    lra.
  - unfold score_slot.
    pose proof (room_balance_nonneg rid sch rooms) as Hr.
    pose proof (day_balance_nonneg d sch) as Hd.
    pose proof (continuity_nonneg (rid, d, st) c sch) as Hc.
    apply (Qle_trans _ (pref_score (rid, d, st) c cp + 0 + 0 + 0)); [lra|].
    repeat apply Qplus_le_compat; try apply Qle_refl; change 0%Q with (inject_Z 0); rewrite <- Zle_Qle; assumption.
Qed.

Lemma score_slot_bounds_witness :
  (forall prefs kind ps p, dict_get Z.eqb ex_time_prefs (class_id (ex_class 1 4)) = Some prefs ->
     In (kind, ps) prefs -> In p ps -> 0 <= weight p)%Q /\
  (0 <= pref_score (1%Z, 0%Z, 0%Z) (ex_class 1 4) ex_time_prefs
     <= score_slot (1%Z, 0%Z, 0%Z) (ex_class 1 4) ex_time_prefs [] [ex_R1])%Q.
Proof.
  assert (H : (forall prefs kind ps p, dict_get Z.eqb ex_time_prefs (class_id (ex_class 1 4)) = Some prefs ->
     In (kind, ps) prefs -> In p ps -> 0 <= weight p)%Q).
  { intros prefs kind ps p E; vm_compute in E; injection E as <-.
    intros [[= <- <-] | []] Hp; vm_compute in Hp.
    repeat (destruct Hp as [<- | Hp]; [vm_compute; discriminate|]); destruct Hp. }
  split; [exact H | exact (score_slot_bounds 1 0 0 _ _ [] [ex_R1] H)].
Defined.

(** ** Slot indices and the scheduling rate *)

(** X23. [time_to_slot_index] maps every clock time [hour:minute] of a day to
    one of the 96 slots [0..95], and it inverts the arithmetic of
    [slot_index_to_time]: hour [slot // 4] and minute [(slot % 4) * 15] give
    back [slot] for every [slot >= 0]. *)
Theorem time_to_slot_index_range_and_inverse :
  (forall h m, 0 <= h < 24 -> 0 <= m < 60 -> 0 <= time_to_slot_index h m < 96) /\
  (forall s, 0 <= s -> time_to_slot_index (s / 4) ((s mod 4) * 15) = s).
Proof.
  unfold time_to_slot_index; split.
  - intros h m Hh Hm.
    pose proof (Z.div_pos m 15 ltac:(lia) ltac:(lia)).
    assert (m / 15 < 4) by (apply Z.div_lt_upper_bound; lia).
    lia.
  - intros s Hs; rewrite Z.div_mul by lia.
    pose proof (Z.div_mod s 4 ltac:(lia)); lia.
Qed.

Lemma schedule_lengths data a ut :
  assign_teachers_to_classes
    (fst (assign_classes_to_slots (d_classes data) (d_rooms data) (d_room_availability data)
            (d_class_preferences data)))
    (d_teacher_availability data) (d_class_preferences data) (d_teacher_specializations data)
    = Some (a, ut) ->
  (List.length a + List.length ut
   + List.length (snd (assign_classes_to_slots (d_classes data) (d_rooms data) (d_room_availability data)
                         (d_class_preferences data))) = List.length (d_classes data))%nat.
Proof.
  pose proof (place_loop_ids (d_rooms data) (d_class_preferences data)
                (sort_classes_by_difficulty (d_classes data) (d_class_preferences data))
                (create_room_availability_matrix (d_rooms data) (d_room_availability data)) [] [])
    as H1.
  pose proof (Permutation_length (sort_classes_ids (d_classes data) (d_class_preferences data))) as H0.
  unfold assign_classes_to_slots.
  revert H1; destruct (fold_left _ _ _) as [[m' sch'] ur']; simpl; intros H1 E2.
  pose proof (Permutation_length (teacher_pass_strip _ _ _ _ _ _ E2)) as H2.
  apply Permutation_length in H1.
  rewrite length_map, length_app, length_map, length_map in H2.
  rewrite !length_app, !length_map in H1; rewrite !length_map in H0.
  lia.
Qed.

(** X24. The [scheduling_rate] of the [stats] dict built from the two phases
    lies between 0 and 1, and it is 1 exactly when there is at least one
    class and every class was both placed and given a teacher. *)
Theorem scheduling_rate_bounds data st :
  phase_stats data = Some st ->
  (0 <= scheduling_rate st <= 1)%Q /\
  ((scheduling_rate st == 1)%Q <-> 0 < total_classes st /\ scheduled_classes st = total_classes st).
Proof.
  unfold phase_stats.
  pose proof (schedule_lengths data) as HL.
  destruct (assign_classes_to_slots (d_classes data) (d_rooms data) (d_room_availability data)
              (d_class_preferences data)) as [sch ur] eqn:E1; simpl in HL.
  destruct (assign_teachers_to_classes sch (d_teacher_availability data) (d_class_preferences data)
              (d_teacher_specializations data)) as [[a ut]|] eqn:E2; [|discriminate].
  intros [= <-]; simpl.
  specialize (HL a ut eq_refl).
  unfold calc_scheduling_rate, zlen.
  destruct (d_classes data) as [|c cs] eqn:Ec.
  - simpl in HL |- *; split; [lra|].
    split; [intros H; vm_compute in H; discriminate H | intros [H _]; lia].
  - set (n := Z.of_nat (List.length a)); set (t := Z.of_nat (List.length (c :: cs))).
    assert (Ht : 0 < t) by (unfold t; simpl; lia).
    assert (Hn : 0 <= n <= t) by (unfold n, t; lia).
    assert (Hn0 : (0 <= inject_Z n)%Q) by (change 0%Q with (inject_Z 0); rewrite <- Zle_Qle; lia).
    assert (Hnt : (inject_Z n <= inject_Z t)%Q) by (rewrite <- Zle_Qle; lia).
    assert (Ht' : (0 < inject_Z t)%Q) by (change 0%Q with (inject_Z 0); rewrite <- Zlt_Qlt; lia).
    assert (Htz : ~ (inject_Z t == 0)%Q) by (intros Hz; rewrite Hz in Ht'; exact (Qlt_irrefl 0 Ht')).
    split; [split|].
    + apply Qle_shift_div_l; [exact Ht'|]; lra.
    + apply Qle_shift_div_r; [exact Ht'|]; lra.
    + split.
      * intros H; split; [exact Ht|].
        assert (Hq : (inject_Z n == inject_Z t)%Q).
        { rewrite <- (Qmult_1_l (inject_Z t)), <- H; field; exact Htz. }
        unfold Qeq in Hq; cbn [Qnum Qden inject_Z] in Hq; lia.
      * intros [_ ->]; field; exact Htz.
Qed.

Lemma scheduling_rate_bounds_witness :
  phase_stats ex_data = Some ex_stats /\
  (0 <= scheduling_rate ex_stats <= 1)%Q /\
  ((scheduling_rate ex_stats == 1)%Q <-> 0 < total_classes ex_stats /\ scheduled_classes ex_stats = total_classes ex_stats).
Proof.
  assert (H : phase_stats ex_data = Some ex_stats) by (vm_compute; reflexivity).
  split; [exact H | exact (scheduling_rate_bounds ex_data ex_stats H)].
Defined.

(** ** Room names and marking frames *)

Lemma room_name_to_id_fold rooms n acc :
  fold_left (fun acc r => if String.eqb (room_name r) n then Some (room_id r) else acc) rooms acc =
  match hd_error (rev (filter (named n) rooms)) with Some r => Some (room_id r) | None => acc end.
Proof.
  unfold named; revert acc; induction rooms as [|r rs IH]; intros acc; simpl; [reflexivity|].
  rewrite IH; destruct (String.eqb (room_name r) n) eqn:E; [|reflexivity].
  simpl; destruct (rev (filter _ rs)); reflexivity.
Qed.

Lemma first_room_named_filter rooms n :
  first_room_named rooms n = option_map room_id (hd_error (filter (named n) rooms)).
Proof.
  unfold named; induction rooms as [|r rs IH]; simpl; [reflexivity|].
  destruct (String.eqb (room_name r) n); [reflexivity | exact IH].
Qed.

Lemma filter_named_nil rooms n : ~ In n (map room_name rooms) -> filter (named n) rooms = [].
Proof.
  unfold named; induction rooms as [|r rs IH]; intros H; simpl; [reflexivity|].
  destruct (String.eqb (room_name r) n) eqn:E.
  - apply String.eqb_eq in E; exfalso; apply H; left; exact E.
  - apply IH; intros H'; apply H; right; exact H'.
Qed.

Lemma filter_named_unique rooms n :
  NoDup (map room_name rooms) -> filter (named n) rooms = [] \/ exists r, filter (named n) rooms = [r].
Proof.
  induction rooms as [|r rs IH]; intros H; [left; reflexivity|].
  inversion H as [|x l Hx Hnd]; subst.
  change (filter (named n) (r :: rs)) with (if named n r then r :: filter (named n) rs else filter (named n) rs).
  destruct (named n r) eqn:E.
  - unfold named in E; apply String.eqb_eq in E; subst n; right; exists r.
    rewrite filter_named_nil by exact Hx; reflexivity.
  - exact (IH Hnd).
Qed.

(** X25. [room_name_to_id] is a dict comprehension over the rooms: a name
    resolves to the id of the last room with that name, and to nothing when
    no room has it. *)
Theorem room_name_to_id_last rooms n :
  room_name_to_id rooms n = option_map room_id (hd_error (rev (filter (named n) rooms))).
Proof.
  unfold room_name_to_id; rewrite room_name_to_id_fold.
  destruct (hd_error (rev (filter (named n) rooms))); reflexivity.
Qed.

(** X26. When room names are distinct, the loader's [room_name_to_id] (last
    room with the name) and the component lookup of the seeding
    ([first_room_named], first room with the name) resolve every name to the
    same room id. *)
Theorem room_name_to_id_first_when_unique rooms n :
  NoDup (map room_name rooms) -> room_name_to_id rooms n = first_room_named rooms n.
Proof.
  intros H; unfold room_name_to_id; rewrite room_name_to_id_fold, first_room_named_filter.
  destruct (filter_named_unique rooms n H) as [-> | [r ->]]; reflexivity.
Qed.

Lemma room_name_to_id_first_when_unique_witness :
  NoDup (map room_name ex_rooms) /\
  room_name_to_id ex_rooms "R1" = first_room_named ex_rooms "R1".
Proof.
  assert (H : NoDup (map room_name ex_rooms)).
  { cbn; repeat (apply NoDup_cons; [simpl; intuition discriminate|]).
    apply NoDup_nil. }
  split; [exact H | exact (room_name_to_id_first_when_unique ex_rooms "R1" H)].
Defined.
